(** * Drawing annotations of the chart library: renderers and primitives

    A shallow embedding of the annotation plugins (horizontal line,
    horizontal ray, vertical line, rectangle, trend line, long/short
    position, background regions).

    Conventions of the embedding.
    - A JavaScript [number] is a real number ([R]); comparisons are decided
      with [decide].  [Math.round] is [floor (x + 1/2)].
    - [T | null] is [option T].
    - A renderer is a function of its cached snapshot ([_data]); [draw]
      returns the list of canvas calls it issues, in order.
    - A primitive is a record of its private fields; a method is a function
      from the state to the new state, in the exception monad [Exc] where a
      dereference of [null] raises.
    - The fields are modelled at their declared types.  Where a method
      stores the result of an object spread ([applyOptions], [setData]),
      the object is modelled as it is at run time, where a property may
      hold [undefined]; the methods that read such a property are modelled
      on the objects of the declared type only. *)

From Stdlib Require Import Reals Lra Lia List ZArith Ascii DecimalString.
From stdpp Require Import base decidable option strings.
Import ListNotations.

Open Scope R_scope.

(** ** JavaScript numbers *)

#[global] Instance Rle_decision : RelDecision Rle := Rle_dec.
#[global] Instance Rlt_decision : RelDecision Rlt := Rlt_dec.
#[global] Instance Rge_decision : RelDecision Rge := Rge_dec.
#[global] Instance Rgt_decision : RelDecision Rgt := Rgt_dec.
#[global] Instance Req_decision : EqDecision R := Req_dec_T.

Module Math.
Definition abs (x : R) : R := Rabs x.
Definition min (x y : R) : R := Rmin x y.
Definition max (x y : R) : R := Rmax x y.
Definition sqrt (x : R) : R := R_sqrt.sqrt x.
(** [Math.round]: the nearest integer, halves rounded up. *)
Definition round (x : R) : R := IZR (Int_part (x + 1 / 2)).
Definition PI : R := Rtrigo1.PI.
End Math.

(** ** Exceptions *)

Inductive Exc (A : Type) : Type :=
| Ok (a : A)
| Throw (error : string).
Arguments Ok {A} a.
Arguments Throw {A} error.

#[global] Instance Exc_ret : MRet Exc := fun A a => Ok a.
#[global] Instance Exc_bind : MBind Exc := fun A B k m =>
  match m with
  | Ok a => k a
  | Throw e => Throw e
  end.

(** Reading a property of a reference that may be [null]. *)
Definition deref {A : Type} (ref : option A) : Exc A :=
  match ref with
  | Some a => Ok a
  | None => Throw "TypeError: Cannot read properties of null"
  end.

(** ** Objects of a partial type

    In an object of type [DeepPartial<T>] or [Partial<T>] a property is
    absent, or present holding [undefined], or present holding a value:
    the compiler accepts [{ lineColor: undefined }] where [lineColor] is
    optional.  A property read from an object is [undefined] ([None])
    unless it holds a value. *)

Inductive Property (T : Type) : Type :=
| absent
| undefined
| value (v : T).
Arguments absent {T}.
Arguments undefined {T}.
Arguments value {T} v.

(** A property that is present, holding what was read. *)
Definition present {T : Type} (o : option T) : Property T :=
  match o with
  | Some v => value v
  | None => undefined
  end.

(** [object.key] *)
Definition read {T : Type} (p : Property T) : option T :=
  match p with
  | value v => Some v
  | _ => None
  end.

(** One key of the object spread [{ ...a, ...b }]: a property that is
    present in [b] is copied over that of [a], whatever it holds. *)
Definition over {T : Type} (a b : Property T) : Property T :=
  match b with
  | absent => a
  | _ => b
  end.

(** ** Text built from numbers

    Template literals such as [`Risk/Reward: ${ratio.toFixed(2)}`] are kept
    as syntax: the digits of a real number are not computed. *)

Inductive Text : Type :=
| TStr (s : string)
| TNum (r : R)
| TFixed (r : R) (digits : nat)
| TCat (a b : Text).

(** ** The host chart

    The host is external to the plugins: only the queries the primitives
    make are modelled. *)

(** A time of the horizontal scale; the examples of the wrappers use
    numeric timestamps. *)
Definition HorzScaleItem : Type := Z.

(** Modelled from the spec: the time scale of the host chart (section 6:
    time to pixel x, pixel x to logical index and back, chart width, bar
    spacing); its code is outside [src/]. *)
Record TimeScale : Type := {
  timeToCoordinate : HorzScaleItem -> option R;
  coordinateToLogical : R -> option R;
  logicalToCoordinate : R -> option R;
  width : R;
  barSpacing : R
}.

(** Modelled from the spec: the chart handle, of which the primitives use
    [timeScale()] only. *)
Record Chart : Type := { timeScale : TimeScale }.

(** Modelled from the spec: the series handle (section 6: price to pixel
    y, pane height, price formatter); its code is outside [src/]. *)
Record Series : Type := {
  priceToCoordinate : R -> option R;
  paneHeight : R;
  priceFormat : R -> string
}.

(** Modelled from the spec: the parameter of [attached] (chart handle,
    series handle; the update callback is the [_requestUpdate] flag of the
    primitive). *)
Record SeriesAttachedParameter : Type := {
  param_chart : Chart;
  param_series : Series
}.

Record PriceRange : Type := { minValue : R; maxValue : R }.
Record AutoscaleInfo : Type := { priceRange : PriceRange }.

(** Modelled from the spec: the line styles of [renderers/draw-line]
    (solid, dashed, dotted, large-dashed, sparse-dotted), declared outside
    [src/]. *)
Inductive LineStyle : Type :=
| Solid | Dotted | Dashed | LargeDashed | SparseDotted.

(** ** Hit-test results *)

Record PrimitiveHoveredItem : Type := HoveredItem {
  cursorStyle : string;
  hoveredId : string;
  zOrder : string
}.

(** ** The canvas

    The calls a renderer makes on the 2D context, recorded in order.
    [measureText] is the only query; it depends on the current font. *)

Inductive CanvasCall : Type :=
| save
| restore
| beginPath
| stroke
| fill
| set_fillStyle (color : string)
| set_strokeStyle (color : string)
| set_lineWidth (w : R)
| set_font (font : Text)
| set_textBaseline (v : string)
| set_textAlign (v : string)
| setLineStyle (style : LineStyle)
| moveTo (x y : R)
| lineTo (x y : R)
| fillRect (x y w h : R)
| arc (x y radius startAngle endAngle : R)
| roundRect (x y w h radii : R)
| fillText (text : Text) (x y : R).

Record BitmapCoordinatesRenderingScope : Type := {
  horizontalPixelRatio : R;
  verticalPixelRatio : R;
  measureText : Text -> Text -> R
}.

(** [_drawAnchorPoint], identical in every renderer that has handles. *)
Definition _drawAnchorPoint (x y : R) (color : string) (pixelRatio : R)
  : list CanvasCall :=
  let radius := 5 * pixelRatio in
  let borderWidth := 2 * pixelRatio in
  [ beginPath;
    arc x y radius 0 (2 * Math.PI);
    set_strokeStyle color;
    set_lineWidth borderWidth;
    stroke;
    beginPath;
    arc x y (radius - borderWidth / 2) 0 (2 * Math.PI);
    set_fillStyle "rgba(0, 0, 0, 0.6)";
    fill ].

(** [distanceToLineSegment], shared by the trend line and the horizontal
    ray. *)
Definition distanceToLineSegment (px py x1 y1 x2 y2 : R) : R :=
  let dx := x2 - x1 in
  let dy := y2 - y1 in
  let lengthSquared := dx * dx + dy * dy in
  if decide (lengthSquared = 0) then
    Math.sqrt ((px - x1) * (px - x1) + (py - y1) * (py - y1))
  else
    let t := ((px - x1) * dx + (py - y1) * dy) / lengthSquared in
    let t := Math.max 0 (Math.min 1 t) in
    let closestX := x1 + t * dx in
    let closestY := y1 + t * dy in
    Math.sqrt ((px - closestX) * (px - closestX)
               + (py - closestY) * (py - closestY)).

(** [isNearHorizontalLine], [isNearVerticalLine] and [isInsideRect] of the
    rectangle and position renderers. *)
Definition isNearHorizontalLine (px py x1 x2 y tolerance : R) : bool :=
  let minX := Math.min x1 x2 in
  let maxX := Math.max x1 x2 in
  bool_decide (px >= minX) && bool_decide (px <= maxX)
  && bool_decide (Math.abs (py - y) <= tolerance).

Definition isNearVerticalLine (px py x y1 y2 tolerance : R) : bool :=
  let minY := Math.min y1 y2 in
  let maxY := Math.max y1 y2 in
  bool_decide (py >= minY) && bool_decide (py <= maxY)
  && bool_decide (Math.abs (px - x) <= tolerance).

Definition isInsideRect (px py left right top bottom : R) : bool :=
  bool_decide (px >= left) && bool_decide (px <= right)
  && bool_decide (py >= top) && bool_decide (py <= bottom).

(** A renderer point: both coordinates may be unmappable. *)
Record RendererPoint : Type := { pt_x : option R; pt_y : option R }.

(** ** The members every primitive class repeats

    The seven classes declare the same private fields and the same
    [attached], [detached] and [requestUpdate]; they differ in the anchors
    they own, in their options and in [_calculateRendererData].  [_data] is
    the snapshot cached by the renderer of the primitive's pane view;
    [requested] counts the runs of the host's update callback. *)

Record Primitive (Anchors Options Data : Type) : Type := {
  _chart : option Chart;
  _series : option Series;
  _requestUpdate : bool;
  requested : nat;
  _anchors : Anchors;
  _options : Options;
  _data : option Data
}.
Arguments _chart {_ _ _} _.
Arguments _series {_ _ _} _.
Arguments _requestUpdate {_ _ _} _.
Arguments requested {_ _ _} _.
Arguments _anchors {_ _ _} _.
Arguments _options {_ _ _} _.
Arguments _data {_ _ _} _.

Section PrimitiveMembers.
Context {Anchors Options Data : Type}.
Let State : Type := Primitive Anchors Options Data.

Definition construct (anchors : Anchors) (options : Options) : State :=
  {| _chart := None; _series := None; _requestUpdate := false;
     requested := 0%nat; _anchors := anchors; _options := options;
     _data := None |}.

Definition requestUpdate (this : State) : State :=
  if _requestUpdate this then
    {| _chart := _chart this; _series := _series this;
       _requestUpdate := _requestUpdate this;
       requested := S (requested this);
       _anchors := _anchors this; _options := _options this;
       _data := _data this |}
  else this.

Definition attached (param : SeriesAttachedParameter) (this : State)
  : State :=
  requestUpdate
    {| _chart := Some (param_chart param);
       _series := Some (param_series param);
       _requestUpdate := true;
       requested := requested this;
       _anchors := _anchors this; _options := _options this;
       _data := _data this |}.

Definition detached (this : State) : State :=
  {| _chart := None; _series := None; _requestUpdate := false;
     requested := requested this;
     _anchors := _anchors this; _options := _options this;
     _data := _data this |}.

(** [this._paneView.update(data)]: the pane view hands the snapshot to
    its renderer's [setData]. *)
Definition paneView_update (data : Data) (this : State) : State :=
  {| _chart := _chart this; _series := _series this;
     _requestUpdate := _requestUpdate this;
     requested := requested this;
     _anchors := _anchors this; _options := _options this;
     _data := Some data |}.

Definition setAnchors (anchors : Anchors) (this : State) : State :=
  requestUpdate
    {| _chart := _chart this; _series := _series this;
       _requestUpdate := _requestUpdate this;
       requested := requested this;
       _anchors := anchors; _options := _options this;
       _data := _data this |}.

Definition setOptions (options : Options) (this : State) : State :=
  requestUpdate
    {| _chart := _chart this; _series := _series this;
       _requestUpdate := _requestUpdate this;
       requested := requested this;
       _anchors := _anchors this; _options := options;
       _data := _data this |}.

(** [updateAllViews] of the six classes that guard the update with
    [if (data)]. *)
Definition updateAllViews_guarded
    (_calculateRendererData : State -> Exc (option Data)) (this : State)
  : Exc State :=
  data ← _calculateRendererData this;
  match data with
  | Some data => mret (paneView_update data this)
  | None => mret this
  end.

(** Whether both host references are set: the negation of
    [!this._chart || !this._series]. *)
Definition isAttached (this : State) : bool :=
  bool_decide (is_Some (_chart this))
  && bool_decide (is_Some (_series this)).
End PrimitiveMembers.

(** ** Trend line *)

Module TrendLine.

(** *** Options ([trend-line/options.ts]) *)

Record TrendLineOptions : Type := {
  lineColor : string;
  lineWidth : R;
  lineStyle : LineStyle;
  showLabels : bool;
  labelBackgroundColor : string;
  labelTextColor : string;
  extendToEdges : bool;
  externalId : string;
  selected : bool;
  anchorPointColor : string
}.

Definition trendLineOptionsDefaults : TrendLineOptions :=
  {| lineColor := "#f97316";
     lineWidth := 2;
     lineStyle := Solid;
     showLabels := false;
     labelBackgroundColor := "rgba(255, 255, 255, 0.85)";
     labelTextColor := "rgb(0, 0, 0)";
     extendToEdges := true;
     externalId := "";
     selected := false;
     anchorPointColor := "#2962ff" |}.

(** The fields of the options object; [DeepPartial<TrendLineOptions>] is
    an object in which any of them may be missing. *)
Inductive Field : Type :=
| LineColor | LineWidth | LineStyleF | ShowLabels | LabelBackgroundColor
| LabelTextColor | ExtendToEdges | ExternalId | Selected
| AnchorPointColor.

Definition fieldType (f : Field) : Type :=
  match f with
  | LineColor | LabelBackgroundColor | LabelTextColor | ExternalId
  | AnchorPointColor => string
  | LineWidth => R
  | LineStyleF => LineStyle
  | ShowLabels | ExtendToEdges | Selected => bool
  end.

Definition get (f : Field) (o : TrendLineOptions) : fieldType f :=
  match f with
  | LineColor => lineColor o
  | LineWidth => lineWidth o
  | LineStyleF => lineStyle o
  | ShowLabels => showLabels o
  | LabelBackgroundColor => labelBackgroundColor o
  | LabelTextColor => labelTextColor o
  | ExtendToEdges => extendToEdges o
  | ExternalId => externalId o
  | Selected => selected o
  | AnchorPointColor => anchorPointColor o
  end.

(** The options object as it is at run time.  The class declares
    [_options: TrendLineOptions]; the object that
    [mergeOptionsWithDefaults] builds has every key of the defaults, but a
    key that the caller passed as [undefined] holds [undefined]
    ([None]). *)
Definition OptionsObject : Type := forall f : Field, option (fieldType f).

(** An object of the declared type, as it is stored. *)
Definition stored (o : TrendLineOptions) : OptionsObject :=
  fun f => Some (get f o).

(** [DeepPartial<TrendLineOptions>] *)
Definition PartialOptions : Type := forall f : Field, Property (fieldType f).

Definition emptyPartial : PartialOptions := fun _ => absent.

(** An options object read as a partial one: every key is present. *)
Definition asPartial (o : OptionsObject) : PartialOptions :=
  fun f => present (o f).

(** Object spread [{ ...a, ...b }]. *)
Definition spread (a b : PartialOptions) : PartialOptions :=
  fun f => over (a f) (b f).

(** [{ ...trendLineOptionsDefaults, ...options }] *)
Definition mergeOptionsWithDefaults (options : PartialOptions)
  : OptionsObject :=
  fun f =>
    read (spread (asPartial (stored trendLineOptionsDefaults)) options f).

(** The stored object at its declared type: [None] when a property holds
    [undefined]. *)
Definition declared (o : OptionsObject) : option TrendLineOptions :=
  lineColor ← o LineColor;
  lineWidth ← o LineWidth;
  lineStyle ← o LineStyleF;
  showLabels ← o ShowLabels;
  labelBackgroundColor ← o LabelBackgroundColor;
  labelTextColor ← o LabelTextColor;
  extendToEdges ← o ExtendToEdges;
  externalId ← o ExternalId;
  selected ← o Selected;
  anchorPointColor ← o AnchorPointColor;
  Some {| lineColor := lineColor;
          lineWidth := lineWidth;
          lineStyle := lineStyle;
          showLabels := showLabels;
          labelBackgroundColor := labelBackgroundColor;
          labelTextColor := labelTextColor;
          extendToEdges := extendToEdges;
          externalId := externalId;
          selected := selected;
          anchorPointColor := anchorPointColor |}.

(** *** Renderer snapshot ([TrendLineRendererData]) *)

Record TrendLineRendererData : Type := {
  p1 : RendererPoint;
  p2 : RendererPoint;
  extendedStart : RendererPoint;
  extendedEnd : RendererPoint;
  text1 : string;
  text2 : string;
  d_lineColor : string;
  d_lineWidth : R;
  d_lineStyle : LineStyle;
  d_showLabels : bool;
  d_labelBackgroundColor : string;
  d_labelTextColor : string;
  d_extendToEdges : bool;
  d_externalId : string;
  chartWidth : R;
  chartHeight : R;
  d_selected : bool;
  d_anchorPointColor : string
}.

(** *** Primitive ([TrendLine]) *)

Record TrendLinePoint : Type := { time : HorzScaleItem; price : R }.

Record Anchors : Type := { _p1 : TrendLinePoint; _p2 : TrendLinePoint }.

(** The trend line with the options object as it is at run time: the
    state on which the constructor, [applyOptions] and [options] are
    modelled. *)
Definition Runtime : Type :=
  Primitive Anchors OptionsObject TrendLineRendererData.

(** The trend line whose options are of the declared type
    [TrendLineOptions]: the state on which the methods that read the
    options are modelled.  What the class does with a property that holds
    [undefined] is not modelled. *)
Definition State : Type :=
  Primitive Anchors TrendLineOptions TrendLineRendererData.

(** The run-time state at the declared type, when no option holds
    [undefined]. *)
Definition declaredState (this : Runtime) : option State :=
  options ← declared (_options this);
  Some {| _chart := _chart this; _series := _series this;
          _requestUpdate := _requestUpdate this;
          requested := requested this;
          _anchors := _anchors this; _options := options;
          _data := _data this |}.

Definition constructor (p1 p2 : TrendLinePoint)
    (options : option PartialOptions) : Runtime :=
  construct {| _p1 := p1; _p2 := p2 |}
    (mergeOptionsWithDefaults (default emptyPartial options)).

Definition applyOptions (options : PartialOptions) (this : Runtime)
  : Runtime :=
  setOptions
    (mergeOptionsWithDefaults (spread (asPartial (_options this)) options))
    this.

Definition options (this : Runtime) : OptionsObject := _options this.

Definition setPoints (p1 p2 : TrendLinePoint) (this : State) : State :=
  setAnchors {| _p1 := p1; _p2 := p2 |} this.

(** The result of [_calculateExtendedLine]. *)
Record Line : Type := { x1 : R; y1 : R; x2 : R; y2 : R }.

Record Point : Type := { x : R; y : R }.

(** The four potential intersections with the chart edges, in the order
    in which the code pushes them: left, right, top, bottom. *)
Definition edgeIntersections (x1 y1 x2 y2 chartWidth chartHeight : R)
  : list Point :=
  let dx := x2 - x1 in
  let dy := y2 - y1 in
  let slope := dy / dx in
  let intercept := y1 - slope * x1 in
  let yAtLeft := intercept in
  let yAtRight := slope * chartWidth + intercept in
  let xAtTop := - intercept / slope in
  let xAtBottom := (chartHeight - intercept) / slope in
  (if decide (yAtLeft >= 0 /\ yAtLeft <= chartHeight)
   then [ {| x := 0; y := yAtLeft |} ] else [])
  ++ (if decide (yAtRight >= 0 /\ yAtRight <= chartHeight)
      then [ {| x := chartWidth; y := yAtRight |} ] else [])
  ++ (if decide (xAtTop >= 0 /\ xAtTop <= chartWidth)
      then [ {| x := xAtTop; y := 0 |} ] else [])
  ++ (if decide (xAtBottom >= 0 /\ xAtBottom <= chartWidth)
      then [ {| x := xAtBottom; y := chartHeight |} ] else []).

(** [intersections.filter(...)]: those in the direction from p1 to p2. *)
Definition directionalIntersections
    (x1 y1 x2 y2 chartWidth chartHeight : R) : list Point :=
  let dx := x2 - x1 in
  let dy := y2 - y1 in
  filter
    (fun p =>
       let toPx := x p - x1 in
       let toPy := y p - y1 in
       let dotProduct := toPx * dx + toPy * dy in
       dotProduct > 0)
    (edgeIntersections x1 y1 x2 y2 chartWidth chartHeight).

(** One turn of the loop that keeps the furthest point seen so far. *)
Definition furthestStep (x1 y1 : R) (acc : Point * R) (p : Point)
  : Point * R :=
  let '(furthestPoint, maxDistance) := acc in
  let distance :=
    Math.sqrt ((x p - x1) * (x p - x1) + (y p - y1) * (y p - y1)) in
  if decide (distance > maxDistance) then (p, distance)
  else (furthestPoint, maxDistance).

Definition _calculateExtendedLine (x1 y1 x2 y2 chartWidth chartHeight : R)
  : Line :=
  let dx := x2 - x1 in
  let dy := y2 - y1 in
  if decide (Math.abs dx < 0.0001) then
    if decide (dy > 0) then
      {| x1 := x1; y1 := y1; x2 := x1; y2 := chartHeight |}
    else
      {| x1 := x1; y1 := y1; x2 := x1; y2 := 0 |}
  else if decide (Math.abs dy < 0.0001) then
    if decide (dx > 0) then
      {| x1 := x1; y1 := y1; x2 := chartWidth; y2 := y1 |}
    else
      {| x1 := x1; y1 := y1; x2 := 0; y2 := y1 |}
  else
    let directionalIntersections :=
      directionalIntersections x1 y1 x2 y2 chartWidth chartHeight in
    let furthestPoint :=
      fst (fold_left (furthestStep x1 y1) directionalIntersections
             ({| x := x2; y := y2 |}, 0)) in
    {| x1 := x1; y1 := y1; x2 := x furthestPoint; y2 := y furthestPoint |}.

Definition _calculateRendererData (this : State)
  : Exc (option TrendLineRendererData) :=
  if negb (isAttached this) then mret None
  else
    chart ← deref (_chart this);
    series ← deref (_series this);
    let timeScale := timeScale chart in
    let a := _anchors this in
    let o := _options this in
    let x1 := timeToCoordinate timeScale (time (_p1 a)) in
    let y1 := priceToCoordinate series (price (_p1 a)) in
    let x2 := timeToCoordinate timeScale (time (_p2 a)) in
    let y2 := priceToCoordinate series (price (_p2 a)) in
    let p1 := {| pt_x := x1; pt_y := y1 |} in
    let p2 := {| pt_x := x2; pt_y := y2 |} in
    let chartWidth := width timeScale in
    let chartHeight := paneHeight series in
    let '(extendedStart, extendedEnd) :=
      match extendToEdges o, x1, y1, x2, y2 with
      | true, Some x1, Some y1, Some x2, Some y2 =>
          let extended :=
            _calculateExtendedLine x1 y1 x2 y2 chartWidth chartHeight in
          ({| pt_x := Some (TrendLine.x1 extended);
              pt_y := Some (TrendLine.y1 extended) |},
           {| pt_x := Some (TrendLine.x2 extended);
              pt_y := Some (TrendLine.y2 extended) |})
      | _, _, _, _, _ =>
          ({| pt_x := x1; pt_y := y1 |}, {| pt_x := x2; pt_y := y2 |})
      end in
    mret (Some
      {| p1 := p1;
         p2 := p2;
         extendedStart := extendedStart;
         extendedEnd := extendedEnd;
         text1 := priceFormat series (price (_p1 a));
         text2 := priceFormat series (price (_p2 a));
         d_lineColor := lineColor o;
         d_lineWidth := lineWidth o;
         d_lineStyle := lineStyle o;
         d_showLabels := showLabels o;
         d_labelBackgroundColor := labelBackgroundColor o;
         d_labelTextColor := labelTextColor o;
         d_extendToEdges := extendToEdges o;
         d_externalId := externalId o;
         chartWidth := chartWidth;
         chartHeight := chartHeight;
         d_selected := selected o;
         d_anchorPointColor := anchorPointColor o |}).

Definition updateAllViews (this : State) : Exc State :=
  updateAllViews_guarded _calculateRendererData this.

Definition _getPointLogicalIndex (this : State) (point : TrendLinePoint)
  : Exc (option R) :=
  if negb (bool_decide (is_Some (_chart this))) then mret None
  else
    chart ← deref (_chart this);
    let timeScale := timeScale chart in
    match timeToCoordinate timeScale (time point) with
    | None => mret None
    | Some coordinate => mret (coordinateToLogical timeScale coordinate)
    end.

Definition autoscaleInfo (this : State) (startTimePoint endTimePoint : R)
  : Exc (option AutoscaleInfo) :=
  p1Index ← _getPointLogicalIndex this (_p1 (_anchors this));
  p2Index ← _getPointLogicalIndex this (_p2 (_anchors this));
  match p1Index, p2Index with
  | Some p1Index, Some p2Index =>
      let minIndex := Math.min p1Index p2Index in
      let maxIndex := Math.max p1Index p2Index in
      if decide (endTimePoint < minIndex \/ startTimePoint > maxIndex)
      then mret None
      else
        let minPrice :=
          Math.min (price (_p1 (_anchors this)))
                   (price (_p2 (_anchors this))) in
        let maxPrice :=
          Math.max (price (_p1 (_anchors this)))
                   (price (_p2 (_anchors this))) in
        mret (Some {| priceRange :=
                        {| minValue := minPrice; maxValue := maxPrice |} |})
  | _, _ => mret None
  end.

(** *** Renderer ([TrendLineRenderer]) *)

Definition HIT_TEST_TOLERANCE : R := 6.

(** The end points the renderer hit-tests and strokes. *)
Definition linePoints (data : TrendLineRendererData)
  : option R * option R * option R * option R :=
  if d_extendToEdges data then
    (pt_x (extendedStart data), pt_y (extendedStart data),
     pt_x (extendedEnd data), pt_y (extendedEnd data))
  else
    (pt_x (p1 data), pt_y (p1 data), pt_x (p2 data), pt_y (p2 data)).

Definition renderer_hitTest (_data : option TrendLineRendererData)
    (x y : R) : option PrimitiveHoveredItem :=
  match _data with
  | None => None
  | Some data =>
      match linePoints data with
      | (Some lineX1, Some lineY1, Some lineX2, Some lineY2) =>
          let distance :=
            distanceToLineSegment x y lineX1 lineY1 lineX2 lineY2 in
          if decide (distance <= HIT_TEST_TOLERANCE) then
            Some (HoveredItem "pointer" (d_externalId data) "normal")
          else None
      | _ => None
      end
  end.

Definition hitTest (this : State) (x y : R) : option PrimitiveHoveredItem :=
  renderer_hitTest (_data this) x y.

Definition _drawLabel (scope : BitmapCoordinatesRenderingScope)
    (text : string) (x y : R) (backgroundColor textColor : string)
    (isLeft : bool) : list CanvasCall :=
  let offset := 5 * horizontalPixelRatio scope in
  let font := TStr "12px Arial" in
  let textWidth := measureText scope font (TStr text) in
  let textHeight := 12 * verticalPixelRatio scope in
  let padding := offset in
  let boxWidth := textWidth + padding * 2 in
  let boxHeight := textHeight + padding in
  let boxX := if isLeft then x - boxWidth - offset else x + offset in
  let boxY := y - boxHeight / 2 in
  [ set_font font;
    set_fillStyle backgroundColor;
    beginPath;
    roundRect boxX boxY boxWidth boxHeight 4;
    fill;
    set_fillStyle textColor;
    set_textBaseline "middle";
    fillText (TStr text) (boxX + padding) y ].

Definition _drawImpl (_data : option TrendLineRendererData)
    (scope : BitmapCoordinatesRenderingScope) : list CanvasCall :=
  match _data with
  | None => []
  | Some data =>
      match linePoints data with
      | (Some drawX1, Some drawY1, Some drawX2, Some drawY2) =>
          let horizontalPixelRatio := horizontalPixelRatio scope in
          let verticalPixelRatio := verticalPixelRatio scope in
          let x1Scaled := Math.round (drawX1 * horizontalPixelRatio) in
          let y1Scaled := Math.round (drawY1 * verticalPixelRatio) in
          let x2Scaled := Math.round (drawX2 * horizontalPixelRatio) in
          let y2Scaled := Math.round (drawY2 * verticalPixelRatio) in
          [ save;
            set_lineWidth (d_lineWidth data * horizontalPixelRatio);
            set_strokeStyle (d_lineColor data);
            setLineStyle (d_lineStyle data);
            beginPath;
            moveTo x1Scaled y1Scaled;
            lineTo x2Scaled y2Scaled;
            stroke;
            restore ]
          ++ match d_showLabels data,
                   pt_x (p1 data), pt_y (p1 data),
                   pt_x (p2 data), pt_y (p2 data) with
             | true, Some p1x, Some p1y, Some p2x, Some p2y =>
                 let p1XScaled := Math.round (p1x * horizontalPixelRatio) in
                 let p1YScaled := Math.round (p1y * verticalPixelRatio) in
                 let p2XScaled := Math.round (p2x * horizontalPixelRatio) in
                 let p2YScaled := Math.round (p2y * verticalPixelRatio) in
                 _drawLabel scope (text1 data) p1XScaled p1YScaled
                   (d_labelBackgroundColor data) (d_labelTextColor data) true
                 ++ _drawLabel scope (text2 data) p2XScaled p2YScaled
                      (d_labelBackgroundColor data) (d_labelTextColor data)
                      false
             | _, _, _, _, _ => []
             end
          ++ match d_selected data,
                   pt_x (p1 data), pt_y (p1 data),
                   pt_x (p2 data), pt_y (p2 data) with
             | true, Some p1x, Some p1y, Some p2x, Some p2y =>
                 let p1XScaled := Math.round (p1x * horizontalPixelRatio) in
                 let p1YScaled := Math.round (p1y * verticalPixelRatio) in
                 let p2XScaled := Math.round (p2x * horizontalPixelRatio) in
                 let p2YScaled := Math.round (p2y * verticalPixelRatio) in
                 _drawAnchorPoint p1XScaled p1YScaled
                   (d_anchorPointColor data) horizontalPixelRatio
                 ++ _drawAnchorPoint p2XScaled p2YScaled
                      (d_anchorPointColor data) horizontalPixelRatio
             | _, _, _, _, _ => []
             end
      | _ => []
      end
  end.

Definition draw := _drawImpl.

End TrendLine.

(** ** Rectangle *)

Module Rectangle.

Inductive RectangleExtendMode : Type := none | left | right | both.

#[global] Instance RectangleExtendMode_eq_dec : EqDecision RectangleExtendMode.
Proof. solve_decision. Defined.

Record RectangleOptions : Type := {
  lineColor : string;
  lineWidth : R;
  lineStyle : LineStyle;
  backgroundColor : string;
  labelText : string;
  showLabel : bool;
  labelBackgroundColor : string;
  labelTextColor : string;
  extendMode : RectangleExtendMode;
  externalId : string;
  selected : bool;
  anchorPointColor : string;
  showMiddleLine : bool;
  middleLineColor : string;
  middleLineStyle : LineStyle;
  middleLineWidth : R
}.

Definition rectangleOptionsDefaults : RectangleOptions :=
  {| lineColor := "#f97316";
     lineWidth := 2;
     lineStyle := Solid;
     backgroundColor := "rgba(249, 115, 22, 0.2)";
     labelText := "";
     showLabel := false;
     labelBackgroundColor := "rgba(255, 255, 255, 0.85)";
     labelTextColor := "rgb(0, 0, 0)";
     extendMode := right;
     externalId := "";
     selected := false;
     anchorPointColor := "#2962ff";
     showMiddleLine := false;
     middleLineColor := "#f97316";
     middleLineStyle := Dashed;
     middleLineWidth := 1 |}.

Record RectangleRendererData : Type := {
  p1 : RendererPoint;
  p2 : RendererPoint;
  drawLeft : R;
  drawRight : R;
  drawTop : R;
  drawBottom : R;
  d_lineColor : string;
  d_lineWidth : R;
  d_lineStyle : LineStyle;
  d_backgroundColor : string;
  d_labelText : string;
  d_showLabel : bool;
  d_labelBackgroundColor : string;
  d_labelTextColor : string;
  d_extendMode : RectangleExtendMode;
  d_externalId : string;
  chartWidth : R;
  chartHeight : R;
  d_selected : bool;
  d_anchorPointColor : string;
  d_showMiddleLine : bool;
  d_middleLineColor : string;
  d_middleLineStyle : LineStyle;
  d_middleLineWidth : R
}.

(** *** Primitive ([Rectangle]) *)

Record RectanglePoint : Type := { time : HorzScaleItem; price : R }.

Record Anchors : Type := { _p1 : RectanglePoint; _p2 : RectanglePoint }.

Definition State : Type :=
  Primitive Anchors RectangleOptions RectangleRendererData.

Definition _calculateRendererData (this : State)
  : Exc (option RectangleRendererData) :=
  if negb (isAttached this) then mret None
  else
    chart ← deref (_chart this);
    series ← deref (_series this);
    let timeScale := timeScale chart in
    let a := _anchors this in
    let o := _options this in
    let x1 := timeToCoordinate timeScale (time (_p1 a)) in
    let y1 := priceToCoordinate series (price (_p1 a)) in
    let x2 := timeToCoordinate timeScale (time (_p2 a)) in
    let y2 := priceToCoordinate series (price (_p2 a)) in
    let p1 := {| pt_x := x1; pt_y := y1 |} in
    let p2 := {| pt_x := x2; pt_y := y2 |} in
    let chartWidth := width timeScale in
    let chartHeight := paneHeight series in
    match x1, y1, x2, y2 with
    | Some x1, Some y1, Some x2, Some y2 =>
        let minX := Math.min x1 x2 in
        let maxX := Math.max x1 x2 in
        let minY := Math.min y1 y2 in
        let maxY := Math.max y1 y2 in
        let '(drawLeft, drawRight) :=
          match extendMode o with
          | left => (0, maxX)
          | right => (minX, chartWidth)
          | both => (0, chartWidth)
          | none => (minX, maxX)
          end in
        let drawTop := minY in
        let drawBottom := maxY in
        mret (Some
          {| p1 := p1;
             p2 := p2;
             drawLeft := drawLeft;
             drawRight := drawRight;
             drawTop := drawTop;
             drawBottom := drawBottom;
             d_lineColor := lineColor o;
             d_lineWidth := lineWidth o;
             d_lineStyle := lineStyle o;
             d_backgroundColor := backgroundColor o;
             d_labelText := labelText o;
             d_showLabel := showLabel o;
             d_labelBackgroundColor := labelBackgroundColor o;
             d_labelTextColor := labelTextColor o;
             d_extendMode := extendMode o;
             d_externalId := externalId o;
             chartWidth := chartWidth;
             chartHeight := chartHeight;
             d_selected := selected o;
             d_anchorPointColor := anchorPointColor o;
             d_showMiddleLine := showMiddleLine o;
             d_middleLineColor := middleLineColor o;
             d_middleLineStyle := middleLineStyle o;
             d_middleLineWidth := middleLineWidth o |})
    | _, _, _, _ => mret None
    end.

Definition updateAllViews (this : State) : Exc State :=
  updateAllViews_guarded _calculateRendererData this.

Definition _getPointLogicalIndex (this : State) (point : RectanglePoint)
  : Exc (option R) :=
  if negb (bool_decide (is_Some (_chart this))) then mret None
  else
    chart ← deref (_chart this);
    let timeScale := timeScale chart in
    match timeToCoordinate timeScale (time point) with
    | None => mret None
    | Some coordinate => mret (coordinateToLogical timeScale coordinate)
    end.

Definition autoscaleInfo (this : State) (startTimePoint endTimePoint : R)
  : Exc (option AutoscaleInfo) :=
  p1Index ← _getPointLogicalIndex this (_p1 (_anchors this));
  p2Index ← _getPointLogicalIndex this (_p2 (_anchors this));
  match p1Index, p2Index with
  | Some p1Index, Some p2Index =>
      let minIndex := Math.min p1Index p2Index in
      let maxIndex := Math.max p1Index p2Index in
      if decide (endTimePoint < minIndex \/ startTimePoint > maxIndex)
      then mret None
      else
        let minPrice :=
          Math.min (price (_p1 (_anchors this)))
                   (price (_p2 (_anchors this))) in
        let maxPrice :=
          Math.max (price (_p1 (_anchors this)))
                   (price (_p2 (_anchors this))) in
        mret (Some {| priceRange :=
                        {| minValue := minPrice; maxValue := maxPrice |} |})
  | _, _ => mret None
  end.

Definition setPoints (p1 p2 : RectanglePoint) (this : State) : State :=
  setAnchors {| _p1 := p1; _p2 := p2 |} this.

(** *** Renderer ([RectangleRenderer], [rectangle/renderer.ts]) *)

Definition HIT_TEST_TOLERANCE : R := 6.
Definition ANCHOR_HIT_RADIUS : R := 8.

(** [second] is the test of the second corner, which the code reaches
    when the test of the first corner has not returned. *)
Definition _hitTestAnchorPoints (x y : R) (p1 p2 : RendererPoint)
    (externalId : string) : option PrimitiveHoveredItem :=
  let second :=
    match pt_x p2, pt_y p2 with
    | Some p2x, Some p2y =>
        let distToP2 :=
          Math.sqrt ((x - p2x) * (x - p2x) + (y - p2y) * (y - p2y)) in
        if decide (distToP2 <= ANCHOR_HIT_RADIUS) then
          Some (HoveredItem "grab" (externalId +:+ ":anchor:1") "normal")
        else None
    | _, _ => None
    end in
  match pt_x p1, pt_y p1 with
  | Some p1x, Some p1y =>
      let distToP1 :=
        Math.sqrt ((x - p1x) * (x - p1x) + (y - p1y) * (y - p1y)) in
      if decide (distToP1 <= ANCHOR_HIT_RADIUS) then
        Some (HoveredItem "grab" (externalId +:+ ":anchor:0") "normal")
      else second
  | _, _ => second
  end.

(** The border and middle-line tests that follow the anchor test. *)
Definition hitTestBody (data : RectangleRendererData) (x y : R)
  : option PrimitiveHoveredItem :=
  let showLeftBorder :=
    bool_decide (d_extendMode data <> left)
    && bool_decide (d_extendMode data <> both) in
  let showRightBorder :=
    bool_decide (d_extendMode data <> right)
    && bool_decide (d_extendMode data <> both) in
  let nearTop :=
    isNearHorizontalLine x y (drawLeft data) (drawRight data)
      (drawTop data) HIT_TEST_TOLERANCE in
  let nearBottom :=
    isNearHorizontalLine x y (drawLeft data) (drawRight data)
      (drawBottom data) HIT_TEST_TOLERANCE in
  let nearLeft :=
    showLeftBorder
    && isNearVerticalLine x y (drawLeft data) (drawTop data)
         (drawBottom data) HIT_TEST_TOLERANCE in
  let nearRight :=
    showRightBorder
    && isNearVerticalLine x y (drawRight data) (drawTop data)
         (drawBottom data) HIT_TEST_TOLERANCE in
  let middleY := (drawTop data + drawBottom data) / 2 in
  let nearMiddle :=
    d_showMiddleLine data
    && isNearHorizontalLine x y (drawLeft data) (drawRight data) middleY
         HIT_TEST_TOLERANCE in
  if nearTop || nearBottom || nearLeft || nearRight || nearMiddle then
    Some (HoveredItem "pointer" (d_externalId data) "normal")
  else None.

Definition renderer_hitTest (_data : option RectangleRendererData)
    (x y : R) : option PrimitiveHoveredItem :=
  match _data with
  | None => None
  | Some data =>
      let anchorResult :=
        if d_selected data then
          _hitTestAnchorPoints x y (p1 data) (p2 data) (d_externalId data)
        else None in
      match anchorResult with
      | Some anchorResult => Some anchorResult
      | None => hitTestBody data x y
      end
  end.

Definition hitTest (this : State) (x y : R) : option PrimitiveHoveredItem :=
  renderer_hitTest (_data this) x y.

Definition _drawLabel (scope : BitmapCoordinatesRenderingScope)
    (text : string) (x y : R) (backgroundColor textColor : string)
  : list CanvasCall :=
  let padding := 5 * horizontalPixelRatio scope in
  let font := TCat (TNum (12 * verticalPixelRatio scope)) (TStr "px Arial") in
  let textWidth := measureText scope font (TStr text) in
  let textHeight := 12 * verticalPixelRatio scope in
  let boxWidth := textWidth + padding * 2 in
  let boxHeight := textHeight + padding in
  let boxX := x - boxWidth / 2 in
  let boxY := y in
  [ set_font font;
    set_fillStyle backgroundColor;
    beginPath;
    roundRect boxX boxY boxWidth boxHeight 4;
    fill;
    set_fillStyle textColor;
    set_textBaseline "middle";
    set_textAlign "center";
    fillText (TStr text) x (boxY + boxHeight / 2) ].

(** Everything [_drawImpl] issues before the anchor indicators; the two
    renderer variants agree on it. *)
Definition drawBody (data : RectangleRendererData)
    (scope : BitmapCoordinatesRenderingScope) : list CanvasCall :=
  let horizontalPixelRatio := horizontalPixelRatio scope in
  let verticalPixelRatio := verticalPixelRatio scope in
  let leftScaled := Math.round (drawLeft data * horizontalPixelRatio) in
  let rightScaled := Math.round (drawRight data * horizontalPixelRatio) in
  let topScaled := Math.round (drawTop data * verticalPixelRatio) in
  let bottomScaled := Math.round (drawBottom data * verticalPixelRatio) in
  let rectWidth := rightScaled - leftScaled in
  let rectHeight := bottomScaled - topScaled in
  let showLeftBorder :=
    bool_decide (d_extendMode data <> left)
    && bool_decide (d_extendMode data <> both) in
  let showRightBorder :=
    bool_decide (d_extendMode data <> right)
    && bool_decide (d_extendMode data <> both) in
  [ save;
    set_fillStyle (d_backgroundColor data);
    fillRect leftScaled topScaled rectWidth rectHeight;
    restore;
    save;
    set_lineWidth (d_lineWidth data * horizontalPixelRatio);
    set_strokeStyle (d_lineColor data);
    setLineStyle (d_lineStyle data);
    beginPath;
    moveTo leftScaled topScaled;
    lineTo rightScaled topScaled;
    stroke;
    beginPath;
    moveTo leftScaled bottomScaled;
    lineTo rightScaled bottomScaled;
    stroke ]
  ++ (if showLeftBorder then
        [ beginPath;
          moveTo leftScaled topScaled;
          lineTo leftScaled bottomScaled;
          stroke ]
      else [])
  ++ (if showRightBorder then
        [ beginPath;
          moveTo rightScaled topScaled;
          lineTo rightScaled bottomScaled;
          stroke ]
      else [])
  ++ [ restore ]
  ++ (if d_showMiddleLine data then
        let middleY := Math.round ((topScaled + bottomScaled) / 2) in
        [ save;
          set_lineWidth (d_middleLineWidth data * horizontalPixelRatio);
          set_strokeStyle (d_middleLineColor data);
          setLineStyle (d_middleLineStyle data);
          beginPath;
          moveTo leftScaled middleY;
          lineTo rightScaled middleY;
          stroke;
          restore ]
      else [])
  ++ (if d_showLabel data
         && (0 <? String.length (d_labelText data))%nat
      then
        _drawLabel scope (d_labelText data) (leftScaled + rectWidth / 2)
          (topScaled + 10 * verticalPixelRatio)
          (d_labelBackgroundColor data) (d_labelTextColor data)
      else []).

Definition _drawImpl (_data : option RectangleRendererData)
    (scope : BitmapCoordinatesRenderingScope) : list CanvasCall :=
  match _data with
  | None => []
  | Some data =>
      let horizontalPixelRatio := horizontalPixelRatio scope in
      let verticalPixelRatio := verticalPixelRatio scope in
      drawBody data scope
      ++ match d_selected data,
               pt_x (p1 data), pt_y (p1 data),
               pt_x (p2 data), pt_y (p2 data) with
         | true, Some p1x, Some p1y, Some p2x, Some p2y =>
             let p1XScaled := Math.round (p1x * horizontalPixelRatio) in
             let p1YScaled := Math.round (p1y * verticalPixelRatio) in
             let p2XScaled := Math.round (p2x * horizontalPixelRatio) in
             let p2YScaled := Math.round (p2y * verticalPixelRatio) in
             _drawAnchorPoint p1XScaled p1YScaled
               (d_anchorPointColor data) horizontalPixelRatio
             ++ _drawAnchorPoint p2XScaled p2YScaled
                  (d_anchorPointColor data) horizontalPixelRatio
         | _, _, _, _, _ => []
         end
  end.

Definition draw := _drawImpl.

(** *** The second renderer variant ([unnamed/part_002])

    The same snapshot and the same body; no anchor hit test, and eight
    handles drawn when selected. *)

Definition variant_hitTest (_data : option RectangleRendererData)
    (x y : R) : option PrimitiveHoveredItem :=
  match _data with
  | None => None
  | Some data => hitTestBody data x y
  end.

Definition variant_drawImpl (_data : option RectangleRendererData)
    (scope : BitmapCoordinatesRenderingScope) : list CanvasCall :=
  match _data with
  | None => []
  | Some data =>
      let horizontalPixelRatio := horizontalPixelRatio scope in
      let verticalPixelRatio := verticalPixelRatio scope in
      drawBody data scope
      ++ match d_selected data,
               pt_x (p1 data), pt_y (p1 data),
               pt_x (p2 data), pt_y (p2 data) with
         | true, Some p1x, Some p1y, Some p2x, Some p2y =>
             let p1XScaled := Math.round (p1x * horizontalPixelRatio) in
             let p1YScaled := Math.round (p1y * verticalPixelRatio) in
             let p2XScaled := Math.round (p2x * horizontalPixelRatio) in
             let p2YScaled := Math.round (p2y * verticalPixelRatio) in
             let midX := (p1XScaled + p2XScaled) / 2 in
             let midY := (p1YScaled + p2YScaled) / 2 in
             let handle hx hy :=
               _drawAnchorPoint hx hy (d_anchorPointColor data)
                 horizontalPixelRatio in
             handle p1XScaled p1YScaled
             ++ handle p2XScaled p2YScaled
             ++ handle p1XScaled p2YScaled
             ++ handle p2XScaled p1YScaled
             ++ handle midX p1YScaled
             ++ handle midX p2YScaled
             ++ handle p1XScaled midY
             ++ handle p2XScaled midY
         | _, _, _, _, _ => []
         end
  end.

End Rectangle.

(** ** Long / short position *)

Module LongPosition.

(** Modelled from the spec: the position direction ([long] / [short]); the
    renderer imports [PositionDirection] from an [options.ts] that does not
    declare it under [src/]. *)
Inductive PositionDirection : Type := long | short.

Record LongPositionOptions : Type := {
  lineColor : string;
  lineWidth : R;
  lineStyle : LineStyle;
  profitBackgroundColor : string;
  riskBackgroundColor : string;
  entryLineColor : string;
  externalId : string;
  selected : bool;
  anchorPointColor : string;
  labelBackgroundColor : string;
  labelTextColor : string;
  targetLabelBackgroundColor : string;
  stopLabelBackgroundColor : string
}.


(** [direction] is a property the renderer reads from the snapshot; the
    primitive under [src/] builds the snapshot without it, which reads as
    [undefined] ([None]). *)
Record LongPositionRendererData : Type := {
  entry : RendererPoint;
  targetY : option R;
  stopY : option R;
  rightX : option R;
  entryPrice : R;
  targetPrice : R;
  stopPrice : R;
  d_lineColor : string;
  d_lineWidth : R;
  d_lineStyle : LineStyle;
  d_profitBackgroundColor : string;
  d_riskBackgroundColor : string;
  d_entryLineColor : string;
  d_externalId : string;
  chartWidth : R;
  chartHeight : R;
  d_selected : bool;
  d_anchorPointColor : string;
  d_labelBackgroundColor : string;
  d_labelTextColor : string;
  d_targetLabelBackgroundColor : string;
  d_stopLabelBackgroundColor : string;
  direction : option PositionDirection
}.

(** *** Primitive ([LongPosition]) *)

Record LongPositionData : Type := {
  entryTime : HorzScaleItem;
  _entryPrice : R;
  _targetPrice : R;
  _stopPrice : R;
  widthBars : R
}.

Definition State : Type :=
  Primitive LongPositionData LongPositionOptions LongPositionRendererData.

Definition _calculateRendererData (this : State)
  : Exc (option LongPositionRendererData) :=
  if negb (isAttached this) then mret None
  else
    chart ← deref (_chart this);
    series ← deref (_series this);
    let timeScale := timeScale chart in
    let d := _anchors this in
    let o := _options this in
    let entryX := timeToCoordinate timeScale (entryTime d) in
    let entryY := priceToCoordinate series (_entryPrice d) in
    match entryX, entryY with
    | Some entryX, Some entryY =>
        match coordinateToLogical timeScale entryX with
        | None => mret None
        | Some entryLogical =>
            let rightLogical := entryLogical + widthBars d in
            match logicalToCoordinate timeScale rightLogical with
            | None => mret None
            | Some rightX =>
                let targetY := priceToCoordinate series (_targetPrice d) in
                let stopY := priceToCoordinate series (_stopPrice d) in
                match targetY, stopY with
                | Some targetY, Some stopY =>
                    let entry :=
                      {| pt_x := Some entryX; pt_y := Some entryY |} in
                    let chartWidth := width timeScale in
                    let chartHeight := paneHeight series in
                    mret (Some
                      {| entry := entry;
                         targetY := Some targetY;
                         stopY := Some stopY;
                         rightX := Some rightX;
                         entryPrice := _entryPrice d;
                         targetPrice := _targetPrice d;
                         stopPrice := _stopPrice d;
                         d_lineColor := lineColor o;
                         d_lineWidth := lineWidth o;
                         d_lineStyle := lineStyle o;
                         d_profitBackgroundColor := profitBackgroundColor o;
                         d_riskBackgroundColor := riskBackgroundColor o;
                         d_entryLineColor := entryLineColor o;
                         d_externalId := externalId o;
                         chartWidth := chartWidth;
                         chartHeight := chartHeight;
                         d_selected := selected o;
                         d_anchorPointColor := anchorPointColor o;
                         d_labelBackgroundColor := labelBackgroundColor o;
                         d_labelTextColor := labelTextColor o;
                         d_targetLabelBackgroundColor :=
                           targetLabelBackgroundColor o;
                         d_stopLabelBackgroundColor :=
                           stopLabelBackgroundColor o;
                         direction := None |})
                | _, _ => mret None
                end
            end
        end
    | _, _ => mret None
    end.

Definition updateAllViews (this : State) : Exc State :=
  updateAllViews_guarded _calculateRendererData this.

Definition _getEntryLogicalIndex (this : State) : Exc (option R) :=
  if negb (bool_decide (is_Some (_chart this))) then mret None
  else
    chart ← deref (_chart this);
    let timeScale := timeScale chart in
    match timeToCoordinate timeScale (entryTime (_anchors this)) with
    | None => mret None
    | Some coordinate => mret (coordinateToLogical timeScale coordinate)
    end.

Definition autoscaleInfo (this : State) (startTimePoint endTimePoint : R)
  : Exc (option AutoscaleInfo) :=
  entryIndex ← _getEntryLogicalIndex this;
  match entryIndex with
  | None => mret None
  | Some entryIndex =>
      let d := _anchors this in
      let endIndex := entryIndex + widthBars d in
      if decide (endTimePoint < entryIndex \/ startTimePoint > endIndex)
      then mret None
      else
        let minPrice :=
          Math.min (Math.min (_entryPrice d) (_targetPrice d))
                   (_stopPrice d) in
        let maxPrice :=
          Math.max (Math.max (_entryPrice d) (_targetPrice d))
                   (_stopPrice d) in
        mret (Some {| priceRange :=
                        {| minValue := minPrice; maxValue := maxPrice |} |})
  end.

(** [Partial<LongPositionData>] *)
Record PartialData : Type := {
  p_entryTime : Property HorzScaleItem;
  p_entryPrice : Property R;
  p_targetPrice : Property R;
  p_stopPrice : Property R;
  p_widthBars : Property R
}.

(** The data object as it is at run time.  The class declares
    [_data: LongPositionData]; after [setData] a key that the caller
    passed as [undefined] holds [undefined] ([None]). *)
Record DataObject : Type := {
  o_entryTime : option HorzScaleItem;
  o_entryPrice : option R;
  o_targetPrice : option R;
  o_stopPrice : option R;
  o_widthBars : option R
}.

(** An object of the declared type, as it is stored. *)
Definition stored (d : LongPositionData) : DataObject :=
  {| o_entryTime := Some (entryTime d);
     o_entryPrice := Some (_entryPrice d);
     o_targetPrice := Some (_targetPrice d);
     o_stopPrice := Some (_stopPrice d);
     o_widthBars := Some (widthBars d) |}.

(** The stored object at its declared type: [None] when a property holds
    [undefined]. *)
Definition declared (d : DataObject) : option LongPositionData :=
  entryTime ← o_entryTime d;
  entryPrice ← o_entryPrice d;
  targetPrice ← o_targetPrice d;
  stopPrice ← o_stopPrice d;
  widthBars ← o_widthBars d;
  Some {| entryTime := entryTime;
          _entryPrice := entryPrice;
          _targetPrice := targetPrice;
          _stopPrice := stopPrice;
          widthBars := widthBars |}.

(** The position with the data object as it is at run time: the state on
    which [setData] and [data] are modelled.  [State] is the position
    whose data are of the declared type; what the class does with a
    property that holds [undefined] is not modelled. *)
Definition Runtime : Type :=
  Primitive DataObject LongPositionOptions LongPositionRendererData.

(** [this._data = { ...this._data, ...data }] *)
Definition setData (data : PartialData) (this : Runtime) : Runtime :=
  let d := _anchors this in
  setAnchors
    {| o_entryTime := read (over (present (o_entryTime d)) (p_entryTime data));
       o_entryPrice :=
         read (over (present (o_entryPrice d)) (p_entryPrice data));
       o_targetPrice :=
         read (over (present (o_targetPrice d)) (p_targetPrice data));
       o_stopPrice := read (over (present (o_stopPrice d)) (p_stopPrice data));
       o_widthBars := read (over (present (o_widthBars d)) (p_widthBars data))
    |}
    this.

(** [data()] *)
Definition data (this : Runtime) : DataObject := _anchors this.

(** *** Renderer ([LongPositionRenderer]) *)

Definition HIT_TEST_TOLERANCE : R := 6.
Definition ANCHOR_HIT_RADIUS : R := 8.

Definition _hitTestAnchorPoints (x y : R) (entry : RendererPoint)
    (targetY stopY rightX : R) (externalId : string)
  : option PrimitiveHoveredItem :=
  match pt_x entry, pt_y entry with
  | Some entryX, Some entryY =>
      let distToEntry :=
        Math.sqrt ((x - entryX) * (x - entryX)
                   + (y - entryY) * (y - entryY)) in
      if decide (distToEntry <= ANCHOR_HIT_RADIUS) then
        Some (HoveredItem "grab" (externalId +:+ ":anchor:0") "normal")
      else
        let distToTarget :=
          Math.sqrt ((x - entryX) * (x - entryX)
                     + (y - targetY) * (y - targetY)) in
        if decide (distToTarget <= ANCHOR_HIT_RADIUS) then
          Some (HoveredItem "ns-resize" (externalId +:+ ":anchor:1")
                  "normal")
        else
          let distToStop :=
            Math.sqrt ((x - entryX) * (x - entryX)
                       + (y - stopY) * (y - stopY)) in
          if decide (distToStop <= ANCHOR_HIT_RADIUS) then
            Some (HoveredItem "ns-resize" (externalId +:+ ":anchor:2")
                    "normal")
          else
            let distToWidth :=
              Math.sqrt ((x - rightX) * (x - rightX)
                         + (y - entryY) * (y - entryY)) in
            if decide (distToWidth <= ANCHOR_HIT_RADIUS) then
              Some (HoveredItem "ew-resize" (externalId +:+ ":anchor:3")
                      "normal")
            else None
  | _, _ => None
  end.

Definition renderer_hitTest (_data : option LongPositionRendererData)
    (x y : R) : option PrimitiveHoveredItem :=
  match _data with
  | None => None
  | Some data =>
      match pt_x (entry data), pt_y (entry data),
            targetY data, stopY data, rightX data with
      | Some entryX, Some entryY, Some targetY, Some stopY, Some rightX =>
          let left := entryX in
          let right := rightX in
          let top := Math.min (Math.min targetY entryY) stopY in
          let bottom := Math.max (Math.max targetY entryY) stopY in
          let anchorResult :=
            if d_selected data then
              _hitTestAnchorPoints x y (entry data) targetY stopY rightX
                (d_externalId data)
            else None in
          match anchorResult with
          | Some anchorResult => Some anchorResult
          | None =>
              let nearTop :=
                isNearHorizontalLine x y left right top
                  HIT_TEST_TOLERANCE in
              let nearBottom :=
                isNearHorizontalLine x y left right bottom
                  HIT_TEST_TOLERANCE in
              let nearLeft :=
                isNearVerticalLine x y left top bottom HIT_TEST_TOLERANCE in
              let nearRight :=
                isNearVerticalLine x y right top bottom
                  HIT_TEST_TOLERANCE in
              let nearEntry :=
                isNearHorizontalLine x y left right entryY
                  HIT_TEST_TOLERANCE in
              let isInside := isInsideRect x y left right top bottom in
              if nearTop || nearBottom || nearLeft || nearRight
                 || nearEntry || isInside
              then Some (HoveredItem "pointer" (d_externalId data) "normal")
              else None
          end
      | _, _, _, _, _ => None
      end
  end.

Definition hitTest (this : State) (x y : R) : option PrimitiveHoveredItem :=
  renderer_hitTest (_data this) x y.

Inductive VerticalAlign : Type := top | middle | bottom.

Definition _drawLabel (scope : BitmapCoordinatesRenderingScope)
    (text : Text) (x y : R) (backgroundColor textColor : string)
    (verticalAlign : VerticalAlign) : list CanvasCall :=
  let padding := 4 * horizontalPixelRatio scope in
  let fontSize := 11 * verticalPixelRatio scope in
  let font := TCat (TNum fontSize) (TStr "px Arial") in
  let textWidth := measureText scope font text in
  let textHeight := fontSize in
  let boxWidth := textWidth + padding * 2 in
  let boxHeight := textHeight + padding in
  let boxX := x - boxWidth / 2 in
  let boxY :=
    match verticalAlign with
    | top => y
    | bottom => y - boxHeight
    | middle => y - boxHeight / 2
    end in
  [ set_font font;
    set_fillStyle backgroundColor;
    beginPath;
    roundRect boxX boxY boxWidth boxHeight 3;
    fill;
    set_fillStyle textColor;
    set_textBaseline "middle";
    set_textAlign "center";
    fillText text x (boxY + boxHeight / 2) ].

(** The numbers [_drawImpl] prints on the labels. *)
Record Metrics : Type := {
  targetDelta : R;
  stopDelta : R;
  targetPct : R;
  stopPct : R;
  riskRewardRatio : R
}.

Definition metrics (direction : option PositionDirection)
    (entryPrice targetPrice stopPrice : R) : Metrics :=
  let '(targetDelta, stopDelta, targetPct, stopPct) :=
    match direction with
    | Some long =>
        let targetDelta := targetPrice - entryPrice in
        let stopDelta := entryPrice - stopPrice in
        (targetDelta, stopDelta,
         targetDelta / entryPrice * 100, stopDelta / entryPrice * 100)
    | _ =>
        let targetDelta := entryPrice - targetPrice in
        let stopDelta := stopPrice - entryPrice in
        (targetDelta, stopDelta,
         targetDelta / entryPrice * 100, stopDelta / entryPrice * 100)
    end in
  let riskRewardRatio :=
    if decide (stopDelta <> 0) then targetDelta / stopDelta else 0 in
  {| targetDelta := targetDelta;
     stopDelta := stopDelta;
     targetPct := targetPct;
     stopPct := stopPct;
     riskRewardRatio := riskRewardRatio |}.

Definition _drawImpl (_data : option LongPositionRendererData)
    (scope : BitmapCoordinatesRenderingScope) : list CanvasCall :=
  match _data with
  | None => []
  | Some data =>
      match pt_x (entry data), pt_y (entry data),
            targetY data, stopY data, rightX data with
      | Some entryX, Some entryY, Some targetY, Some stopY, Some rightX =>
          let horizontalPixelRatio := horizontalPixelRatio scope in
          let verticalPixelRatio := verticalPixelRatio scope in
          let leftScaled := Math.round (entryX * horizontalPixelRatio) in
          let rightScaled := Math.round (rightX * horizontalPixelRatio) in
          let entryYScaled := Math.round (entryY * verticalPixelRatio) in
          let targetYScaled := Math.round (targetY * verticalPixelRatio) in
          let stopYScaled := Math.round (stopY * verticalPixelRatio) in
          let rectWidth := rightScaled - leftScaled in
          let profitTop := Math.min targetYScaled entryYScaled in
          let profitBottom := Math.max targetYScaled entryYScaled in
          let profitHeight := profitBottom - profitTop in
          let riskTop := Math.min entryYScaled stopYScaled in
          let riskBottom := Math.max entryYScaled stopYScaled in
          let riskHeight := riskBottom - riskTop in
          let m :=
            metrics (direction data) (entryPrice data) (targetPrice data)
              (stopPrice data) in
          let targetText :=
            TCat (TStr "Target: ")
              (TCat (TFixed (targetDelta m) 2)
                 (TCat (TStr " (")
                    (TCat (TFixed (targetPct m) 2) (TStr "%)")))) in
          let stopText :=
            TCat (TStr "Stop: ")
              (TCat (TFixed (stopDelta m) 2)
                 (TCat (TStr " (")
                    (TCat (TFixed (stopPct m) 2) (TStr "%)")))) in
          let rrText :=
            TCat (TStr "Risk/Reward: ") (TFixed (riskRewardRatio m) 2) in
          [ save;
            set_fillStyle (d_profitBackgroundColor data);
            fillRect leftScaled profitTop rectWidth profitHeight;
            restore;
            save;
            set_fillStyle (d_riskBackgroundColor data);
            fillRect leftScaled riskTop rectWidth riskHeight;
            restore;
            save;
            set_lineWidth (d_lineWidth data * horizontalPixelRatio);
            set_strokeStyle (d_entryLineColor data);
            setLineStyle Dashed;
            beginPath;
            moveTo leftScaled entryYScaled;
            lineTo rightScaled entryYScaled;
            stroke;
            restore ]
          ++ match direction data with
             | Some long =>
                 _drawLabel scope targetText (leftScaled + rectWidth / 2)
                   (targetYScaled - 8 * verticalPixelRatio)
                   (d_targetLabelBackgroundColor data)
                   (d_labelTextColor data) bottom
                 ++ _drawLabel scope stopText (leftScaled + rectWidth / 2)
                      (stopYScaled + 8 * verticalPixelRatio)
                      (d_stopLabelBackgroundColor data)
                      (d_labelTextColor data) top
             | _ =>
                 _drawLabel scope targetText (leftScaled + rectWidth / 2)
                   (targetYScaled + 8 * verticalPixelRatio)
                   (d_targetLabelBackgroundColor data)
                   (d_labelTextColor data) top
                 ++ _drawLabel scope stopText (leftScaled + rectWidth / 2)
                      (stopYScaled - 8 * verticalPixelRatio)
                      (d_stopLabelBackgroundColor data)
                      (d_labelTextColor data) bottom
             end
          ++ _drawLabel scope rrText (leftScaled + rectWidth / 2)
               entryYScaled "#ffffff" "#000000" middle
          ++ (if d_selected data then
                _drawAnchorPoint leftScaled entryYScaled
                  (d_anchorPointColor data) horizontalPixelRatio
                ++ _drawAnchorPoint leftScaled targetYScaled
                     (d_anchorPointColor data) horizontalPixelRatio
                ++ _drawAnchorPoint leftScaled stopYScaled
                     (d_anchorPointColor data) horizontalPixelRatio
                ++ _drawAnchorPoint rightScaled entryYScaled
                     (d_anchorPointColor data) horizontalPixelRatio
              else [])
      | _, _, _, _, _ => []
      end
  end.

Definition draw := _drawImpl.

End LongPosition.

(** ** Horizontal line *)

Module HorizontalLine.

Record HorizontalLineOptions : Type := {
  lineColor : string;
  lineWidth : R;
  lineStyle : LineStyle;
  showPriceLabel : bool;
  externalId : string;
  selected : bool;
  anchorPointColor : string;
  anchorOffsetFromRight : R
}.

Definition horizontalLineOptionsDefaults : HorizontalLineOptions :=
  {| lineColor := "#f97316";
     lineWidth := 2;
     lineStyle := Solid;
     showPriceLabel := true;
     externalId := "";
     selected := false;
     anchorPointColor := "#2962ff";
     anchorOffsetFromRight := 50 |}.

Record HorizontalLineRendererData : Type := {
  y : option R;
  d_lineColor : string;
  d_lineWidth : R;
  d_lineStyle : LineStyle;
  d_externalId : string;
  chartWidth : R;
  d_selected : bool;
  d_anchorPointColor : string;
  d_anchorOffsetFromRight : R
}.

(** *** Primitive ([HorizontalLine]); its only anchor is [_price]. *)

Definition State : Type :=
  Primitive R HorizontalLineOptions HorizontalLineRendererData.

Definition _calculateRendererData (this : State)
  : Exc (option HorizontalLineRendererData) :=
  if negb (isAttached this) then mret None
  else
    chart ← deref (_chart this);
    series ← deref (_series this);
    let timeScale := timeScale chart in
    let o := _options this in
    let y := priceToCoordinate series (_anchors this) in
    mret (Some
      {| y := y;
         d_lineColor := lineColor o;
         d_lineWidth := lineWidth o;
         d_lineStyle := lineStyle o;
         d_externalId := externalId o;
         chartWidth := width timeScale;
         d_selected := selected o;
         d_anchorPointColor := anchorPointColor o;
         d_anchorOffsetFromRight := anchorOffsetFromRight o |}).

Definition updateAllViews (this : State) : Exc State :=
  updateAllViews_guarded _calculateRendererData this.

Definition autoscaleInfo (this : State) (_startTimePoint _endTimePoint : R)
  : Exc (option AutoscaleInfo) :=
  mret (Some {| priceRange :=
                  {| minValue := _anchors this;
                     maxValue := _anchors this |} |}).

Definition setPrice (price : R) (this : State) : State :=
  setAnchors price this.

(** *** Renderer ([HorizontalLineRenderer]) *)

Definition HIT_TEST_TOLERANCE : R := 6.
Definition ANCHOR_HIT_RADIUS : R := 8.

Definition _hitTestAnchorPoint (x y anchorX anchorY : R)
    (externalId : string) : option PrimitiveHoveredItem :=
  let dist :=
    Math.sqrt ((x - anchorX) * (x - anchorX)
               + (y - anchorY) * (y - anchorY)) in
  if decide (dist <= ANCHOR_HIT_RADIUS) then
    Some (HoveredItem "grab" (externalId +:+ ":anchor:0") "normal")
  else None.

Definition renderer_hitTest (_data : option HorizontalLineRendererData)
    (x y : R) : option PrimitiveHoveredItem :=
  match _data with
  | None => None
  | Some data =>
      match HorizontalLine.y data with
      | None => None
      | Some lineY =>
          let anchorResult :=
            if d_selected data then
              let anchorX := chartWidth data - d_anchorOffsetFromRight data in
              _hitTestAnchorPoint x y anchorX lineY (d_externalId data)
            else None in
          match anchorResult with
          | Some anchorResult => Some anchorResult
          | None =>
              let distance := Math.abs (y - lineY) in
              if decide (distance <= HIT_TEST_TOLERANCE) then
                Some (HoveredItem "pointer" (d_externalId data) "normal")
              else None
          end
      end
  end.

Definition hitTest (this : State) (x y : R) : option PrimitiveHoveredItem :=
  renderer_hitTest (_data this) x y.

Definition _drawImpl (_data : option HorizontalLineRendererData)
    (scope : BitmapCoordinatesRenderingScope) : list CanvasCall :=
  match _data with
  | None => []
  | Some data =>
      match HorizontalLine.y data with
      | None => []
      | Some lineY =>
          let hRatio := horizontalPixelRatio scope in
          let vRatio := verticalPixelRatio scope in
          let yScaled := Math.round (lineY * vRatio) in
          let x1Scaled := 0 in
          let x2Scaled := Math.round (chartWidth data * hRatio) in
          [ save;
            set_lineWidth (d_lineWidth data * hRatio);
            set_strokeStyle (d_lineColor data);
            setLineStyle (d_lineStyle data);
            beginPath;
            moveTo x1Scaled yScaled;
            lineTo x2Scaled yScaled;
            stroke;
            restore ]
          ++ (if d_selected data then
                let anchorX :=
                  chartWidth data - d_anchorOffsetFromRight data in
                let anchorXScaled := Math.round (anchorX * hRatio) in
                _drawAnchorPoint anchorXScaled yScaled
                  (d_anchorPointColor data) hRatio
              else [])
      end
  end.

Definition draw := _drawImpl.

End HorizontalLine.

(** ** Vertical line *)

Module VerticalLine.

Record VerticalLineOptions : Type := {
  lineColor : string;
  lineWidth : R;
  lineStyle : LineStyle;
  showTimeLabel : bool;
  labelBackgroundColor : string;
  labelTextColor : string;
  externalId : string;
  selected : bool;
  timeframe : string
}.

Definition verticalLineOptionsDefaults : VerticalLineOptions :=
  {| lineColor := "#f97316";
     lineWidth := 2;
     lineStyle := Solid;
     showTimeLabel := true;
     labelBackgroundColor := "rgba(255, 255, 255, 0.85)";
     labelTextColor := "rgb(0, 0, 0)";
     externalId := "";
     selected := false;
     timeframe := "1d" |}.

(** The snapshot of [vertical-line/renderer.ts]. *)
Record VerticalLineRendererData : Type := {
  x : option R;
  timeLabel : string;
  d_lineColor : string;
  d_lineWidth : R;
  d_lineStyle : LineStyle;
  d_showTimeLabel : bool;
  d_labelBackgroundColor : string;
  d_labelTextColor : string;
  d_externalId : string;
  chartWidth : R;
  chartHeight : R;
  d_selected : bool;
  d_anchorPointColor : string;
  d_anchorOffsetFromBottom : R
}.

Definition HIT_TEST_TOLERANCE : R := 6.
Definition ANCHOR_HIT_RADIUS : R := 8.
Definition LABEL_PADDING_X : R := 6.
Definition LABEL_PADDING_Y : R := 4.
Definition LABEL_FONT_SIZE : R := 11.
Definition LABEL_BOTTOM_MARGIN : R := 4.

(** *** Renderer ([VerticalLineRenderer], [vertical-line/renderer.ts]) *)

Definition _hitTestAnchorPoint (x y anchorX anchorY : R)
    (externalId : string) : option PrimitiveHoveredItem :=
  let dist :=
    Math.sqrt ((x - anchorX) * (x - anchorX)
               + (y - anchorY) * (y - anchorY)) in
  if decide (dist <= ANCHOR_HIT_RADIUS) then
    Some (HoveredItem "grab" (externalId +:+ ":anchor:0") "normal")
  else None.

Definition renderer_hitTest (_data : option VerticalLineRendererData)
    (x y : R) : option PrimitiveHoveredItem :=
  match _data with
  | None => None
  | Some data =>
      match VerticalLine.x data with
      | None => None
      | Some lineX =>
          let anchorResult :=
            if d_selected data then
              let anchorY :=
                chartHeight data - d_anchorOffsetFromBottom data in
              _hitTestAnchorPoint x y lineX anchorY (d_externalId data)
            else None in
          match anchorResult with
          | Some anchorResult => Some anchorResult
          | None =>
              let distance := Math.abs (x - lineX) in
              if decide (distance <= HIT_TEST_TOLERANCE) then
                Some (HoveredItem "pointer" (d_externalId data) "normal")
              else None
          end
      end
  end.

Definition _drawTimeLabel (scope : BitmapCoordinatesRenderingScope)
    (x bottom : R) (label bgColor textColor borderColor : string)
    (hRatio vRatio : R) : list CanvasCall :=
  let fontSize := Math.round (LABEL_FONT_SIZE * vRatio) in
  let font :=
    TCat (TNum fontSize)
      (TStr "px -apple-system, BlinkMacSystemFont, 'Segoe UI', Roboto, sans-serif") in
  let textWidth := measureText scope font (TStr label) in
  let textHeight := fontSize in
  let paddingX := LABEL_PADDING_X * hRatio in
  let paddingY := LABEL_PADDING_Y * vRatio in
  let bottomMargin := LABEL_BOTTOM_MARGIN * vRatio in
  let boxWidth := textWidth + paddingX * 2 in
  let boxHeight := textHeight + paddingY * 2 in
  let boxX := x - boxWidth / 2 in
  let boxY := bottom - boxHeight - bottomMargin in
  let borderWidth := 1 * hRatio in
  [ set_font font;
    save;
    set_fillStyle borderColor;
    beginPath;
    roundRect boxX boxY boxWidth boxHeight (3 * hRatio);
    fill;
    set_fillStyle bgColor;
    beginPath;
    roundRect (boxX + borderWidth) (boxY + borderWidth)
      (boxWidth - borderWidth * 2) (boxHeight - borderWidth * 2)
      (2 * hRatio);
    fill;
    set_fillStyle textColor;
    set_textAlign "center";
    set_textBaseline "middle";
    fillText (TStr label) x (boxY + boxHeight / 2);
    restore ].

(** The line and the time label, which both renderer versions draw. *)
Definition drawLineAndLabel (scope : BitmapCoordinatesRenderingScope)
    (x chartHeight : R) (lineColor : string) (lineWidth : R)
    (lineStyle : LineStyle) (showTimeLabel : bool)
    (timeLabel labelBackgroundColor labelTextColor : string)
  : list CanvasCall :=
  let hRatio := horizontalPixelRatio scope in
  let vRatio := verticalPixelRatio scope in
  let scaledX := Math.round (x * hRatio) in
  let scaledTop := 0 in
  let scaledBottom := Math.round (chartHeight * vRatio) in
  [ save;
    set_lineWidth (lineWidth * hRatio);
    set_strokeStyle lineColor;
    setLineStyle lineStyle;
    beginPath;
    moveTo scaledX scaledTop;
    lineTo scaledX scaledBottom;
    stroke;
    restore ]
  ++ (if showTimeLabel && negb (String.eqb timeLabel "") then
        _drawTimeLabel scope scaledX scaledBottom timeLabel
          labelBackgroundColor labelTextColor lineColor hRatio vRatio
      else []).

Definition _drawImpl (_data : option VerticalLineRendererData)
    (scope : BitmapCoordinatesRenderingScope) : list CanvasCall :=
  match _data with
  | None => []
  | Some data =>
      match VerticalLine.x data with
      | None => []
      | Some x =>
          let hRatio := horizontalPixelRatio scope in
          let vRatio := verticalPixelRatio scope in
          let scaledX := Math.round (x * hRatio) in
          drawLineAndLabel scope x (chartHeight data) (d_lineColor data)
            (d_lineWidth data) (d_lineStyle data) (d_showTimeLabel data)
            (timeLabel data) (d_labelBackgroundColor data)
            (d_labelTextColor data)
          ++ (if d_selected data then
                let anchorY :=
                  chartHeight data - d_anchorOffsetFromBottom data in
                let anchorYScaled := Math.round (anchorY * vRatio) in
                _drawAnchorPoint scaledX anchorYScaled
                  (d_anchorPointColor data) hRatio
              else [])
      end
  end.

Definition draw := _drawImpl.

(** *** The earlier renderer ([unnamed/part_003])

    Its snapshot has no anchor fields; it is the snapshot the primitive
    under [src/] builds. *)

Record EarlierRendererData : Type := {
  e_x : option R;
  e_timeLabel : string;
  e_lineColor : string;
  e_lineWidth : R;
  e_lineStyle : LineStyle;
  e_showTimeLabel : bool;
  e_labelBackgroundColor : string;
  e_labelTextColor : string;
  e_externalId : string;
  e_chartWidth : R;
  e_chartHeight : R;
  e_selected : bool
}.

Definition earlier_hitTest (_data : option EarlierRendererData)
    (x _y : R) : option PrimitiveHoveredItem :=
  match _data with
  | None => None
  | Some data =>
      match e_x data with
      | None => None
      | Some lineX =>
          let distance := Math.abs (x - lineX) in
          if decide (distance <= HIT_TEST_TOLERANCE) then
            Some (HoveredItem "pointer" (e_externalId data) "normal")
          else None
      end
  end.

Definition earlier_drawImpl (_data : option EarlierRendererData)
    (scope : BitmapCoordinatesRenderingScope) : list CanvasCall :=
  match _data with
  | None => []
  | Some data =>
      match e_x data with
      | None => []
      | Some x =>
          drawLineAndLabel scope x (e_chartHeight data) (e_lineColor data)
            (e_lineWidth data) (e_lineStyle data) (e_showTimeLabel data)
            (e_timeLabel data) (e_labelBackgroundColor data)
            (e_labelTextColor data)
      end
  end.

(** *** [formatTimeLabel] ([vertical-line/primitive.ts])

    [Date] is a built-in of the language: a date is modelled by the
    calendar fields that [formatTimeLabel] reads from it, in the local
    time zone, and [new Date(ms)] is a parameter.  [String(n)] and
    [n.toString()] of an integer are its decimal digits. *)

Record Date : Type := {
  getDay : Z;
  getDate : Z;
  getMonth : Z;
  getFullYear : Z;
  getHours : Z;
  getMinutes : Z
}.

Definition toString (n : Z) : string :=
  NilZero.string_of_int (Z.to_int n).

(** [names[i]] as a template literal prints it: an index outside the
    array reads [undefined]. *)
Definition index (names : list string) (i : Z) : string :=
  if (i <? 0)%Z then "undefined"
  else nth (Z.to_nat i) names "undefined".

(** [s.padStart(targetLength, pad)] for a pad string of one character. *)
Definition padStart (targetLength : nat) (pad : Ascii.ascii) (s : string)
  : string :=
  Nat.iter (targetLength - String.length s) (String pad) s.

(** [s.slice(-n)]: the last [n] characters, or all of [s] when it is
    shorter. *)
Definition sliceLast (n : nat) (s : string) : string :=
  String.substring (String.length s - n) n s.

Definition formatTimeLabel (newDate : Z -> Date)
    (timestamp : HorzScaleItem) (timeframe : string) : string :=
  let date := newDate (timestamp * 1000)%Z in
  let dayNames := [ "Sun"; "Mon"; "Tue"; "Wed"; "Thu"; "Fri"; "Sat" ] in
  let monthNames :=
    [ "Jan"; "Feb"; "Mar"; "Apr"; "May"; "Jun";
      "Jul"; "Aug"; "Sep"; "Oct"; "Nov"; "Dec" ] in
  let dayName := index dayNames (getDay date) in
  let day := getDate date in
  let month := index monthNames (getMonth date) in
  let year := sliceLast 2 (toString (getFullYear date)) in
  let label :=
    dayName +:+ " " +:+ toString day +:+ " " +:+ month +:+ " '" +:+ year in
  if String.eqb timeframe "1m" || String.eqb timeframe "1h" then
    let hours := padStart 2 "0"%char (toString (getHours date)) in
    let minutes := padStart 2 "0"%char (toString (getMinutes date)) in
    label +:+ " " +:+ hours +:+ ":" +:+ minutes
  else label.

(** *** Primitive ([VerticalLine]); its anchor is the time of [_point].

    [formatTimeLabel] reads the calendar fields of a JavaScript [Date] in
    the local time zone; it is taken as given.

    The snapshot that [_calculateRendererData] builds has the properties
    of the earlier renderer's snapshot: it sets neither [anchorPointColor]
    nor [anchorOffsetFromBottom], which the renderer of
    [vertical-line/renderer.ts] reads.  The pane view hands it to that
    renderer all the same.  The snapshot is modelled at the type it has,
    and [hitTest] through the earlier renderer: with the offset missing,
    the handle test of the later renderer compares a distance that is not
    a number and never succeeds, and its line test is the earlier one. *)

Section Primitive.
Variable formatTimeLabel : HorzScaleItem -> string -> string.

Definition State : Type :=
  Primitive HorzScaleItem VerticalLineOptions EarlierRendererData.

Definition _calculateRendererData (this : State)
  : Exc (option EarlierRendererData) :=
  if negb (isAttached this) then mret None
  else
    chart ← deref (_chart this);
    series ← deref (_series this);
    let timeScale := timeScale chart in
    let o := _options this in
    let x := timeToCoordinate timeScale (_anchors this) in
    let timeLabel := formatTimeLabel (_anchors this) (timeframe o) in
    mret (Some
      {| e_x := x;
         e_timeLabel := timeLabel;
         e_lineColor := lineColor o;
         e_lineWidth := lineWidth o;
         e_lineStyle := lineStyle o;
         e_showTimeLabel := showTimeLabel o;
         e_labelBackgroundColor := labelBackgroundColor o;
         e_labelTextColor := labelTextColor o;
         e_externalId := externalId o;
         e_chartWidth := width timeScale;
         e_chartHeight := paneHeight series;
         e_selected := selected o |}).

Definition updateAllViews (this : State) : Exc State :=
  updateAllViews_guarded _calculateRendererData this.

Definition autoscaleInfo (this : State) (_startTimePoint _endTimePoint : R)
  : Exc (option AutoscaleInfo) :=
  mret None.

Definition hitTest (this : State) (x y : R) : option PrimitiveHoveredItem :=
  earlier_hitTest (_data this) x y.

(** [setPoint]: the point carries the time only. *)
Definition setPoint (point : HorzScaleItem) (this : State) : State :=
  setAnchors point this.

End Primitive.

End VerticalLine.

(** ** Horizontal ray *)

Module HorizontalRay.

Record HorizontalRayOptions : Type := {
  lineColor : string;
  lineWidth : R;
  lineStyle : LineStyle;
  showPriceLabel : bool;
  labelBackgroundColor : string;
  labelTextColor : string;
  externalId : string;
  selected : bool;
  anchorPointColor : string
}.

Definition horizontalRayOptionsDefaults : HorizontalRayOptions :=
  {| lineColor := "#f97316";
     lineWidth := 2;
     lineStyle := Solid;
     showPriceLabel := true;
     labelBackgroundColor := "rgba(255, 255, 255, 0.85)";
     labelTextColor := "rgb(0, 0, 0)";
     externalId := "";
     selected := false;
     anchorPointColor := "#2962ff" |}.

Record HorizontalRayRendererData : Type := {
  anchor : RendererPoint;
  endPoint : RendererPoint;
  priceLabel : string;
  d_lineColor : string;
  d_lineWidth : R;
  d_lineStyle : LineStyle;
  d_showPriceLabel : bool;
  d_labelBackgroundColor : string;
  d_labelTextColor : string;
  d_externalId : string;
  chartWidth : R;
  chartHeight : R;
  d_selected : bool;
  d_anchorPointColor : string
}.

(** *** Primitive ([HorizontalRay]) *)

Record HorizontalRayAnchorPoint : Type := {
  time : HorzScaleItem;
  price : R
}.

Definition State : Type :=
  Primitive HorizontalRayAnchorPoint HorizontalRayOptions
    HorizontalRayRendererData.

Definition _calculateRendererData (this : State)
  : Exc (option HorizontalRayRendererData) :=
  if negb (isAttached this) then mret None
  else
    chart ← deref (_chart this);
    series ← deref (_series this);
    let timeScale := timeScale chart in
    let a := _anchors this in
    let o := _options this in
    let anchorX := timeToCoordinate timeScale (time a) in
    let anchorY := priceToCoordinate series (price a) in
    let anchorPoint := {| pt_x := anchorX; pt_y := anchorY |} in
    let chartWidth := width timeScale in
    let endPoint :=
      match anchorX, anchorY with
      | Some _, Some anchorY =>
          {| pt_x := Some chartWidth; pt_y := Some anchorY |}
      | _, _ => {| pt_x := None; pt_y := None |}
      end in
    mret (Some
      {| anchor := anchorPoint;
         endPoint := endPoint;
         priceLabel := priceFormat series (price a);
         d_lineColor := lineColor o;
         d_lineWidth := lineWidth o;
         d_lineStyle := lineStyle o;
         d_showPriceLabel := showPriceLabel o;
         d_labelBackgroundColor := labelBackgroundColor o;
         d_labelTextColor := labelTextColor o;
         d_externalId := externalId o;
         chartWidth := chartWidth;
         chartHeight := paneHeight series;
         d_selected := selected o;
         d_anchorPointColor := anchorPointColor o |}).

Definition updateAllViews (this : State) : Exc State :=
  updateAllViews_guarded _calculateRendererData this.

Definition _getAnchorLogicalIndex (this : State) : Exc (option R) :=
  if negb (bool_decide (is_Some (_chart this))) then mret None
  else
    chart ← deref (_chart this);
    let timeScale := timeScale chart in
    match timeToCoordinate timeScale (time (_anchors this)) with
    | None => mret None
    | Some coordinate => mret (coordinateToLogical timeScale coordinate)
    end.

Definition autoscaleInfo (this : State) (startTimePoint endTimePoint : R)
  : Exc (option AutoscaleInfo) :=
  anchorIndex ← _getAnchorLogicalIndex this;
  match anchorIndex with
  | None => mret None
  | Some anchorIndex =>
      if decide (endTimePoint < anchorIndex) then mret None
      else
        mret (Some {| priceRange :=
                        {| minValue := price (_anchors this);
                           maxValue := price (_anchors this) |} |})
  end.

Definition setPoint (anchor : HorizontalRayAnchorPoint) (this : State)
  : State :=
  setAnchors anchor this.

(** *** Renderer ([HorizontalRayRenderer]) *)

Definition HIT_TEST_TOLERANCE : R := 6.

Definition renderer_hitTest (_data : option HorizontalRayRendererData)
    (x y : R) : option PrimitiveHoveredItem :=
  match _data with
  | None => None
  | Some data =>
      match pt_x (anchor data), pt_y (anchor data),
            pt_x (endPoint data), pt_y (endPoint data) with
      | Some anchorX, Some anchorY, Some endX, Some endY =>
          let distance :=
            distanceToLineSegment x y anchorX anchorY endX endY in
          if decide (distance <= HIT_TEST_TOLERANCE) then
            Some (HoveredItem "pointer" (d_externalId data) "normal")
          else
            let anchorDistance :=
              Math.sqrt ((x - anchorX) * (x - anchorX)
                         + (y - anchorY) * (y - anchorY)) in
            if decide (anchorDistance <= HIT_TEST_TOLERANCE) then
              Some (HoveredItem "pointer" (d_externalId data) "normal")
            else None
      | _, _, _, _ => None
      end
  end.

Definition hitTest (this : State) (x y : R) : option PrimitiveHoveredItem :=
  renderer_hitTest (_data this) x y.

Definition _drawImpl (_data : option HorizontalRayRendererData)
    (scope : BitmapCoordinatesRenderingScope) : list CanvasCall :=
  match _data with
  | None => []
  | Some data =>
      match pt_x (anchor data), pt_y (anchor data),
            pt_x (endPoint data), pt_y (endPoint data) with
      | Some anchorX, Some anchorY, Some endX, Some endY =>
          let hRatio := horizontalPixelRatio scope in
          let vRatio := verticalPixelRatio scope in
          let x1 := Math.round (anchorX * hRatio) in
          let y1 := Math.round (anchorY * vRatio) in
          let x2 := Math.round (endX * hRatio) in
          let y2 := Math.round (endY * vRatio) in
          [ save;
            set_lineWidth (d_lineWidth data * hRatio);
            set_strokeStyle (d_lineColor data);
            setLineStyle (d_lineStyle data);
            beginPath;
            moveTo x1 y1;
            lineTo x2 y2;
            stroke;
            restore ]
          ++ (if d_selected data then
                _drawAnchorPoint x1 y1 (d_anchorPointColor data) hRatio
              else [])
      | _, _, _, _ => []
      end
  end.

Definition draw := _drawImpl.

End HorizontalRay.

(** ** Background regions *)

Module BackgroundRegions.

Record BackgroundRegionData : Type := {
  time : HorzScaleItem;
  color : string
}.

Record BackgroundRegionsOptions : Type := { externalId : string }.

Definition backgroundRegionsOptionsDefaults : BackgroundRegionsOptions :=
  {| externalId := "" |}.

Record BackgroundRegionRendererData : Type := {
  x : R;
  r_color : string;
  barWidth : R
}.

Record BackgroundRegionsRendererData : Type := {
  regions : list BackgroundRegionRendererData;
  chartHeight : R
}.

(** *** Primitive ([BackgroundRegions]) *)

Definition State : Type :=
  Primitive (list BackgroundRegionData) BackgroundRegionsOptions
    BackgroundRegionsRendererData.

Definition _calculateRendererData (this : State)
  : Exc BackgroundRegionsRendererData :=
  if negb (isAttached this)
     || bool_decide (length (_anchors this) = 0%nat)
  then mret {| regions := []; chartHeight := 0 |}
  else
    chart ← deref (_chart this);
    series ← deref (_series this);
    let timeScale := timeScale chart in
    let chartHeight := paneHeight series in
    let barSpacing := barSpacing timeScale in
    let regions :=
      fold_left
        (fun regions point =>
           match timeToCoordinate timeScale (time point) with
           | None => regions
           | Some x =>
               regions ++ [ {| x := x; r_color := color point;
                               barWidth := barSpacing |} ]
           end)
        (_anchors this) [] in
    mret {| regions := regions; chartHeight := chartHeight |}.

Definition updateAllViews (this : State) : Exc State :=
  rendererData ← _calculateRendererData this;
  mret (paneView_update rendererData this).

Definition hitTest (this : State) : option PrimitiveHoveredItem := None.

Definition setData (data : list BackgroundRegionData) (this : State)
  : State :=
  setAnchors data this.

(** *** Renderer ([BackgroundRegionsRenderer]) *)

Definition renderer_hitTest (_data : option BackgroundRegionsRendererData)
  : option PrimitiveHoveredItem := None.

(** The variables of the batching loop. *)
Record Batch : Type := {
  currentColor : option string;
  batchStartX : option R;
  batchEndX : option R
}.

Definition drawBatch (chartHeightScaled : R) (b : Batch)
  : list CanvasCall :=
  match currentColor b, batchStartX b, batchEndX b with
  | Some currentColor, Some batchStartX, Some batchEndX =>
      [ set_fillStyle currentColor;
        fillRect batchStartX 0 (batchEndX - batchStartX) chartHeightScaled ]
  | _, _, _ => []
  end.

Definition leftX (horizontalPixelRatio : R)
    (region : BackgroundRegionRendererData) : R :=
  let halfBarWidth := barWidth region * horizontalPixelRatio / 2 in
  Math.round (x region * horizontalPixelRatio - halfBarWidth).

Definition rightX (horizontalPixelRatio : R)
    (region : BackgroundRegionRendererData) : R :=
  let halfBarWidth := barWidth region * horizontalPixelRatio / 2 in
  Math.round (x region * horizontalPixelRatio + halfBarWidth).

Definition isAdjacent (horizontalPixelRatio : R) (batchEndX : option R)
    (region : BackgroundRegionRendererData) : bool :=
  let barWidthScaled := barWidth region * horizontalPixelRatio in
  match batchEndX with
  | None => false
  | Some batchEndX =>
      bool_decide
        (leftX horizontalPixelRatio region
         <= batchEndX + barWidthScaled * 0.5)
  end.

(** One turn of the loop over the regions: the calls issued so far and the
    batch being built. *)
Definition batchStep (horizontalPixelRatio chartHeightScaled : R)
    (acc : list CanvasCall * Batch) (region : BackgroundRegionRendererData)
  : list CanvasCall * Batch :=
  let '(calls, b) := acc in
  let leftX := leftX horizontalPixelRatio region in
  let rightX := rightX horizontalPixelRatio region in
  if bool_decide (Some (r_color region) = currentColor b)
     && isAdjacent horizontalPixelRatio (batchEndX b) region
  then
    (calls,
     {| currentColor := currentColor b;
        batchStartX := batchStartX b;
        batchEndX := Some rightX |})
  else
    (calls ++ drawBatch chartHeightScaled b,
     {| currentColor := Some (r_color region);
        batchStartX := Some leftX;
        batchEndX := Some rightX |}).

Definition _drawImpl (_data : option BackgroundRegionsRendererData)
    (scope : BitmapCoordinatesRenderingScope) : list CanvasCall :=
  match _data with
  | None => []
  | Some data =>
      if bool_decide (length (regions data) = 0%nat) then []
      else
        let horizontalPixelRatio := horizontalPixelRatio scope in
        let verticalPixelRatio := verticalPixelRatio scope in
        let chartHeightScaled :=
          Math.round (chartHeight data * verticalPixelRatio) in
        let '(calls, b) :=
          fold_left (batchStep horizontalPixelRatio chartHeightScaled)
            (regions data)
            ([], {| currentColor := None; batchStartX := None;
                    batchEndX := None |}) in
        calls ++ drawBatch chartHeightScaled b
  end.

Definition draw := _drawImpl.

End BackgroundRegions.

(** * Vocabulary of the statements and example inputs *)

(** The host of an attached rectangle maps its corners to the given
    pixels and has the given width. *)
Definition rectangle_host (xa xb ya yb chartWidth : R)
    (this : Rectangle.State) : Prop :=
  exists chart series,
    _chart this = Some chart /\ _series this = Some series /\
    timeToCoordinate (timeScale chart)
      (Rectangle.time (Rectangle._p1 (_anchors this))) = Some xa /\
    timeToCoordinate (timeScale chart)
      (Rectangle.time (Rectangle._p2 (_anchors this))) = Some xb /\
    priceToCoordinate series
      (Rectangle.price (Rectangle._p1 (_anchors this))) = Some ya /\
    priceToCoordinate series
      (Rectangle.price (Rectangle._p2 (_anchors this))) = Some yb /\
    width (timeScale chart) = chartWidth.

(** A host chart of width 200 and height 300: the time t is at pixel
    x = t, the price p at pixel y = 300 - p. *)
Definition example_param : SeriesAttachedParameter :=
  {| param_chart :=
       {| timeScale :=
            {| timeToCoordinate := fun t => Some (IZR t);
               coordinateToLogical := fun c => Some c;
               logicalToCoordinate := fun l => Some l;
               width := 200;
               barSpacing := 6 |} |};
     param_series :=
       {| priceToCoordinate := fun p => Some (300 - p);
          paneHeight := 300;
          priceFormat := fun _ => "" |} |}.

(** A rectangle attached to that chart, corners at x = 80 and x = 20. *)
Definition rectangle_example (mode : Rectangle.RectangleExtendMode)
  : Rectangle.State :=
  attached example_param
    (construct
       {| Rectangle._p1 := {| Rectangle.time := 80%Z; Rectangle.price := 250 |};
          Rectangle._p2 := {| Rectangle.time := 20%Z; Rectangle.price := 100 |} |}
       {| Rectangle.lineColor := "#f97316";
          Rectangle.lineWidth := 2;
          Rectangle.lineStyle := Solid;
          Rectangle.backgroundColor := "rgba(249, 115, 22, 0.2)";
          Rectangle.labelText := "";
          Rectangle.showLabel := false;
          Rectangle.labelBackgroundColor := "rgba(255, 255, 255, 0.85)";
          Rectangle.labelTextColor := "rgb(0, 0, 0)";
          Rectangle.extendMode := mode;
          Rectangle.externalId := "";
          Rectangle.selected := false;
          Rectangle.anchorPointColor := "#2962ff";
          Rectangle.showMiddleLine := false;
          Rectangle.middleLineColor := "#f97316";
          Rectangle.middleLineStyle := Dashed;
          Rectangle.middleLineWidth := 1 |}).

(** A selected horizontal line at y = 100 in a chart of width 200, with
    the default distance of the handle from the right edge. *)
Definition selected_line : HorizontalLine.HorizontalLineRendererData :=
  {| HorizontalLine.y := Some 100;
     HorizontalLine.d_lineColor := "#f97316";
     HorizontalLine.d_lineWidth := 2;
     HorizontalLine.d_lineStyle := Solid;
     HorizontalLine.d_externalId := "line";
     HorizontalLine.chartWidth := 200;
     HorizontalLine.d_selected := true;
     HorizontalLine.d_anchorPointColor := "#2962ff";
     HorizontalLine.d_anchorOffsetFromRight := 50 |}.

(** The same line, not selected. *)
Definition plain_line : HorizontalLine.HorizontalLineRendererData :=
  {| HorizontalLine.y := Some 100;
     HorizontalLine.d_lineColor := "#f97316";
     HorizontalLine.d_lineWidth := 2;
     HorizontalLine.d_lineStyle := Solid;
     HorizontalLine.d_externalId := "line";
     HorizontalLine.chartWidth := 200;
     HorizontalLine.d_selected := false;
     HorizontalLine.d_anchorPointColor := "#2962ff";
     HorizontalLine.d_anchorOffsetFromRight := 50 |}.

(** A vertical line at x = 40, not selected. *)
Definition plain_vertical : VerticalLine.VerticalLineRendererData :=
  {| VerticalLine.x := Some 40;
     VerticalLine.timeLabel := "Mon 21 Jul '25";
     VerticalLine.d_lineColor := "#f97316";
     VerticalLine.d_lineWidth := 2;
     VerticalLine.d_lineStyle := Solid;
     VerticalLine.d_showTimeLabel := true;
     VerticalLine.d_labelBackgroundColor := "rgba(255, 255, 255, 0.85)";
     VerticalLine.d_labelTextColor := "rgb(0, 0, 0)";
     VerticalLine.d_externalId := "vline";
     VerticalLine.chartWidth := 200;
     VerticalLine.chartHeight := 100;
     VerticalLine.d_selected := false;
     VerticalLine.d_anchorPointColor := "#2962ff";
     VerticalLine.d_anchorOffsetFromBottom := 50 |}.

(** Euclidean distance between the pixels (x, y) and (ax, ay). *)
Definition pointDistance (x y ax ay : R) : R :=
  Math.sqrt ((x - ax) * (x - ax) + (y - ay) * (y - ay)).

(** *** Anchor handles

    The handles of a selected snapshot, in the order of their indices; a
    handle whose coordinates are missing is [None]. *)

Definition horizontal_handles
    (data : HorizontalLine.HorizontalLineRendererData)
  : list (option (R * R)) :=
  match HorizontalLine.y data with
  | Some lineY =>
      [ Some (HorizontalLine.chartWidth data
              - HorizontalLine.d_anchorOffsetFromRight data, lineY) ]
  | None => []
  end.

Definition vertical_handles (data : VerticalLine.VerticalLineRendererData)
  : list (option (R * R)) :=
  match VerticalLine.x data with
  | Some lineX =>
      [ Some (lineX, VerticalLine.chartHeight data
                     - VerticalLine.d_anchorOffsetFromBottom data) ]
  | None => []
  end.

Definition corner (p : RendererPoint) : option (R * R) :=
  match pt_x p, pt_y p with
  | Some px, Some py => Some (px, py)
  | _, _ => None
  end.

Definition rectangle_handles (data : Rectangle.RectangleRendererData)
  : list (option (R * R)) :=
  [ corner (Rectangle.p1 data); corner (Rectangle.p2 data) ].

Definition position_handles (data : LongPosition.LongPositionRendererData)
  : list (option (R * R)) :=
  match corner (LongPosition.entry data), LongPosition.targetY data,
        LongPosition.stopY data, LongPosition.rightX data with
  | Some (entryX, entryY), Some targetY, Some stopY, Some rightX =>
      [ Some (entryX, entryY); Some (entryX, targetY);
        Some (entryX, stopY); Some (rightX, entryY) ]
  | _, _, _, _ => []
  end.

(** The point (x, y) is within the anchor hit radius (8 pixels) of [h]. *)
Definition within_handle (x y : R) (h : R * R) : Prop :=
  pointDistance x y (fst h) (snd h) <= 8.

(** Handle [k] is the first handle within the radius of (x, y). *)
Definition first_handle (handles : list (option (R * R))) (x y : R)
    (k : nat) : Prop :=
  (exists h, nth_error handles k = Some (Some h) /\ within_handle x y h) /\
  forall j h, (j < k)%nat -> nth_error handles j = Some (Some h) ->
              ~ within_handle x y h.

Definition indexText (k : nat) : string :=
  match k with
  | 0%nat => "0"
  | 1%nat => "1"
  | 2%nat => "2"
  | _ => "3"
  end.

(** A selected trend line from (0, 0) to (100, 0), drawn between its
    anchors. *)
Definition selected_trend : TrendLine.TrendLineRendererData :=
  {| TrendLine.p1 := {| pt_x := Some 0; pt_y := Some 0 |};
     TrendLine.p2 := {| pt_x := Some 100; pt_y := Some 0 |};
     TrendLine.extendedStart := {| pt_x := Some 0; pt_y := Some 0 |};
     TrendLine.extendedEnd := {| pt_x := Some 100; pt_y := Some 0 |};
     TrendLine.text1 := "1.00";
     TrendLine.text2 := "1.00";
     TrendLine.d_lineColor := "#f97316";
     TrendLine.d_lineWidth := 2;
     TrendLine.d_lineStyle := Solid;
     TrendLine.d_showLabels := false;
     TrendLine.d_labelBackgroundColor := "rgba(255, 255, 255, 0.85)";
     TrendLine.d_labelTextColor := "rgb(0, 0, 0)";
     TrendLine.d_extendToEdges := false;
     TrendLine.d_externalId := "trend";
     TrendLine.chartWidth := 200;
     TrendLine.chartHeight := 100;
     TrendLine.d_selected := true;
     TrendLine.d_anchorPointColor := "#2962ff" |}.

(** A selected rectangle with corners (20, 10) and (80, 60). *)
Definition selected_rectangle : Rectangle.RectangleRendererData :=
  {| Rectangle.p1 := {| pt_x := Some 20; pt_y := Some 10 |};
     Rectangle.p2 := {| pt_x := Some 80; pt_y := Some 60 |};
     Rectangle.drawLeft := 20;
     Rectangle.drawRight := 80;
     Rectangle.drawTop := 10;
     Rectangle.drawBottom := 60;
     Rectangle.d_lineColor := "#f97316";
     Rectangle.d_lineWidth := 2;
     Rectangle.d_lineStyle := Solid;
     Rectangle.d_backgroundColor := "rgba(249, 115, 22, 0.2)";
     Rectangle.d_labelText := "";
     Rectangle.d_showLabel := false;
     Rectangle.d_labelBackgroundColor := "rgba(255, 255, 255, 0.85)";
     Rectangle.d_labelTextColor := "rgb(0, 0, 0)";
     Rectangle.d_extendMode := Rectangle.none;
     Rectangle.d_externalId := "rect";
     Rectangle.chartWidth := 200;
     Rectangle.chartHeight := 100;
     Rectangle.d_selected := true;
     Rectangle.d_anchorPointColor := "#2962ff";
     Rectangle.d_showMiddleLine := false;
     Rectangle.d_middleLineColor := "#f97316";
     Rectangle.d_middleLineStyle := Dashed;
     Rectangle.d_middleLineWidth := 1 |}.

(** *** Renderers

    Every renderer class implements [IPrimitivePaneRenderer]: [draw] and
    [hitTest] over the cached snapshot.  [required] lists the nullable
    coordinates of the snapshot that the renderer's body is drawn from. *)

Record Renderer (Data : Type) : Type := {
  r_draw : option Data -> BitmapCoordinatesRenderingScope -> list CanvasCall;
  r_hitTest : option Data -> R -> R -> option PrimitiveHoveredItem;
  required : Data -> list (option R)
}.
Arguments r_draw {Data} _ _ _.
Arguments r_hitTest {Data} _ _ _ _.
Arguments required {Data} _ _.






Definition longPositionRenderer
  : Renderer LongPosition.LongPositionRendererData :=
  {| r_draw := LongPosition.draw;
     r_hitTest := LongPosition.renderer_hitTest;
     required := fun data =>
       [ pt_x (LongPosition.entry data); pt_y (LongPosition.entry data);
         LongPosition.targetY data; LongPosition.stopY data;
         LongPosition.rightX data ] |}.








(** *** Life cycle

    What the six classes whose [updateAllViews] is guarded by [if (data)]
    have in common, for their [_calculateRendererData]:
    - after [detached], [updateAllViews] returns normally and leaves the
      whole state, the cached snapshot included, as it was;
    - in every state [updateAllViews] returns normally, and the cached
      snapshot is replaced exactly when a snapshot was computed;
    - [attached] after [detached] gives the state [attached] alone gives. *)
Definition guarded_lifecycle {Anchors Options Data : Type}
    (_calculateRendererData :
       Primitive Anchors Options Data -> Exc (option Data)) : Prop :=
  (forall this,
     updateAllViews_guarded _calculateRendererData (detached this)
     = Ok (detached this)) /\
  (forall this,
     exists data,
       _calculateRendererData this = Ok data /\
       updateAllViews_guarded _calculateRendererData this
       = Ok match data with
            | Some data => paneView_update data this
            | None => this
            end) /\
  (forall (this : Primitive Anchors Options Data) param,
     attached param (detached this) = attached param this).

(** Whenever the primitive is attached a snapshot is computed, whatever
    the host maps the anchors to. *)
Definition always_projects {Anchors Options Data : Type}
    (_calculateRendererData :
       Primitive Anchors Options Data -> Exc (option Data)) : Prop :=
  forall this param,
    exists data,
      _calculateRendererData (attached param this) = Ok (Some data).

(** Background regions for one bar at time 10, and the snapshot the
    example host gives them. *)
Definition regions_example : BackgroundRegions.State :=
  construct
    [ {| BackgroundRegions.time := 10%Z; BackgroundRegions.color := "red" |} ]
    BackgroundRegions.backgroundRegionsOptionsDefaults.

Definition regions_live : BackgroundRegions.BackgroundRegionsRendererData :=
  {| BackgroundRegions.regions :=
       [ {| BackgroundRegions.x := 10;
            BackgroundRegions.r_color := "red";
            BackgroundRegions.barWidth := 6 |} ];
     BackgroundRegions.chartHeight := 300 |}.

(** A detached trend line whose renderer still holds a snapshot. *)
Definition detached_trend : TrendLine.State :=
  detached
    (paneView_update selected_trend
       (construct
          {| TrendLine._p1 :=
               {| TrendLine.time := 0%Z; TrendLine.price := 300 |};
             TrendLine._p2 :=
               {| TrendLine.time := 100%Z; TrendLine.price := 300 |} |}
          TrendLine.trendLineOptionsDefaults)).

(** A horizontal line at price 42 that was never attached. *)
Definition detached_line : HorizontalLine.State :=
  detached (construct 42 HorizontalLine.horizontalLineOptionsDefaults).

(** *** The extended trend line

    The vocabulary of the ray from p1 = (x1, y1) through p2 = (x2, y2) in
    a chart of the given width and height. *)

(** [q] lies on the line through p1 and p2. *)
Definition onLine (x1 y1 x2 y2 : R) (q : TrendLine.Point) : Prop :=
  (TrendLine.y q - y1) * (x2 - x1) = (TrendLine.x q - x1) * (y2 - y1).

(** [q] lies on one of the four edges of the chart. *)
Definition onChartEdge (chartWidth chartHeight : R) (q : TrendLine.Point)
  : Prop :=
  ((TrendLine.x q = 0 \/ TrendLine.x q = chartWidth)
   /\ 0 <= TrendLine.y q <= chartHeight)
  \/ ((TrendLine.y q = 0 \/ TrendLine.y q = chartHeight)
      /\ 0 <= TrendLine.x q <= chartWidth).

(** The dot product of the displacement p1 -> q with the direction
    p1 -> p2. *)
Definition dotProduct (x1 y1 x2 y2 : R) (q : TrendLine.Point) : R :=
  (TrendLine.x q - x1) * (x2 - x1) + (TrendLine.y q - y1) * (y2 - y1).

(** A boundary intersection of the line that lies ahead of p1. *)
Definition candidate (x1 y1 x2 y2 chartWidth chartHeight : R)
    (q : TrendLine.Point) : Prop :=
  onLine x1 y1 x2 y2 q /\ onChartEdge chartWidth chartHeight q
  /\ dotProduct x1 y1 x2 y2 q > 0.

Definition distanceFrom (x1 y1 : R) (q : TrendLine.Point) : R :=
  pointDistance (TrendLine.x q) (TrendLine.y q) x1 y1.

(** The end point of an extended line. *)
Definition endOf (e : TrendLine.Line) : TrendLine.Point :=
  {| TrendLine.x := TrendLine.x2 e; TrendLine.y := TrendLine.y2 e |}.

(** *** Background regions: batches *)

(** A rendering scope with the given pixel ratios. *)
Definition scope_of (h v : R) : BitmapCoordinatesRenderingScope :=
  {| horizontalPixelRatio := h; verticalPixelRatio := v;
     measureText := fun _ _ => 0 |}.

Definition region (x : R) (color : string) (barWidth : R)
  : BackgroundRegions.BackgroundRegionRendererData :=
  {| BackgroundRegions.x := x;
     BackgroundRegions.r_color := color;
     BackgroundRegions.barWidth := barWidth |}.

Definition regionsData
    (regions : list BackgroundRegions.BackgroundRegionRendererData)
    (chartHeight : R) : BackgroundRegions.BackgroundRegionsRendererData :=
  {| BackgroundRegions.regions := regions;
     BackgroundRegions.chartHeight := chartHeight |}.

(** [r'] continues the batch whose last region is [r]: same colour, and
    its left edge is at most half a (scaled) bar width beyond the right
    edge of [r]. *)
Definition continues (h : R)
    (r r' : BackgroundRegions.BackgroundRegionRendererData) : Prop :=
  BackgroundRegions.r_color r' = BackgroundRegions.r_color r /\
  BackgroundRegions.leftX h r'
  <= BackgroundRegions.rightX h r
     + BackgroundRegions.barWidth r' * h * 0.5.

(** Every region of the list continues the one before it, starting
    from [r]. *)
Fixpoint chained (h : R) (r : BackgroundRegions.BackgroundRegionRendererData)
    (rest : list BackgroundRegions.BackgroundRegionRendererData) : Prop :=
  match rest with
  | [] => True
  | r' :: rest => continues h r r' /\ chained h r' rest
  end.

(** The single fill call of a batch from [first] to [last]. *)
Definition fillOf (scope : BitmapCoordinatesRenderingScope)
    (chartHeight : R)
    (first last : BackgroundRegions.BackgroundRegionRendererData)
  : list CanvasCall :=
  [ set_fillStyle (BackgroundRegions.r_color first);
    fillRect (BackgroundRegions.leftX (horizontalPixelRatio scope) first) 0
      (BackgroundRegions.rightX (horizontalPixelRatio scope) last
       - BackgroundRegions.leftX (horizontalPixelRatio scope) first)
      (Math.round (chartHeight * verticalPixelRatio scope)) ].

(** A bar [m] of the same width is missing between [r] and [r']: its
    extent lies between theirs. *)
Definition missing_between (h : R)
    (r m r' : BackgroundRegions.BackgroundRegionRendererData) : Prop :=
  BackgroundRegions.barWidth m = BackgroundRegions.barWidth r' /\
  BackgroundRegions.x r * h + BackgroundRegions.barWidth r * h / 2
  <= BackgroundRegions.x m * h - BackgroundRegions.barWidth m * h / 2 /\
  BackgroundRegions.x m * h + BackgroundRegions.barWidth m * h / 2
  <= BackgroundRegions.x r' * h - BackgroundRegions.barWidth r' * h / 2.

(** The batch before the first region, and the batch from [first] to
    [last]. *)
Definition emptyBatch : BackgroundRegions.Batch :=
  {| BackgroundRegions.currentColor := None;
     BackgroundRegions.batchStartX := None;
     BackgroundRegions.batchEndX := None |}.

Definition batchOf (h : R)
    (first last : BackgroundRegions.BackgroundRegionRendererData)
  : BackgroundRegions.Batch :=
  {| BackgroundRegions.currentColor :=
       Some (BackgroundRegions.r_color first);
     BackgroundRegions.batchStartX := Some (BackgroundRegions.leftX h first);
     BackgroundRegions.batchEndX := Some (BackgroundRegions.rightX h last) |}.


(** A selected rectangle six pixels wide, corners (0, 0) and (6, 0). *)
Definition narrow_rectangle : Rectangle.RectangleRendererData :=
  {| Rectangle.p1 := {| pt_x := Some 0; pt_y := Some 0 |};
     Rectangle.p2 := {| pt_x := Some 6; pt_y := Some 0 |};
     Rectangle.drawLeft := 0;
     Rectangle.drawRight := 6;
     Rectangle.drawTop := 0;
     Rectangle.drawBottom := 0;
     Rectangle.d_lineColor := "#f97316";
     Rectangle.d_lineWidth := 2;
     Rectangle.d_lineStyle := Solid;
     Rectangle.d_backgroundColor := "rgba(249, 115, 22, 0.2)";
     Rectangle.d_labelText := "";
     Rectangle.d_showLabel := false;
     Rectangle.d_labelBackgroundColor := "rgba(255, 255, 255, 0.85)";
     Rectangle.d_labelTextColor := "rgb(0, 0, 0)";
     Rectangle.d_extendMode := Rectangle.none;
     Rectangle.d_externalId := "rect";
     Rectangle.chartWidth := 200;
     Rectangle.chartHeight := 100;
     Rectangle.d_selected := true;
     Rectangle.d_anchorPointColor := "#2962ff";
     Rectangle.d_showMiddleLine := false;
     Rectangle.d_middleLineColor := "#f97316";
     Rectangle.d_middleLineStyle := Dashed;
     Rectangle.d_middleLineWidth := 1 |}.

(** *** Example primitives *)

(** The host of an attached horizontal ray maps its anchor to the pixel
    (ax, ay) and has the given width. *)
Definition ray_host (ax ay chartWidth : R) (this : HorizontalRay.State)
  : Prop :=
  exists chart series,
    _chart this = Some chart /\ _series this = Some series /\
    timeToCoordinate (timeScale chart)
      (HorizontalRay.time (_anchors this)) = Some ax /\
    priceToCoordinate series
      (HorizontalRay.price (_anchors this)) = Some ay /\
    width (timeScale chart) = chartWidth.

(** A horizontal ray anchored at time 50 and price 200, attached to the
    example chart. *)
Definition ray_example : HorizontalRay.State :=
  attached example_param
    (construct
       {| HorizontalRay.time := 50%Z; HorizontalRay.price := 200 |}
       HorizontalRay.horizontalRayOptionsDefaults).

(** The snapshot of a selected long position: entry at (20, 50), target
    line at y = 10, stop line at y = 70, right edge at x = 80. *)
Definition position_example : LongPosition.LongPositionRendererData :=
  {| LongPosition.entry := {| pt_x := Some 20; pt_y := Some 50 |};
     LongPosition.targetY := Some 10;
     LongPosition.stopY := Some 70;
     LongPosition.rightX := Some 80;
     LongPosition.entryPrice := 100;
     LongPosition.targetPrice := 120;
     LongPosition.stopPrice := 90;
     LongPosition.d_lineColor := "#ffffff";
     LongPosition.d_lineWidth := 1;
     LongPosition.d_lineStyle := Solid;
     LongPosition.d_profitBackgroundColor := "rgba(0, 150, 136, 0.3)";
     LongPosition.d_riskBackgroundColor := "rgba(239, 83, 80, 0.3)";
     LongPosition.d_entryLineColor := "#ffffff";
     LongPosition.d_externalId := "position";
     LongPosition.chartWidth := 200;
     LongPosition.chartHeight := 100;
     LongPosition.d_selected := true;
     LongPosition.d_anchorPointColor := "#2962ff";
     LongPosition.d_labelBackgroundColor := "rgba(0, 0, 0, 0.75)";
     LongPosition.d_labelTextColor := "#ffffff";
     LongPosition.d_targetLabelBackgroundColor := "rgb(0, 150, 136)";
     LongPosition.d_stopLabelBackgroundColor := "rgb(239, 83, 80)";
     LongPosition.direction := Some LongPosition.long |}.

(** *** The canvas state stack *)

(** The depth of the canvas state stack after [calls], from depth [d]:
    [save] pushes, [restore] pops, and [None] records a [restore] that
    finds the stack empty. *)
Fixpoint stackDepth (d : nat) (calls : list CanvasCall) : option nat :=
  match calls with
  | [] => Some d
  | save :: rest => stackDepth (S d) rest
  | restore :: rest =>
      match d with
      | O => None
      | S d' => stackDepth d' rest
      end
  | _ :: rest => stackDepth d rest
  end.

(** Every [save] is closed by a [restore], and no [restore] comes before
    its [save]. *)
Definition balanced (calls : list CanvasCall) : Prop :=
  stackDepth 0 calls = Some 0%nat.

(** A block of calls that leaves the depth of the stack as it found it,
    whatever the depth. *)
Definition neutral (calls : list CanvasCall) : Prop :=
  forall d, stackDepth d calls = Some d.

(** *** Background regions: what is painted *)

(** A painted span: one fill call of [_drawImpl], from the device pixel
    [f_left] to the device pixel [f_right], in the colour [f_color]. *)
Record Fill : Type := { f_color : string; f_left : R; f_right : R }.

(** The two canvas calls of [drawBatch] for a span. *)
Definition paint (height : R) (f : Fill) : list CanvasCall :=
  [ set_fillStyle (f_color f);
    fillRect (f_left f) 0 (f_right f - f_left f) height ].

(** The span is of the region's colour and contains the region's extent
    in device pixels. *)
Definition covers (h : R) (f : Fill)
    (r : BackgroundRegions.BackgroundRegionRendererData) : Prop :=
  f_color f = BackgroundRegions.r_color r /\
  f_left f <= BackgroundRegions.leftX h r /\
  BackgroundRegions.rightX h r <= f_right f.

(** The regions after [r] are in ascending order of x and have the bar
    width of [r], as the primitive builds them from sorted data. *)
Fixpoint ascending (r : BackgroundRegions.BackgroundRegionRendererData)
    (rest : list BackgroundRegions.BackgroundRegionRendererData) : Prop :=
  match rest with
  | [] => True
  | r' :: rest =>
      BackgroundRegions.x r <= BackgroundRegions.x r' /\
      BackgroundRegions.barWidth r' = BackgroundRegions.barWidth r /\
      ascending r' rest
  end.

(** The spans painted for the batch that runs from [first] to [last],
    followed by the regions [rest]. *)
Fixpoint fillsFrom (h : R)
    (first last : BackgroundRegions.BackgroundRegionRendererData)
    (rest : list BackgroundRegions.BackgroundRegionRendererData)
  : list Fill :=
  let current :=
    {| f_color := BackgroundRegions.r_color first;
       f_left := BackgroundRegions.leftX h first;
       f_right := BackgroundRegions.rightX h last |} in
  match rest with
  | [] => [ current ]
  | r' :: rest =>
      if decide (continues h last r') then fillsFrom h first r' rest
      else current :: fillsFrom h r' r' rest
  end.

(** The region the primitive's loop pushes for a data point, if its time
    is on the time scale. *)
Definition regionOf (timeScale : TimeScale)
    (point : BackgroundRegions.BackgroundRegionData)
  : option BackgroundRegions.BackgroundRegionRendererData :=
  x ← timeToCoordinate timeScale (BackgroundRegions.time point);
  Some {| BackgroundRegions.x := x;
          BackgroundRegions.r_color := BackgroundRegions.color point;
          BackgroundRegions.barWidth := barSpacing timeScale |}.

(** *** Update requests *)

(** A mutator reports the change to the host exactly once when an update
    callback is installed and not at all otherwise; it keeps the host
    references and the callback, and does not touch the snapshot cached
    by the renderer. *)
Definition notifies_once {Anchors Options Data : Type}
    (method : Primitive Anchors Options Data -> Primitive Anchors Options Data)
  : Prop :=
  forall this,
    requested (method this)
    = (if _requestUpdate this then S (requested this) else requested this) /\
    _requestUpdate (method this) = _requestUpdate this /\
    _chart (method this) = _chart this /\
    _series (method this) = _series this /\
    _data (method this) = _data this.

(** The four bounds of a rectangle snapshot. *)
Definition bounds (data : Rectangle.RectangleRendererData) : R * R * R * R :=
  (Rectangle.drawLeft data, Rectangle.drawRight data,
   Rectangle.drawTop data, Rectangle.drawBottom data).

(** The bounds of the snapshot [_calculateRendererData] computes, if it
    computes one. *)
Definition snapshotBounds (this : Rectangle.State)
  : Exc (option (R * R * R * R)) :=
  match Rectangle._calculateRendererData this with
  | Ok (Some data) => Ok (Some (bounds data))
  | Ok None => Ok None
  | Throw error => Throw error
  end.




(** *** Filled rectangles *)

(** The rectangles a trace fills with [fillRect], in order: x, y, width
    and height. *)
Definition fillRects (calls : list CanvasCall) : list (R * R * R * R) :=
  flat_map
    (fun call =>
       match call with
       | fillRect x y w h => [ (x, y, w, h) ]
       | _ => []
       end)
    calls.

(** *** Partial position data *)

(** A partial data object with no property. *)
Definition emptyData : LongPosition.PartialData :=
  {| LongPosition.p_entryTime := absent;
     LongPosition.p_entryPrice := absent;
     LongPosition.p_targetPrice := absent;
     LongPosition.p_stopPrice := absent;
     LongPosition.p_widthBars := absent |}.

(** [{ ...a, ...b }] on partial data objects. *)
Definition spreadData (a b : LongPosition.PartialData)
  : LongPosition.PartialData :=
  {| LongPosition.p_entryTime :=
       over (LongPosition.p_entryTime a) (LongPosition.p_entryTime b);
     LongPosition.p_entryPrice :=
       over (LongPosition.p_entryPrice a) (LongPosition.p_entryPrice b);
     LongPosition.p_targetPrice :=
       over (LongPosition.p_targetPrice a) (LongPosition.p_targetPrice b);
     LongPosition.p_stopPrice :=
       over (LongPosition.p_stopPrice a) (LongPosition.p_stopPrice b);
     LongPosition.p_widthBars :=
       over (LongPosition.p_widthBars a) (LongPosition.p_widthBars b) |}.

(** What a merge leaves in one property: the old content when the
    partial object lacks the property, and what the partial object holds,
    a value or [undefined], when it has it. *)
Definition merged {T : Type} (old : option T) (given : Property T)
    (new : option T) : Prop :=
  match given with
  | absent => new = old
  | undefined => new = None
  | value v => new = Some v
  end.

(** No property of the partial object holds [undefined]. *)
Definition defined (data : LongPosition.PartialData) : Prop :=
  LongPosition.p_entryTime data <> undefined /\
  LongPosition.p_entryPrice data <> undefined /\
  LongPosition.p_targetPrice data <> undefined /\
  LongPosition.p_stopPrice data <> undefined /\
  LongPosition.p_widthBars data <> undefined.

(** The options object has a value for every key. *)
Definition populated (o : TrendLine.OptionsObject) : Prop :=
  forall f, is_Some (o f).

(** A trend line at run time, built by the constructor without
    options. *)
Definition runtime_trend : TrendLine.Runtime :=
  TrendLine.constructor
    {| TrendLine.time := 0%Z; TrendLine.price := 1 |}
    {| TrendLine.time := 10%Z; TrendLine.price := 2 |} None.

(** The partial options [{ selected: true }] and
    [{ lineColor: undefined }]. *)
Definition select_only : TrendLine.PartialOptions :=
  fun f =>
    match f with
    | TrendLine.Selected => value true
    | _ => absent
    end.

Definition undefined_color : TrendLine.PartialOptions :=
  fun f =>
    match f with
    | TrendLine.LineColor => undefined
    | _ => absent
    end.

(** *** The labels of a position *)

(** [`${name}${delta.toFixed(2)} (${pct.toFixed(2)}%)`] *)
Definition deltaLabel (name : string) (delta pct : R) : Text :=
  TCat (TStr name)
    (TCat (TFixed delta 2)
       (TCat (TStr " (") (TCat (TFixed pct 2) (TStr "%)")))).

(** [`Risk/Reward: ${ratio.toFixed(2)}`] *)
Definition ratioLabel (ratio : R) : Text :=
  TCat (TStr "Risk/Reward: ") (TFixed ratio 2).

(** The snapshot of a position has all its coordinates: the entry at
    (ex, ey), the target line at ty, the stop line at sy and the right
    edge at rx. *)
Definition drawable (data : LongPosition.LongPositionRendererData)
    (ex ey ty sy rx : R) : Prop :=
  LongPosition.entry data = {| pt_x := Some ex; pt_y := Some ey |} /\
  LongPosition.targetY data = Some ty /\
  LongPosition.stopY data = Some sy /\
  LongPosition.rightX data = Some rx.

(** The pixels at which the host shows a position, when it maps them
    all: the entry (ex, ey), the target line ty, the stop line sy and the
    right edge rx, which is the pixel of the entry's logical index plus
    the width in bars. *)
Definition position_pixels (chart : Chart) (series : Series)
    (d : LongPosition.LongPositionData) : option (R * R * R * R * R) :=
  ex ← timeToCoordinate (timeScale chart) (LongPosition.entryTime d);
  ey ← priceToCoordinate series (LongPosition._entryPrice d);
  entryLogical ← coordinateToLogical (timeScale chart) ex;
  rx ← logicalToCoordinate (timeScale chart)
         (entryLogical + LongPosition.widthBars d);
  ty ← priceToCoordinate series (LongPosition._targetPrice d);
  sy ← priceToCoordinate series (LongPosition._stopPrice d);
  Some (ex, ey, ty, sy, rx).

(** The pixels at which the host shows the corners of a rectangle, when
    it maps all four coordinates. *)
Definition rectangle_pixels (chart : Chart) (series : Series)
    (a : Rectangle.Anchors) : option (R * R * R * R) :=
  x1 ← timeToCoordinate (timeScale chart)
         (Rectangle.time (Rectangle._p1 a));
  y1 ← priceToCoordinate series (Rectangle.price (Rectangle._p1 a));
  x2 ← timeToCoordinate (timeScale chart)
         (Rectangle.time (Rectangle._p2 a));
  y2 ← priceToCoordinate series (Rectangle.price (Rectangle._p2 a));
  Some (x1, y1, x2, y2).


(** *** The zones of a position *)

(** The rectangle between the vertical lines [left] and [right] and the
    horizontal lines [a] and [b], as [fillRect] takes it: x, y, width and
    height. *)
Definition zone (left right a b : R) : R * R * R * R :=
  (left, Math.min a b, right - left, Math.max a b - Math.min a b).

(** The trace fills the rectangle [rect] in the colour [color]: it sets
    the fill style and fills the rectangle at once. *)
Definition painted (color : string) (rect : R * R * R * R)
    (calls : list CanvasCall) : Prop :=
  let '(x, y, w, h) := rect in
  exists before after,
    calls = before ++ [ set_fillStyle color; fillRect x y w h ] ++ after.

(** The trace strokes the segment from (x1, y1) to (x2, y2) in the colour
    and line style given. *)
Definition stroked (color : string) (style : LineStyle) (x1 y1 x2 y2 : R)
    (calls : list CanvasCall) : Prop :=
  exists width before after,
    calls = before
            ++ [ set_lineWidth width; set_strokeStyle color;
                 setLineStyle style; beginPath; moveTo x1 y1; lineTo x2 y2;
                 stroke ]
            ++ after.

(** *** Time labels *)

(** The texts a trace prints with [fillText], in order. *)
Definition texts (calls : list CanvasCall) : list Text :=
  flat_map
    (fun call =>
       match call with
       | fillText text _ _ => [ text ]
       | _ => []
       end)
    calls.

(** Monday 21 July 2025, 09:05 local time, whatever the timestamp. *)
Definition monday_morning (ms : Z) : VerticalLine.Date :=
  {| VerticalLine.getDay := 1;
     VerticalLine.getDate := 21;
     VerticalLine.getMonth := 6;
     VerticalLine.getFullYear := 2025;
     VerticalLine.getHours := 9;
     VerticalLine.getMinutes := 5 |}.

(** A vertical line at time 40 with the default options, attached to
    the example chart. *)
Definition vertical_example
  : VerticalLine.State :=
  attached example_param
    (construct 40%Z VerticalLine.verticalLineOptionsDefaults).

(** *** Background regions: data in time order *)

(** The data points are in ascending order of time. *)
Fixpoint chronological (data : list BackgroundRegions.BackgroundRegionData)
  : Prop :=
  match data with
  | [] => True
  | point :: rest =>
      Forall (fun later =>
                (BackgroundRegions.time point
                 <= BackgroundRegions.time later)%Z) rest
      /\ chronological rest
  end.

(** The time scale places a later time no further left. *)
Definition increasing (timeScale : TimeScale) : Prop :=
  forall (t t' : HorzScaleItem) (x x' : R),
    (t <= t')%Z ->
    timeToCoordinate timeScale t = Some x ->
    timeToCoordinate timeScale t' = Some x' ->
    x <= x'.

(** Background regions for the bars at times 10, 16 and 40, attached to
    the example chart. *)
Definition regions_attached : BackgroundRegions.State :=
  attached example_param
    (construct
       [ {| BackgroundRegions.time := 10%Z;
            BackgroundRegions.color := "red" |};
         {| BackgroundRegions.time := 16%Z;
            BackgroundRegions.color := "red" |};
         {| BackgroundRegions.time := 40%Z;
            BackgroundRegions.color := "green" |} ]
       BackgroundRegions.backgroundRegionsOptionsDefaults).
(** * Properties *)

(** ** Numbers *)

Ltac case_minmax :=
  unfold Math.min, Math.max, Rmin, Rmax in *;
  repeat match goal with
         | |- context [Rle_dec ?a ?b] => destruct (Rle_dec a b)
         | H : context [Rle_dec ?a ?b] |- _ => destruct (Rle_dec a b)
         end.

Ltac case_abs :=
  unfold Math.abs, Rabs in *;
  repeat match goal with
         | |- context [Rcase_abs ?a] => destruct (Rcase_abs a)
         | H : context [Rcase_abs ?a] |- _ => destruct (Rcase_abs a)
         end.

Lemma isAttached_true {Anchors Options Data : Type}
    (this : Primitive Anchors Options Data) chart series :
  _chart this = Some chart -> _series this = Some series ->
  isAttached this = true.
Proof.
  intros Hc Hs. unfold isAttached. rewrite Hc, Hs.
  apply andb_true_intro; split; apply bool_decide_eq_true_2; eauto.
Qed.

Lemma isAttached_detached {Anchors Options Data : Type}
    (this : Primitive Anchors Options Data) :
  isAttached (detached this) = false.
Proof.
  reflexivity.
Qed.

(** ** Rectangle: drawing bounds *)


(** C4. With corners at x = 20 and x = 80 (in either order) and a chart
    of width 200, [_calculateRendererData] yields a snapshot whose
    horizontal bounds are [0, 80] for [left], [20, 200] for [right],
    [0, 200] for [both] and [20, 80] for [none]; in every mode the top
    and bottom are the minimum and maximum of the corner y-coordinates. *)
Theorem rectangle_extend_modes (this : Rectangle.State) (xa xb ya yb : R) :
  rectangle_host xa xb ya yb 200 this ->
  (xa = 20 /\ xb = 80) \/ (xa = 80 /\ xb = 20) ->
  exists d,
    Rectangle._calculateRendererData this = Ok (Some d) /\
    (Rectangle.drawLeft d, Rectangle.drawRight d) =
      match Rectangle.extendMode (_options this) with
      | Rectangle.left => (0, 80)
      | Rectangle.right => (20, 200)
      | Rectangle.both => (0, 200)
      | Rectangle.none => (20, 80)
      end /\
    Rectangle.drawTop d = Rmin ya yb /\
    Rectangle.drawBottom d = Rmax ya yb.
Proof.
  intros (chart & series & Hc & Hs & Hx1 & Hx2 & Hy1 & Hy2 & Hw) Hx.
  unfold Rectangle._calculateRendererData.
  rewrite (isAttached_true this chart series Hc Hs); simpl.
  rewrite Hc, Hs; simpl. rewrite Hx1, Hx2, Hy1, Hy2, Hw.
  assert (Hmin : Math.min xa xb = 20) by (case_minmax; lra).
  assert (Hmax : Math.max xa xb = 80) by (case_minmax; lra).
  rewrite Hmin, Hmax.
  destruct (Rectangle.extendMode (_options this)) eqn:Hmode;
    eexists; (split; [reflexivity|]); simpl; rewrite ?Hmode; auto.
Qed.


Lemma rectangle_extend_modes_witness :
  exists d,
    Rectangle._calculateRendererData (rectangle_example Rectangle.left)
      = Ok (Some d) /\
    (Rectangle.drawLeft d, Rectangle.drawRight d) = (0, 80) /\
    Rectangle.drawTop d = Rmin (300 - 250) (300 - 100) /\
    Rectangle.drawBottom d = Rmax (300 - 250) (300 - 100).
Proof.
  apply (rectangle_extend_modes (rectangle_example Rectangle.left)
           80 20 (300 - 250) (300 - 100)).
  - do 2 eexists. repeat split; reflexivity.
  - right. split; reflexivity.
Defined.

(** ** Long / short position: the numbers on the labels *)

Lemma texts_app (a b : list CanvasCall) :
  texts (a ++ b) = texts a ++ texts b.
Proof. apply flat_map_app. Qed.

Ltac case_options :=
  repeat match goal with
         | |- context [match ?o with Some _ => _ | None => _ end] =>
             destruct o
         end.

(** Both host references are read only when both are set. *)
Lemma isAttached_cases {Anchors Options Data : Type}
    (this : Primitive Anchors Options Data) :
  isAttached this = false
  \/ exists chart series,
       isAttached this = true /\ _chart this = Some chart
       /\ _series this = Some series.
Proof.
  unfold isAttached.
  destruct (_chart this) as [chart|]; [|left; reflexivity].
  destruct (_series this) as [series|]; [|left; reflexivity].
  right. exists chart, series. repeat split.
Qed.

(** The texts [_drawImpl] prints for a snapshot that has all its
    coordinates: the target label, the stop label and the risk/reward
    label, in this order, with the numbers of the snapshot's direction. *)
Lemma position_texts (data : LongPosition.LongPositionRendererData)
    (scope : BitmapCoordinatesRenderingScope) (ex ey ty sy rx : R) :
  drawable data ex ey ty sy rx ->
  let e := LongPosition.entryPrice data in
  let t := LongPosition.targetPrice data in
  let s := LongPosition.stopPrice data in
  texts (LongPosition.draw (Some data) scope)
  = match LongPosition.direction data with
    | Some LongPosition.long =>
        [ deltaLabel "Target: " (t - e) ((t - e) / e * 100);
          deltaLabel "Stop: " (e - s) ((e - s) / e * 100);
          ratioLabel (if decide (e - s <> 0) then (t - e) / (e - s) else 0) ]
    | _ =>
        [ deltaLabel "Target: " (e - t) ((e - t) / e * 100);
          deltaLabel "Stop: " (s - e) ((s - e) / e * 100);
          ratioLabel (if decide (s - e <> 0) then (e - t) / (s - e) else 0) ]
    end.
Proof.
  intros (He & Ht & Hs & Hr). cbv zeta.
  unfold LongPosition.draw, LongPosition._drawImpl.
  rewrite He, Ht, Hs, Hr. cbn [pt_x pt_y]. cbv zeta.
  rewrite !texts_app.
  destruct (LongPosition.direction data) as [[|]|],
    (LongPosition.d_selected data); reflexivity.
Qed.

Lemma deltaLabel_ext (name : string) (d d' p p' : R) :
  d = d' -> p = p' -> deltaLabel name d p = deltaLabel name d' p'.
Proof. intros -> ->. reflexivity. Qed.



(** The snapshot built by the primitive under [src/] carries no
    [direction]: the renderer reads [undefined] and takes the branch of the
    short position. *)
Lemma longPosition_snapshot_direction (this : LongPosition.State)
    (data : LongPosition.LongPositionRendererData) :
  LongPosition._calculateRendererData this = Ok (Some data) ->
  LongPosition.direction data = None.
Proof.
  unfold LongPosition._calculateRendererData.
  destruct (isAttached_cases this) as [Hd|(chart & series & Ha & Hc & Hs)].
  - rewrite Hd. simpl. discriminate.
  - rewrite Ha, Hc, Hs. simpl.
    case_options; intros [= <-]; reflexivity.
Qed.

(** The snapshot the primitive computes for an attached position: it
    exists exactly when the host maps all the pixels, and then shows
    them. *)
Lemma longPosition_snapshot (this : LongPosition.State) chart series :
  _chart this = Some chart -> _series this = Some series ->
  match position_pixels chart series (_anchors this) with
  | Some (ex, ey, ty, sy, rx) =>
      exists data,
        LongPosition._calculateRendererData this = Ok (Some data) /\
        drawable data ex ey ty sy rx /\
        LongPosition.entryPrice data
          = LongPosition._entryPrice (_anchors this) /\
        LongPosition.targetPrice data
          = LongPosition._targetPrice (_anchors this) /\
        LongPosition.stopPrice data
          = LongPosition._stopPrice (_anchors this) /\
        LongPosition.chartWidth data = width (timeScale chart) /\
        LongPosition.chartHeight data = paneHeight series /\
        LongPosition.direction data = None
  | None => LongPosition._calculateRendererData this = Ok None
  end.
Proof.
  intros Hc Hs.
  unfold LongPosition._calculateRendererData, position_pixels.
  unfold isAttached. rewrite Hc, Hs.
  rewrite !bool_decide_eq_true_2 by eauto. simpl.
  destruct (timeToCoordinate (timeScale chart)
              (LongPosition.entryTime (_anchors this))) as [ex|];
    [|reflexivity]. simpl.
  destruct (priceToCoordinate series
              (LongPosition._entryPrice (_anchors this))) as [ey|];
    [|reflexivity]. simpl.
  destruct (coordinateToLogical (timeScale chart) ex) as [l|];
    [|reflexivity]. simpl.
  destruct (logicalToCoordinate (timeScale chart)
              (l + LongPosition.widthBars (_anchors this))) as [rx|];
    [|reflexivity]. simpl.
  destruct (priceToCoordinate series
              (LongPosition._targetPrice (_anchors this))) as [ty|];
    [|reflexivity]. simpl.
  destruct (priceToCoordinate series
              (LongPosition._stopPrice (_anchors this))) as [sy|];
    [|reflexivity]. simpl.
  eexists. split; [reflexivity|]. repeat split.
Qed.





(** ** Distances *)

Lemma sqrt_le_iff (a r : R) : 0 <= r -> (sqrt a <= r <-> a <= r * r).
Proof.
  intros Hr. split; intros H.
  - destruct (Rle_dec a (r * r)) as [|Hn]; [assumption|].
    exfalso. apply Rnot_le_lt in Hn.
    assert (Hlt : sqrt (r * r) < sqrt a)
      by (apply sqrt_lt_1_alt; split; [nra | assumption]).
    rewrite sqrt_square in Hlt by assumption. lra.
  - destruct (Rle_dec 0 a) as [Ha|Ha].
    + rewrite <- (sqrt_square r) by assumption.
      apply sqrt_le_1_alt; assumption.
    + rewrite sqrt_neg_0 by lra. assumption.
Qed.

Lemma pointDistance_le (x y ax ay r : R) :
  0 <= r ->
  (pointDistance x y ax ay <= r
   <-> (x - ax) * (x - ax) + (y - ay) * (y - ay) <= r * r).
Proof.
  intros Hr. unfold pointDistance, Math.sqrt. apply sqrt_le_iff; assumption.
Qed.

(** ** Horizontal and vertical line: hit tests *)

Lemma horizontal_hitTest_plain
    (data : HorizontalLine.HorizontalLineRendererData) (lineY x y : R) :
  HorizontalLine.y data = Some lineY ->
  HorizontalLine.d_selected data = false ->
  HorizontalLine.renderer_hitTest (Some data) x y =
    if decide (Rabs (y - lineY) <= 6) then
      Some (HoveredItem "pointer" (HorizontalLine.d_externalId data)
              "normal")
    else None.
Proof.
  intros Hy Hs. unfold HorizontalLine.renderer_hitTest.
  rewrite Hy, Hs. reflexivity.
Qed.

Lemma horizontal_hitTest_selected
    (data : HorizontalLine.HorizontalLineRendererData) (lineY x y : R) :
  HorizontalLine.y data = Some lineY ->
  HorizontalLine.d_selected data = true ->
  HorizontalLine.renderer_hitTest (Some data) x y =
    if decide
         (pointDistance x y
            (HorizontalLine.chartWidth data
             - HorizontalLine.d_anchorOffsetFromRight data) lineY <= 8)
    then
      Some (HoveredItem "grab"
              (HorizontalLine.d_externalId data +:+ ":anchor:0") "normal")
    else if decide (Rabs (y - lineY) <= 6) then
      Some (HoveredItem "pointer" (HorizontalLine.d_externalId data)
              "normal")
    else None.
Proof.
  intros Hy Hs. unfold HorizontalLine.renderer_hitTest.
  rewrite Hy, Hs. unfold HorizontalLine._hitTestAnchorPoint.
  cbv zeta. unfold pointDistance, HorizontalLine.ANCHOR_HIT_RADIUS.
  case_decide; reflexivity.
Qed.

Lemma vertical_hitTest_plain
    (data : VerticalLine.VerticalLineRendererData) (lineX x y : R) :
  VerticalLine.x data = Some lineX ->
  VerticalLine.d_selected data = false ->
  VerticalLine.renderer_hitTest (Some data) x y =
    if decide (Rabs (x - lineX) <= 6) then
      Some (HoveredItem "pointer" (VerticalLine.d_externalId data) "normal")
    else None.
Proof.
  intros Hx Hs. unfold VerticalLine.renderer_hitTest.
  rewrite Hx, Hs. reflexivity.
Qed.

(** The earlier vertical-line renderer has no handle: the same holds
    whether or not the line is selected. *)
Lemma earlier_vertical_hitTest
    (data : VerticalLine.EarlierRendererData) (lineX x y : R) :
  VerticalLine.e_x data = Some lineX ->
  (is_Some (VerticalLine.earlier_hitTest (Some data) x y)
   <-> Rabs (x - lineX) <= 6).
Proof.
  intros Hx. unfold VerticalLine.earlier_hitTest. rewrite Hx.
  cbv zeta. unfold VerticalLine.HIT_TEST_TOLERANCE, Math.abs.
  case_decide; split; intros H'; eauto; try contradiction.
  destruct H' as [? ?]; discriminate.
Qed.

(** C10. A non-selected horizontal line with line y hits at (x, y')
    exactly when |y' - y| <= 6, for every real x (inside the chart or
    not); a non-selected vertical line with line x hits at (x', y) exactly
    when |x' - x| <= 6, for every real y. *)
Theorem line_hitTest_ignores_parallel_coordinate :
  (forall (data : HorizontalLine.HorizontalLineRendererData)
          (lineY x y : R),
      HorizontalLine.y data = Some lineY ->
      HorizontalLine.d_selected data = false ->
      (is_Some (HorizontalLine.renderer_hitTest (Some data) x y)
       <-> Rabs (y - lineY) <= 6)) /\
  (forall (data : VerticalLine.VerticalLineRendererData) (lineX x y : R),
      VerticalLine.x data = Some lineX ->
      VerticalLine.d_selected data = false ->
      (is_Some (VerticalLine.renderer_hitTest (Some data) x y)
       <-> Rabs (x - lineX) <= 6)).
Proof.
  split; intros data l x y Hl Hs.
  - rewrite (horizontal_hitTest_plain data l x y Hl Hs).
    case_decide; split; intros H'; eauto; try contradiction.
    destruct H' as [? ?]; discriminate.
  - rewrite (vertical_hitTest_plain data l x y Hl Hs).
    case_decide; split; intros H'; eauto; try contradiction.
    destruct H' as [? ?]; discriminate.
Qed.

Lemma line_hitTest_ignores_parallel_coordinate_witness :
  (is_Some (HorizontalLine.renderer_hitTest (Some plain_line) (-1000) 106)
   <-> Rabs (106 - 100) <= 6) /\
  (is_Some (VerticalLine.renderer_hitTest (Some plain_vertical) 46 5000)
   <-> Rabs (46 - 40) <= 6).
Proof.
  split.
  - apply (proj1 line_hitTest_ignores_parallel_coordinate plain_line);
      reflexivity.
  - apply (proj2 line_hitTest_ignores_parallel_coordinate plain_vertical);
      reflexivity.
Defined.

(** The claim of C9 fails for a selected line: at x = 150, inside a chart
    of width 200, the point (150, 106.01) is 6.01 pixels from the handle
    at (150, 100), and the hit test reports the handle. *)
Lemma horizontal_tolerance_selected_counterexample :
  HorizontalLine.y selected_line = Some 100 /\
  0 <= 150 <= HorizontalLine.chartWidth selected_line /\
  HorizontalLine.renderer_hitTest (Some selected_line) 150 106.01
    = Some (HoveredItem "grab" "line:anchor:0" "normal").
Proof.
  split; [reflexivity|]. split; [simpl; lra|].
  rewrite (horizontal_hitTest_selected selected_line 100) by reflexivity.
  simpl. rewrite decide_True; [reflexivity|].
  apply pointDistance_le; lra.
Qed.

(** C9 (amended). For a horizontal line whose snapshot y is 100:
    [hitTest(x, 106)] is a hit for every x, selected or not; for a line
    that is not selected [hitTest(x, 106.01)] is no hit for every x; for a
    selected line [hitTest(x, 106.01)] is a hit exactly when the point is
    within 8 pixels of the handle, and the hit is then the handle's. *)
Theorem horizontal_tolerance_boundary
    (data : HorizontalLine.HorizontalLineRendererData) (x : R) :
  HorizontalLine.y data = Some 100 ->
  is_Some (HorizontalLine.renderer_hitTest (Some data) x 106) /\
  (HorizontalLine.d_selected data = false ->
   HorizontalLine.renderer_hitTest (Some data) x 106
     = Some (HoveredItem "pointer" (HorizontalLine.d_externalId data)
               "normal") /\
   HorizontalLine.renderer_hitTest (Some data) x 106.01 = None) /\
  (HorizontalLine.d_selected data = true ->
   HorizontalLine.renderer_hitTest (Some data) x 106.01 =
     if decide
          (pointDistance x 106.01
             (HorizontalLine.chartWidth data
              - HorizontalLine.d_anchorOffsetFromRight data) 100 <= 8)
     then
       Some (HoveredItem "grab"
               (HorizontalLine.d_externalId data +:+ ":anchor:0") "normal")
     else None).
Proof.
  intros Hy.
  assert (H6 : Rabs (106 - 100) <= 6) by (case_abs; lra).
  assert (H601 : ~ Rabs (106.01 - 100) <= 6) by (case_abs; lra).
  split; [|split].
  - destruct (HorizontalLine.d_selected data) eqn:Hs.
    + rewrite (horizontal_hitTest_selected data 100 x 106 Hy Hs).
      case_decide; [eauto|]. rewrite decide_True by assumption. eauto.
    + rewrite (horizontal_hitTest_plain data 100 x 106 Hy Hs).
      rewrite decide_True by assumption. eauto.
  - intros Hs. rewrite !(horizontal_hitTest_plain data 100) by assumption.
    rewrite decide_True, decide_False by assumption. split; reflexivity.
  - intros Hs. rewrite (horizontal_hitTest_selected data 100) by assumption.
    case_decide; [reflexivity|].
    rewrite decide_False by assumption. reflexivity.
Qed.

Lemma horizontal_tolerance_boundary_witness :
  is_Some (HorizontalLine.renderer_hitTest (Some plain_line) 30 106) /\
  HorizontalLine.renderer_hitTest (Some plain_line) 30 106
    = Some (HoveredItem "pointer" "line" "normal") /\
  HorizontalLine.renderer_hitTest (Some plain_line) 30 106.01 = None.
Proof.
  destruct (horizontal_tolerance_boundary plain_line 30) as (H1 & H2 & _);
    [reflexivity|].
  split; [exact H1|]. apply H2. reflexivity.
Defined.

(** ** Anchor handles before the body *)

Lemma distanceToLineSegment_start (x1 y1 x2 y2 : R) :
  distanceToLineSegment x1 y1 x1 y1 x2 y2 = 0.
Proof.
  unfold distanceToLineSegment. cbv zeta. unfold Math.sqrt.
  case_decide.
  - replace ((x1 - x1) * (x1 - x1) + (y1 - y1) * (y1 - y1)) with 0 by ring.
    apply sqrt_0.
  - replace (((x1 - x1) * (x2 - x1) + (y1 - y1) * (y2 - y1))
             / ((x2 - x1) * (x2 - x1) + (y2 - y1) * (y2 - y1)))
      with 0 by (unfold Rdiv; ring).
    replace (Math.max 0 (Math.min 1 0)) with 0 by (case_minmax; lra).
    match goal with |- sqrt ?a = 0 => replace a with 0 by ring end.
    apply sqrt_0.
Qed.

Lemma selected_trend_hit :
  TrendLine.renderer_hitTest (Some selected_trend) 0 0
    = Some (HoveredItem "pointer" "trend" "normal").
Proof.
  unfold TrendLine.renderer_hitTest. simpl.
  rewrite distanceToLineSegment_start.
  rewrite decide_True; [reflexivity|].
  unfold TrendLine.HIT_TEST_TOLERANCE; lra.
Qed.

(** The claim of C2 fails for the trend line: the query point (0, 0) is on
    handle 0 of a selected trend line, and the hit carries the plain
    external id.  It also fails where two handles are closer than the hit
    radius: the point (6, 0) is on handle 1 of the narrow rectangle and
    within 8 pixels of handle 0, and the hit is handle 0's. *)
Lemma trend_line_anchor_counterexample :
  (TrendLine.d_selected selected_trend = true /\
   corner (TrendLine.p1 selected_trend) = Some (0, 0) /\
   within_handle 0 0 (0, 0) /\
   TrendLine.renderer_hitTest (Some selected_trend) 0 0
     = Some (HoveredItem "pointer" "trend" "normal") /\
   "trend" <> "trend" +:+ ":anchor:" +:+ indexText 0) /\
  (Rectangle.d_selected narrow_rectangle = true /\
   nth_error (rectangle_handles narrow_rectangle) 1 = Some (Some (6, 0)) /\
   within_handle 6 0 (6, 0) /\
   Rectangle.renderer_hitTest (Some narrow_rectangle) 6 0
     = Some (HoveredItem "grab" "rect:anchor:0" "normal")).
Proof.
  split.
  - split; [reflexivity|]. split; [reflexivity|]. split; [|split].
    + unfold within_handle. apply pointDistance_le; simpl; lra.
    + exact selected_trend_hit.
    + discriminate.
  - split; [reflexivity|]. split; [reflexivity|]. split.
    + unfold within_handle. apply pointDistance_le; simpl; lra.
    + unfold Rectangle.renderer_hitTest, Rectangle._hitTestAnchorPoints.
      cbn [narrow_rectangle Rectangle.d_selected Rectangle.p1 Rectangle.p2
           Rectangle.d_externalId pt_x pt_y]. cbv zeta.
      rewrite decide_True; [reflexivity|].
      apply (pointDistance_le 6 0 0 0 8); unfold Rectangle.ANCHOR_HIT_RADIUS;
        lra.
Qed.

Lemma trend_line_hit_id (data : TrendLine.TrendLineRendererData)
    (x y : R) (item : PrimitiveHoveredItem) :
  TrendLine.renderer_hitTest (Some data) x y = Some item ->
  item = HoveredItem "pointer" (TrendLine.d_externalId data) "normal".
Proof.
  unfold TrendLine.renderer_hitTest.
  destruct (TrendLine.linePoints data) as [[[[a|] [b|]] [c|]] [d|]];
    try discriminate.
  cbv zeta. case_decide; congruence.
Qed.

Lemma horizontal_ray_hit_id
    (data : HorizontalRay.HorizontalRayRendererData)
    (x y : R) (item : PrimitiveHoveredItem) :
  HorizontalRay.renderer_hitTest (Some data) x y = Some item ->
  item = HoveredItem "pointer" (HorizontalRay.d_externalId data) "normal".
Proof.
  unfold HorizontalRay.renderer_hitTest.
  destruct (pt_x (HorizontalRay.anchor data)),
    (pt_y (HorizontalRay.anchor data)),
    (pt_x (HorizontalRay.endPoint data)),
    (pt_y (HorizontalRay.endPoint data)); try discriminate.
  cbv zeta. repeat case_decide; congruence.
Qed.

Lemma horizontal_anchor_first
    (data : HorizontalLine.HorizontalLineRendererData) (x y : R) (k : nat) :
  HorizontalLine.d_selected data = true ->
  first_handle (horizontal_handles data) x y k ->
  HorizontalLine.renderer_hitTest (Some data) x y
    = Some (HoveredItem "grab"
              (HorizontalLine.d_externalId data
               +:+ ":anchor:" +:+ indexText k) "normal").
Proof.
  intros Hs [(h & Hk & Hin) _]. unfold horizontal_handles in Hk.
  destruct (HorizontalLine.y data) as [lineY|] eqn:Hy;
    [|destruct k; discriminate].
  destruct k as [|[|k]]; simpl in Hk; try discriminate.
  injection Hk as <-.
  rewrite (horizontal_hitTest_selected data lineY x y Hy Hs).
  rewrite decide_True by exact Hin. reflexivity.
Qed.

Lemma vertical_anchor_first
    (data : VerticalLine.VerticalLineRendererData) (x y : R) (k : nat) :
  VerticalLine.d_selected data = true ->
  first_handle (vertical_handles data) x y k ->
  VerticalLine.renderer_hitTest (Some data) x y
    = Some (HoveredItem "grab"
              (VerticalLine.d_externalId data
               +:+ ":anchor:" +:+ indexText k) "normal").
Proof.
  intros Hs [(h & Hk & Hin) _]. unfold vertical_handles in Hk.
  destruct (VerticalLine.x data) as [lineX|] eqn:Hx;
    [|destruct k; discriminate].
  destruct k as [|[|k]]; simpl in Hk; try discriminate.
  injection Hk as <-.
  unfold VerticalLine.renderer_hitTest. rewrite Hx, Hs.
  unfold VerticalLine._hitTestAnchorPoint. cbv zeta.
  unfold within_handle, pointDistance in Hin. simpl in Hin.
  unfold VerticalLine.ANCHOR_HIT_RADIUS.
  rewrite decide_True by exact Hin. reflexivity.
Qed.

Lemma rectangle_anchor_first
    (data : Rectangle.RectangleRendererData) (x y : R) (k : nat) :
  Rectangle.d_selected data = true ->
  first_handle (rectangle_handles data) x y k ->
  Rectangle.renderer_hitTest (Some data) x y
    = Some (HoveredItem "grab"
              (Rectangle.d_externalId data
               +:+ ":anchor:" +:+ indexText k) "normal").
Proof.
  intros Hs [(h & Hk & Hin) Hfirst].
  unfold Rectangle.renderer_hitTest. rewrite Hs.
  unfold Rectangle._hitTestAnchorPoints, Rectangle.ANCHOR_HIT_RADIUS.
  unfold rectangle_handles, corner in *.
  unfold within_handle, pointDistance in *.
  destruct k as [|[|k]]; simpl in Hk.
  - destruct (pt_x (Rectangle.p1 data)) as [p1x|],
      (pt_y (Rectangle.p1 data)) as [p1y|]; try discriminate.
    injection Hk as <-. simpl in Hin. cbv zeta.
    rewrite decide_True by exact Hin. reflexivity.
  - destruct (pt_x (Rectangle.p2 data)) as [p2x|],
      (pt_y (Rectangle.p2 data)) as [p2y|]; try discriminate.
    injection Hk as <-. simpl in Hin. cbv zeta.
    assert (Hsecond :
      (if decide (Math.sqrt ((x - p2x) * (x - p2x) + (y - p2y) * (y - p2y))
                  <= 8)
       then Some (HoveredItem "grab"
                    (Rectangle.d_externalId data +:+ ":anchor:1") "normal")
       else None)
      = Some (HoveredItem "grab"
                (Rectangle.d_externalId data +:+ ":anchor:1") "normal"))
      by (rewrite decide_True by exact Hin; reflexivity).
    destruct (pt_x (Rectangle.p1 data)) as [p1x|] eqn:H1x,
      (pt_y (Rectangle.p1 data)) as [p1y|] eqn:H1y;
      try (rewrite Hsecond; reflexivity).
    rewrite decide_False; [rewrite Hsecond; reflexivity|].
    apply (Hfirst 0%nat (p1x, p1y)); [lia|reflexivity].
  - destruct k; discriminate.
Qed.

Lemma position_anchor_first
    (data : LongPosition.LongPositionRendererData) (x y : R) (k : nat) :
  LongPosition.d_selected data = true ->
  first_handle (position_handles data) x y k ->
  hoveredId <$> LongPosition.renderer_hitTest (Some data) x y
    = Some (LongPosition.d_externalId data +:+ ":anchor:" +:+ indexText k).
Proof.
  intros Hs [(h & Hk & Hin) Hfirst].
  unfold LongPosition.renderer_hitTest. rewrite Hs.
  unfold position_handles, corner in *.
  destruct (pt_x (LongPosition.entry data)) as [ex|] eqn:Hex;
    [|destruct k; discriminate].
  destruct (pt_y (LongPosition.entry data)) as [ey|] eqn:Hey;
    [|destruct k; discriminate].
  destruct (LongPosition.targetY data) as [ty|];
    [|destruct k; discriminate].
  destruct (LongPosition.stopY data) as [sy|];
    [|destruct k; discriminate].
  destruct (LongPosition.rightX data) as [rx|];
    [|destruct k; discriminate].
  unfold LongPosition._hitTestAnchorPoints, LongPosition.ANCHOR_HIT_RADIUS.
  rewrite Hex, Hey. cbv zeta.
  unfold within_handle, pointDistance in *.
  assert (H0 : (0 < k)%nat ->
     ~ Math.sqrt ((x - ex) * (x - ex) + (y - ey) * (y - ey)) <= 8)
    by (intros Hlt; apply (Hfirst 0%nat (ex, ey)); [lia|reflexivity]).
  assert (H1 : (1 < k)%nat ->
     ~ Math.sqrt ((x - ex) * (x - ex) + (y - ty) * (y - ty)) <= 8)
    by (intros Hlt; apply (Hfirst 1%nat (ex, ty)); [lia|reflexivity]).
  assert (H2 : (2 < k)%nat ->
     ~ Math.sqrt ((x - ex) * (x - ex) + (y - sy) * (y - sy)) <= 8)
    by (intros Hlt; apply (Hfirst 2%nat (ex, sy)); [lia|reflexivity]).
  destruct k as [|[|[|[|k]]]]; simpl in Hk; try discriminate;
    try (destruct k; discriminate);
    injection Hk as <-; simpl in Hin.
  - rewrite decide_True by exact Hin. reflexivity.
  - rewrite decide_False by (apply H0; lia).
    rewrite decide_True by exact Hin. reflexivity.
  - rewrite decide_False by (apply H0; lia).
    rewrite decide_False by (apply H1; lia).
    rewrite decide_True by exact Hin. reflexivity.
  - rewrite decide_False by (apply H0; lia).
    rewrite decide_False by (apply H1; lia).
    rewrite decide_False by (apply H2; lia).
    rewrite decide_True by exact Hin. reflexivity.
Qed.

(** C2 (amended). In the horizontal-line, vertical-line, rectangle and
    long-position renderers a selected snapshot is tested against its
    handles first: when handle k is the first handle within the anchor hit
    radius of the query point, the hit's identifier is the external id
    followed by [:anchor:k], whatever the body test would say.  The
    trend-line and horizontal-ray renderers have no handles in their hit
    test: every hit they report carries the plain external id. *)
Theorem anchor_priority :
  (forall (data : HorizontalLine.HorizontalLineRendererData) x y k,
      HorizontalLine.d_selected data = true ->
      first_handle (horizontal_handles data) x y k ->
      hoveredId <$> HorizontalLine.renderer_hitTest (Some data) x y
        = Some (HorizontalLine.d_externalId data
                +:+ ":anchor:" +:+ indexText k)) /\
  (forall (data : VerticalLine.VerticalLineRendererData) x y k,
      VerticalLine.d_selected data = true ->
      first_handle (vertical_handles data) x y k ->
      hoveredId <$> VerticalLine.renderer_hitTest (Some data) x y
        = Some (VerticalLine.d_externalId data
                +:+ ":anchor:" +:+ indexText k)) /\
  (forall (data : Rectangle.RectangleRendererData) x y k,
      Rectangle.d_selected data = true ->
      first_handle (rectangle_handles data) x y k ->
      hoveredId <$> Rectangle.renderer_hitTest (Some data) x y
        = Some (Rectangle.d_externalId data
                +:+ ":anchor:" +:+ indexText k)) /\
  (forall (data : LongPosition.LongPositionRendererData) x y k,
      LongPosition.d_selected data = true ->
      first_handle (position_handles data) x y k ->
      hoveredId <$> LongPosition.renderer_hitTest (Some data) x y
        = Some (LongPosition.d_externalId data
                +:+ ":anchor:" +:+ indexText k)) /\
  (forall (data : TrendLine.TrendLineRendererData) x y item,
      TrendLine.renderer_hitTest (Some data) x y = Some item ->
      hoveredId item = TrendLine.d_externalId data) /\
  (forall (data : HorizontalRay.HorizontalRayRendererData) x y item,
      HorizontalRay.renderer_hitTest (Some data) x y = Some item ->
      hoveredId item = HorizontalRay.d_externalId data).
Proof.
  repeat split.
  - intros data x y k Hs Hk.
    rewrite (horizontal_anchor_first data x y k Hs Hk). reflexivity.
  - intros data x y k Hs Hk.
    rewrite (vertical_anchor_first data x y k Hs Hk). reflexivity.
  - intros data x y k Hs Hk.
    rewrite (rectangle_anchor_first data x y k Hs Hk). reflexivity.
  - apply position_anchor_first.
  - intros data x y item H.
    rewrite (trend_line_hit_id data x y item H). reflexivity.
  - intros data x y item H.
    rewrite (horizontal_ray_hit_id data x y item H). reflexivity.
Qed.

(** The corner (80, 60) of the selected rectangle lies on its right and
    bottom borders: the body test alone reports the rectangle there. *)
Lemma selected_rectangle_body_hit :
  Rectangle.hitTestBody selected_rectangle 80 60
    = Some (HoveredItem "pointer" "rect" "normal").
Proof.
  unfold Rectangle.hitTestBody. cbn [selected_rectangle
    Rectangle.d_extendMode Rectangle.drawLeft Rectangle.drawRight
    Rectangle.drawTop Rectangle.drawBottom Rectangle.d_showMiddleLine
    Rectangle.d_externalId].
  assert (Hb : isNearHorizontalLine 80 60 20 80 60
                 Rectangle.HIT_TEST_TOLERANCE = true).
  { unfold isNearHorizontalLine, Rectangle.HIT_TEST_TOLERANCE. cbv zeta.
    rewrite !bool_decide_eq_true_2; [reflexivity| | |];
      case_minmax; case_abs; lra. }
  rewrite Hb. rewrite orb_true_r. reflexivity.
Qed.

(** With the handles tested first, the query point (80, 60) reports
    handle 1. *)
Lemma anchor_priority_witness :
  hoveredId <$> Rectangle.renderer_hitTest (Some selected_rectangle) 80 60
    = Some "rect:anchor:1".
Proof.
  destruct anchor_priority as (_ & _ & H & _).
  apply (H selected_rectangle 80 60 1%nat); [reflexivity|].
  split.
  - exists (80, 60). split; [reflexivity|].
    unfold within_handle. apply pointDistance_le; simpl; lra.
  - intros j h Hj Hnth. assert (j = 0%nat) as -> by lia.
    injection Hnth as <-. unfold within_handle.
    rewrite pointDistance_le by lra. simpl. lra.
Defined.

(** ** Null propagation in the renderers *)



















(** ** Options *)

Lemma requestUpdate_options {Anchors Options Data : Type}
    (this : Primitive Anchors Options Data) :
  _options (requestUpdate this) = _options this.
Proof. unfold requestUpdate. destruct (_requestUpdate this); reflexivity. Qed.

Lemma read_present {T : Type} (o : option T) : read (present o) = o.
Proof. destruct o; reflexivity. Qed.

(** What a merge over an object all of whose keys are present leaves in
    one key. *)
Lemma read_over_merged {T : Type} (old : option T) (given : Property T) :
  merged old given (read (over (present old) given)).
Proof. destruct given; simpl; [apply read_present|reflexivity..]. Qed.

Lemma applyOptions_options (p : TrendLine.PartialOptions)
    (this : TrendLine.Runtime) :
  TrendLine.options (TrendLine.applyOptions p this)
  = TrendLine.mergeOptionsWithDefaults
      (TrendLine.spread (TrendLine.asPartial (_options this)) p).
Proof.
  unfold TrendLine.options, TrendLine.applyOptions, setOptions.
  rewrite requestUpdate_options. reflexivity.
Qed.

(** The defaults never show through in [applyOptions]: every key of the
    stored object is present, so the inner spread has every key. *)
Lemma applyOptions_field (p : TrendLine.PartialOptions)
    (this : TrendLine.Runtime) (f : TrendLine.Field) :
  TrendLine.options (TrendLine.applyOptions p this) f
  = read (over (present (TrendLine.options this f)) (p f)).
Proof.
  rewrite applyOptions_options.
  unfold TrendLine.mergeOptionsWithDefaults, TrendLine.spread,
    TrendLine.asPartial, TrendLine.options.
  destruct (p f); [|reflexivity..].
  destruct (_options this f); reflexivity.
Qed.

(** In the constructor the defaults fill the keys that the partial
    object lacks. *)
Lemma constructor_field (p1 p2 : TrendLine.TrendLinePoint)
    (p : TrendLine.PartialOptions) (f : TrendLine.Field) :
  TrendLine.options (TrendLine.constructor p1 p2 (Some p)) f
  = read (over (value (TrendLine.get f TrendLine.trendLineOptionsDefaults))
            (p f)).
Proof. reflexivity. Qed.

(** An object has a value for every key exactly when it is of the
    declared type. *)
Lemma populated_declared (o : TrendLine.OptionsObject) :
  populated o <-> is_Some (TrendLine.declared o).
Proof.
  split.
  - intros H. unfold TrendLine.declared.
    destruct (H TrendLine.LineColor) as [? ->].
    destruct (H TrendLine.LineWidth) as [? ->].
    destruct (H TrendLine.LineStyleF) as [? ->].
    destruct (H TrendLine.ShowLabels) as [? ->].
    destruct (H TrendLine.LabelBackgroundColor) as [? ->].
    destruct (H TrendLine.LabelTextColor) as [? ->].
    destruct (H TrendLine.ExtendToEdges) as [? ->].
    destruct (H TrendLine.ExternalId) as [? ->].
    destruct (H TrendLine.Selected) as [? ->].
    destruct (H TrendLine.AnchorPointColor) as [? ->].
    simpl. eauto.
  - intros [d Hd] f. unfold TrendLine.declared in Hd.
    destruct (o TrendLine.LineColor) eqn:E1; [|discriminate].
    destruct (o TrendLine.LineWidth) eqn:E2; [|discriminate].
    destruct (o TrendLine.LineStyleF) eqn:E3; [|discriminate].
    destruct (o TrendLine.ShowLabels) eqn:E4; [|discriminate].
    destruct (o TrendLine.LabelBackgroundColor) eqn:E5; [|discriminate].
    destruct (o TrendLine.LabelTextColor) eqn:E6; [|discriminate].
    destruct (o TrendLine.ExtendToEdges) eqn:E7; [|discriminate].
    destruct (o TrendLine.ExternalId) eqn:E8; [|discriminate].
    destruct (o TrendLine.Selected) eqn:E9; [|discriminate].
    destruct (o TrendLine.AnchorPointColor) eqn:E10; [|discriminate].
    destruct f; eauto.
Qed.

(** The trend line is one of the declared type exactly when its options
    object has a value for every key. *)
Lemma declaredState_populated (this : TrendLine.Runtime) :
  is_Some (TrendLine.declaredState this)
  <-> populated (TrendLine.options this).
Proof.
  rewrite populated_declared. unfold TrendLine.declaredState,
    TrendLine.options.
  destruct (TrendLine.declared (_options this)); simpl; split;
    intros [? H]; eauto; discriminate.
Qed.

Lemma applyOptions_populated (p : TrendLine.PartialOptions)
    (this : TrendLine.Runtime) :
  populated (TrendLine.options this) ->
  (populated (TrendLine.options (TrendLine.applyOptions p this))
   <-> forall f, p f <> undefined).
Proof.
  intros Hpop. split.
  - intros H f Hf. destruct (H f) as [v Hv].
    rewrite applyOptions_field, Hf in Hv. discriminate.
  - intros H f. rewrite applyOptions_field.
    specialize (H f). destruct (Hpop f) as [v ->].
    destruct (p f); simpl; eauto. contradiction.
Qed.

(** The claim of C8 fails for a partial object that has a key holding
    [undefined]: the spread stores it, and [options ()] is no longer fully
    populated.  After [applyOptions({ lineColor: undefined })] on a trend
    line built with the defaults, [lineColor] is [undefined]; the same
    object passed to the constructor overrides the default as well. *)
Lemma applyOptions_undefined_counterexample :
  populated (TrendLine.options runtime_trend) /\
  TrendLine.options runtime_trend TrendLine.LineColor = Some "#f97316" /\
  TrendLine.options (TrendLine.applyOptions undefined_color runtime_trend)
    TrendLine.LineColor = None /\
  ~ populated
      (TrendLine.options (TrendLine.applyOptions undefined_color runtime_trend))
  /\
  TrendLine.options
    (TrendLine.constructor
       {| TrendLine.time := 0%Z; TrendLine.price := 1 |}
       {| TrendLine.time := 10%Z; TrendLine.price := 2 |}
       (Some undefined_color)) TrendLine.LineColor = None.
Proof.
  split; [intros f; destruct f; simpl; eauto|].
  split; [reflexivity|]. split; [reflexivity|].
  split; [|reflexivity].
  intros H. destruct (H TrendLine.LineColor) as [v Hv]. discriminate.
Qed.

(** C8 (amended).  For every partial options object [p] and every trend
    line, [applyOptions p] followed by [options ()] yields an object in
    which every key that [p] lacks holds what it held before and every key
    that [p] has holds what [p] holds for it, a value or [undefined].
    From a fully populated object the result is fully populated exactly
    when no key of [p] holds [undefined].  Applying the empty partial
    leaves the options unchanged, and applying [p] twice is the same as
    applying it once.  In the constructor the keys that [p] lacks hold the
    defaults. *)
Theorem applyOptions_merge (p : TrendLine.PartialOptions)
    (this : TrendLine.Runtime) :
  let this' := TrendLine.applyOptions p this in
  (forall f,
     merged (TrendLine.options this f) (p f) (TrendLine.options this' f)) /\
  (populated (TrendLine.options this) ->
   (populated (TrendLine.options this') <-> forall f, p f <> undefined)) /\
  (forall f,
     TrendLine.options (TrendLine.applyOptions TrendLine.emptyPartial this) f
     = TrendLine.options this f) /\
  (forall f,
     TrendLine.options (TrendLine.applyOptions p this') f
     = TrendLine.options this' f) /\
  (forall p1 p2 f,
     merged (Some (TrendLine.get f TrendLine.trendLineOptionsDefaults)) (p f)
       (TrendLine.options (TrendLine.constructor p1 p2 (Some p)) f)).
Proof.
  cbv zeta. split; [|split; [|split; [|split]]].
  - intros f. rewrite applyOptions_field. apply read_over_merged.
  - apply applyOptions_populated.
  - intros f. rewrite applyOptions_field. apply read_present.
  - intros f. rewrite !applyOptions_field.
    destruct (p f); simpl; [apply read_present|reflexivity..].
  - intros p1 p2 f. rewrite constructor_field.
    destruct (p f); reflexivity.
Qed.

Lemma applyOptions_merge_witness :
  TrendLine.options (TrendLine.applyOptions select_only runtime_trend)
    TrendLine.Selected = Some true /\
  TrendLine.options (TrendLine.applyOptions select_only runtime_trend)
    TrendLine.LineWidth = Some 2.
Proof.
  destruct (applyOptions_merge select_only runtime_trend) as (H & _).
  split.
  - exact (H TrendLine.Selected).
  - exact (H TrendLine.LineWidth).
Defined.

(** ** Life cycle: detach and re-attach *)

Lemma attached_after_detached {Anchors Options Data : Type}
    (this : Primitive Anchors Options Data) (param : SeriesAttachedParameter) :
  attached param (detached this) = attached param this.
Proof. reflexivity. Qed.

Lemma attached_isAttached {Anchors Options Data : Type}
    (this : Primitive Anchors Options Data) (param : SeriesAttachedParameter) :
  isAttached (attached param this) = true
  /\ _chart (attached param this) = Some (param_chart param)
  /\ _series (attached param this) = Some (param_series param)
  /\ _anchors (attached param this) = _anchors this
  /\ _options (attached param this) = _options this.
Proof. repeat split. Qed.

Ltac guarded_lifecycle_tac calc :=
  split; [reflexivity|]; split; [|intros; reflexivity];
  intros this; unfold updateAllViews_guarded, calc;
  destruct (isAttached_cases this) as [Hd|(chart & series & Ha & Hc & Hs)];
  [ rewrite Hd; simpl; eexists; split; reflexivity
  | rewrite Ha, Hc, Hs; simpl ].

Lemma trendLine_lifecycle :
  guarded_lifecycle TrendLine._calculateRendererData.
Proof.
  guarded_lifecycle_tac TrendLine._calculateRendererData.
  match goal with
  | |- context [let '(_, _) := ?m in _] => destruct m
  end.
  eexists; split; reflexivity.
Qed.

Lemma rectangle_lifecycle :
  guarded_lifecycle Rectangle._calculateRendererData.
Proof.
  guarded_lifecycle_tac Rectangle._calculateRendererData.
  case_options; try (eexists; split; reflexivity).
  destruct (Rectangle.extendMode (_options this));
    eexists; split; reflexivity.
Qed.

Lemma longPosition_lifecycle :
  guarded_lifecycle LongPosition._calculateRendererData.
Proof.
  guarded_lifecycle_tac LongPosition._calculateRendererData.
  case_options; eexists; split; reflexivity.
Qed.

Lemma horizontalLine_lifecycle :
  guarded_lifecycle HorizontalLine._calculateRendererData.
Proof.
  guarded_lifecycle_tac HorizontalLine._calculateRendererData.
  eexists; split; reflexivity.
Qed.

Lemma horizontalRay_lifecycle :
  guarded_lifecycle HorizontalRay._calculateRendererData.
Proof.
  guarded_lifecycle_tac HorizontalRay._calculateRendererData.
  eexists; split; reflexivity.
Qed.

Lemma verticalLine_lifecycle
    (formatTimeLabel : HorzScaleItem -> string -> string) :
  guarded_lifecycle (VerticalLine._calculateRendererData formatTimeLabel).
Proof.
  guarded_lifecycle_tac VerticalLine._calculateRendererData.
  eexists; split; reflexivity.
Qed.

Lemma trendLine_always_projects :
  always_projects TrendLine._calculateRendererData.
Proof.
  intros this param. unfold TrendLine._calculateRendererData.
  destruct (attached_isAttached this param) as (Ha & Hc & Hs & _).
  rewrite Ha, Hc, Hs. simpl.
  match goal with
  | |- context [let '(_, _) := ?m in _] => destruct m
  end.
  eexists; reflexivity.
Qed.

Lemma horizontalLine_always_projects :
  always_projects HorizontalLine._calculateRendererData.
Proof. intros this param. eexists; reflexivity. Qed.

Lemma horizontalRay_always_projects :
  always_projects HorizontalRay._calculateRendererData.
Proof. intros this param. eexists; reflexivity. Qed.

Lemma verticalLine_always_projects
    (formatTimeLabel : HorzScaleItem -> string -> string) :
  always_projects (VerticalLine._calculateRendererData formatTimeLabel).
Proof. intros this param. eexists; reflexivity. Qed.

(** After [attached] both host references are those of the parameter,
    whatever the state was before. *)
Lemma reattached {Anchors Options Data : Type}
    (this : Primitive Anchors Options Data) (param : SeriesAttachedParameter) :
  let this' := attached param (detached this) in
  this' = attached param this /\
  isAttached this' = true /\
  _chart this' = Some (param_chart param) /\
  _series this' = Some (param_series param) /\
  _anchors this' = _anchors this /\
  _options this' = _options this.
Proof. repeat split. Qed.

(** The snapshot of a re-attached trend line shows the anchors where the
    live host maps them. *)
Lemma trendLine_live_geometry (this : TrendLine.State)
    (param : SeriesAttachedParameter) :
  exists data,
    TrendLine.updateAllViews (attached param (detached this))
    = Ok (paneView_update data (attached param this)) /\
    TrendLine.p1 data =
      {| pt_x := timeToCoordinate (timeScale (param_chart param))
                   (TrendLine.time (TrendLine._p1 (_anchors this)));
         pt_y := priceToCoordinate (param_series param)
                   (TrendLine.price (TrendLine._p1 (_anchors this))) |} /\
    TrendLine.p2 data =
      {| pt_x := timeToCoordinate (timeScale (param_chart param))
                   (TrendLine.time (TrendLine._p2 (_anchors this)));
         pt_y := priceToCoordinate (param_series param)
                   (TrendLine.price (TrendLine._p2 (_anchors this))) |} /\
    TrendLine.chartWidth data = width (timeScale (param_chart param)) /\
    TrendLine.chartHeight data = paneHeight (param_series param) /\
    TrendLine.linePoints data =
      match TrendLine.extendToEdges (_options this),
            timeToCoordinate (timeScale (param_chart param))
              (TrendLine.time (TrendLine._p1 (_anchors this))),
            priceToCoordinate (param_series param)
              (TrendLine.price (TrendLine._p1 (_anchors this))),
            timeToCoordinate (timeScale (param_chart param))
              (TrendLine.time (TrendLine._p2 (_anchors this))),
            priceToCoordinate (param_series param)
              (TrendLine.price (TrendLine._p2 (_anchors this))) with
      | true, Some x1, Some y1, Some x2, Some y2 =>
          let extended :=
            TrendLine._calculateExtendedLine x1 y1 x2 y2
              (width (timeScale (param_chart param)))
              (paneHeight (param_series param)) in
          (Some (TrendLine.x1 extended), Some (TrendLine.y1 extended),
           Some (TrendLine.x2 extended), Some (TrendLine.y2 extended))
      | _, x1, y1, x2, y2 => (x1, y1, x2, y2)
      end.
Proof.
  unfold TrendLine.updateAllViews, updateAllViews_guarded,
    TrendLine._calculateRendererData.
  destruct (reattached this param) as (-> & Ha & Hc & Hs & Han & Hop).
  rewrite Ha, Hc, Hs, Han, Hop. simpl.
  destruct (TrendLine.extendToEdges (_options this));
    [destruct
       (timeToCoordinate (timeScale (param_chart param))
          (TrendLine.time (TrendLine._p1 (_anchors this)))),
       (priceToCoordinate (param_series param)
          (TrendLine.price (TrendLine._p1 (_anchors this)))),
       (timeToCoordinate (timeScale (param_chart param))
          (TrendLine.time (TrendLine._p2 (_anchors this)))),
       (priceToCoordinate (param_series param)
          (TrendLine.price (TrendLine._p2 (_anchors this))))|];
    eexists; (split; [reflexivity|]); repeat split.
Qed.

(** The rectangle: a snapshot exactly when the host maps all four corner
    coordinates, and then with the corners at those pixels and the bounds
    of the extend mode. *)
Lemma rectangle_live_geometry (this : Rectangle.State)
    (param : SeriesAttachedParameter) :
  match rectangle_pixels (param_chart param) (param_series param)
          (_anchors this) with
  | Some (x1, y1, x2, y2) =>
      exists data,
        Rectangle.updateAllViews (attached param (detached this))
        = Ok (paneView_update data (attached param this)) /\
        Rectangle.p1 data = {| pt_x := Some x1; pt_y := Some y1 |} /\
        Rectangle.p2 data = {| pt_x := Some x2; pt_y := Some y2 |} /\
        Rectangle.drawTop data = Math.min y1 y2 /\
        Rectangle.drawBottom data = Math.max y1 y2 /\
        (Rectangle.drawLeft data, Rectangle.drawRight data) =
          match Rectangle.extendMode (_options this) with
          | Rectangle.left => (0, Math.max x1 x2)
          | Rectangle.right =>
              (Math.min x1 x2, width (timeScale (param_chart param)))
          | Rectangle.both => (0, width (timeScale (param_chart param)))
          | Rectangle.none => (Math.min x1 x2, Math.max x1 x2)
          end
  | None =>
      Rectangle.updateAllViews (attached param (detached this))
      = Ok (attached param this)
  end.
Proof.
  unfold Rectangle.updateAllViews, updateAllViews_guarded,
    Rectangle._calculateRendererData, rectangle_pixels.
  destruct (reattached this param) as (-> & Ha & Hc & Hs & Han & Hop).
  rewrite Ha, Hc, Hs, Han, Hop. simpl.
  destruct (timeToCoordinate (timeScale (param_chart param))
              (Rectangle.time (Rectangle._p1 (_anchors this)))) as [x1|];
    [|reflexivity]. simpl.
  destruct (priceToCoordinate (param_series param)
              (Rectangle.price (Rectangle._p1 (_anchors this)))) as [y1|];
    [|reflexivity]. simpl.
  destruct (timeToCoordinate (timeScale (param_chart param))
              (Rectangle.time (Rectangle._p2 (_anchors this)))) as [x2|];
    [|reflexivity]. simpl.
  destruct (priceToCoordinate (param_series param)
              (Rectangle.price (Rectangle._p2 (_anchors this)))) as [y2|];
    [|reflexivity]. simpl.
  destruct (Rectangle.extendMode (_options this));
    eexists; (split; [reflexivity|]); repeat split.
Qed.

(** The position: a snapshot exactly when the host maps all its pixels,
    and then with the entry, the two levels and the right edge at those
    pixels. *)
Lemma longPosition_live_geometry (this : LongPosition.State)
    (param : SeriesAttachedParameter) :
  match position_pixels (param_chart param) (param_series param)
          (_anchors this) with
  | Some (ex, ey, ty, sy, rx) =>
      exists data,
        LongPosition.updateAllViews (attached param (detached this))
        = Ok (paneView_update data (attached param this)) /\
        drawable data ex ey ty sy rx /\
        LongPosition.chartWidth data = width (timeScale (param_chart param))
        /\ LongPosition.chartHeight data = paneHeight (param_series param)
  | None =>
      LongPosition.updateAllViews (attached param (detached this))
      = Ok (attached param this)
  end.
Proof.
  destruct (reattached this param) as (-> & Ha & Hc & Hs & Han & Hop).
  pose proof (longPosition_snapshot (attached param this)
                (param_chart param) (param_series param) Hc Hs) as H.
  rewrite Han in H.
  unfold LongPosition.updateAllViews, updateAllViews_guarded.
  destruct (position_pixels _ _ _) as [[[[[ex ey] ty] sy] rx]|].
  - destruct H as (data & -> & Hd & _ & _ & _ & Hw & Hh & _).
    exists data. repeat split; try assumption; apply Hd.
  - rewrite H. reflexivity.
Qed.

Lemma horizontalLine_live_geometry (this : HorizontalLine.State)
    (param : SeriesAttachedParameter) :
  exists data,
    HorizontalLine.updateAllViews (attached param (detached this))
    = Ok (paneView_update data (attached param this)) /\
    HorizontalLine.y data
    = priceToCoordinate (param_series param) (_anchors this) /\
    HorizontalLine.chartWidth data = width (timeScale (param_chart param)).
Proof. eexists. split; [reflexivity|]. split; reflexivity. Qed.

Lemma horizontalRay_live_geometry (this : HorizontalRay.State)
    (param : SeriesAttachedParameter) :
  let x := timeToCoordinate (timeScale (param_chart param))
             (HorizontalRay.time (_anchors this)) in
  let y := priceToCoordinate (param_series param)
             (HorizontalRay.price (_anchors this)) in
  exists data,
    HorizontalRay.updateAllViews (attached param (detached this))
    = Ok (paneView_update data (attached param this)) /\
    HorizontalRay.anchor data = {| pt_x := x; pt_y := y |} /\
    HorizontalRay.endPoint data =
      match x, y with
      | Some _, Some y =>
          {| pt_x := Some (width (timeScale (param_chart param)));
             pt_y := Some y |}
      | _, _ => {| pt_x := None; pt_y := None |}
      end /\
    HorizontalRay.chartWidth data = width (timeScale (param_chart param)).
Proof. eexists. split; [reflexivity|]. repeat split. Qed.

Lemma verticalLine_live_geometry
    (formatTimeLabel : HorzScaleItem -> string -> string)
    (this : VerticalLine.State) (param : SeriesAttachedParameter) :
  exists data,
    VerticalLine.updateAllViews formatTimeLabel
      (attached param (detached this))
    = Ok (paneView_update data (attached param this)) /\
    VerticalLine.e_x data
    = timeToCoordinate (timeScale (param_chart param)) (_anchors this) /\
    VerticalLine.e_chartWidth data = width (timeScale (param_chart param)) /\
    VerticalLine.e_chartHeight data = paneHeight (param_series param).
Proof. eexists. split; [reflexivity|]. repeat split. Qed.

Lemma regions_loop (timeScale : TimeScale)
    (data : list BackgroundRegions.BackgroundRegionData)
    (acc : list BackgroundRegions.BackgroundRegionRendererData) :
  fold_left
    (fun regions point =>
       match timeToCoordinate timeScale (BackgroundRegions.time point) with
       | None => regions
       | Some x =>
           regions ++ [ {| BackgroundRegions.x := x;
                           BackgroundRegions.r_color :=
                             BackgroundRegions.color point;
                           BackgroundRegions.barWidth :=
                             barSpacing timeScale |} ]
       end) data acc
  = acc ++ omap (regionOf timeScale) data.
Proof.
  revert acc. induction data as [|p data IH]; intros acc.
  - simpl. rewrite app_nil_r. reflexivity.
  - cbn [fold_left omap list_omap]. rewrite IH. unfold regionOf at 2.
    destruct (timeToCoordinate timeScale (BackgroundRegions.time p));
      cbn; [rewrite <- app_assoc|]; reflexivity.
Qed.

(** The snapshot of attached background regions: the regions of the data
    points that the time scale maps, in the order of the data. *)
Lemma backgroundRegions_update (this : BackgroundRegions.State)
    (chart : Chart) (series : Series) :
  _chart this = Some chart -> _series this = Some series ->
  BackgroundRegions.updateAllViews this
  = Ok (paneView_update
          {| BackgroundRegions.regions :=
               omap (regionOf (timeScale chart)) (_anchors this);
             BackgroundRegions.chartHeight :=
               match _anchors this with
               | [] => 0
               | _ :: _ => paneHeight series
               end |} this).
Proof.
  intros Hc Hs.
  unfold BackgroundRegions.updateAllViews,
    BackgroundRegions._calculateRendererData.
  rewrite (isAttached_true this chart series Hc Hs), Hc, Hs.
  destruct (_anchors this) as [|p l] eqn:Ea; [reflexivity|].
  cbn [length bool_decide negb orb]. simpl.
  pose proof (regions_loop (timeScale chart) (p :: l) []) as E.
  cbn [fold_left app] in E. rewrite E. reflexivity.
Qed.

Lemma backgroundRegions_live_geometry (this : BackgroundRegions.State)
    (param : SeriesAttachedParameter) :
  BackgroundRegions.updateAllViews (attached param (detached this))
  = Ok (paneView_update
          {| BackgroundRegions.regions :=
               omap (regionOf (timeScale (param_chart param)))
                 (_anchors this);
             BackgroundRegions.chartHeight :=
               match _anchors this with
               | [] => 0
               | _ :: _ => paneHeight (param_series param)
               end |} (attached param this)).
Proof.
  destruct (reattached this param) as (-> & Ha & Hc & Hs & Han & Hop).
  rewrite (backgroundRegions_update (attached param this)
             (param_chart param) (param_series param) Hc Hs).
  rewrite Han. reflexivity.
Qed.

Lemma backgroundRegions_detached_update (this : BackgroundRegions.State) :
  BackgroundRegions.updateAllViews (detached this)
  = Ok (paneView_update
          {| BackgroundRegions.regions := [];
             BackgroundRegions.chartHeight := 0 |} (detached this)).
Proof. reflexivity. Qed.

Lemma backgroundRegions_update_total (this : BackgroundRegions.State) :
  exists data,
    BackgroundRegions.updateAllViews this
    = Ok (paneView_update data this).
Proof.
  unfold BackgroundRegions.updateAllViews,
    BackgroundRegions._calculateRendererData.
  destruct (isAttached_cases this) as [Hd|(chart & series & Ha & Hc & Hs)].
  - rewrite Hd. simpl. eexists; reflexivity.
  - rewrite Ha, Hc, Hs. simpl.
    destruct (bool_decide _); eexists; reflexivity.
Qed.

(** Autoscale when detached. *)
Lemma autoscale_detached :
  (forall (this : TrendLine.State) s e,
      TrendLine.autoscaleInfo (detached this) s e = Ok None) /\
  (forall (this : Rectangle.State) s e,
      Rectangle.autoscaleInfo (detached this) s e = Ok None) /\
  (forall (this : LongPosition.State) s e,
      LongPosition.autoscaleInfo (detached this) s e = Ok None) /\
  (forall (this : HorizontalRay.State) s e,
      HorizontalRay.autoscaleInfo (detached this) s e = Ok None) /\
  (forall (this : VerticalLine.State) s e,
      VerticalLine.autoscaleInfo (detached this) s e = Ok None) /\
  (forall (this : HorizontalLine.State) s e,
      HorizontalLine.autoscaleInfo (detached this) s e
      = Ok (Some {| priceRange :=
                      {| minValue := _anchors this;
                         maxValue := _anchors this |} |})).
Proof. repeat split. Qed.

(** The claim of C7 fails in three places.  Background regions: after
    [detached], [updateAllViews] replaces the good snapshot by an empty
    one.  Trend line: after [detached], the hit test still reports a hit
    from the cached snapshot.  Horizontal line: after [detached],
    autoscale still reports the price. *)
Lemma detach_counterexample :
  (exists good,
     BackgroundRegions.updateAllViews (attached example_param regions_example)
       = Ok good /\
     _data good = Some regions_live /\
     exists after,
       BackgroundRegions.updateAllViews (detached good) = Ok after /\
       _data after = Some {| BackgroundRegions.regions := [];
                             BackgroundRegions.chartHeight := 0 |} /\
       _data after <> _data good) /\
  TrendLine.hitTest detached_trend 0 0
    = Some (HoveredItem "pointer" "trend" "normal") /\
  HorizontalLine.autoscaleInfo detached_line 0 10
    = Ok (Some {| priceRange := {| minValue := 42; maxValue := 42 |} |}).
Proof.
  split; [|split].
  - eexists. split; [reflexivity|]. split; [reflexivity|].
    eexists. split; [reflexivity|]. split; [reflexivity|].
    simpl. unfold regions_live. intros [= H].
  - unfold TrendLine.hitTest. simpl _data.
    exact selected_trend_hit.
  - reflexivity.
Qed.

(** C7 (amended).  For the trend line, rectangle, long position,
    horizontal line, horizontal ray and vertical line: [updateAllViews]
    never throws; after [detached] it leaves the state, the cached
    snapshot included, unchanged; it replaces the cached snapshot exactly
    when [_calculateRendererData] yields one.  After [attached] that is
    always the case for the trend line, the horizontal line, the
    horizontal ray and the vertical line, and for the rectangle and the
    position exactly when the host maps all their coordinates; otherwise
    their [updateAllViews] leaves the state as it is.  The snapshot cached
    after [attached] and [updateAllViews] shows the anchors where the live
    host maps them: the two anchors of the trend line, the corners and
    the bounds of the rectangle, the entry, the levels and the right edge
    of the position, the y of the horizontal line, the anchor and the end
    point of the ray, the x of the vertical line, each with the size of
    the live chart.  For background regions [updateAllViews] never throws
    and always replaces the snapshot: after [detached] by the empty one,
    after [attached] by the regions of the data points that the live time
    scale maps.  After [detached], autoscale reports no result for the
    trend line, rectangle, long position, horizontal ray and vertical
    line, and the fixed price for the horizontal line; the hit test
    answers from the cached snapshot, as before [detached] (never a hit
    for background regions). *)
Theorem detach_reattach :
  (guarded_lifecycle TrendLine._calculateRendererData /\
   guarded_lifecycle Rectangle._calculateRendererData /\
   guarded_lifecycle LongPosition._calculateRendererData /\
   guarded_lifecycle HorizontalLine._calculateRendererData /\
   guarded_lifecycle HorizontalRay._calculateRendererData /\
   forall f, guarded_lifecycle (VerticalLine._calculateRendererData f)) /\
  (always_projects TrendLine._calculateRendererData /\
   always_projects HorizontalLine._calculateRendererData /\
   always_projects HorizontalRay._calculateRendererData /\
   forall f, always_projects (VerticalLine._calculateRendererData f)) /\
  ((forall (this : TrendLine.State) param,
      exists data,
        TrendLine.updateAllViews (attached param (detached this))
        = Ok (paneView_update data (attached param this)) /\
        TrendLine.p1 data =
          {| pt_x := timeToCoordinate (timeScale (param_chart param))
                       (TrendLine.time (TrendLine._p1 (_anchors this)));
             pt_y := priceToCoordinate (param_series param)
                       (TrendLine.price (TrendLine._p1 (_anchors this))) |} /\
        TrendLine.p2 data =
          {| pt_x := timeToCoordinate (timeScale (param_chart param))
                       (TrendLine.time (TrendLine._p2 (_anchors this)));
             pt_y := priceToCoordinate (param_series param)
                       (TrendLine.price (TrendLine._p2 (_anchors this))) |} /\
        TrendLine.chartWidth data = width (timeScale (param_chart param)) /\
        TrendLine.chartHeight data = paneHeight (param_series param) /\
        TrendLine.linePoints data =
          match TrendLine.extendToEdges (_options this),
                timeToCoordinate (timeScale (param_chart param))
                  (TrendLine.time (TrendLine._p1 (_anchors this))),
                priceToCoordinate (param_series param)
                  (TrendLine.price (TrendLine._p1 (_anchors this))),
                timeToCoordinate (timeScale (param_chart param))
                  (TrendLine.time (TrendLine._p2 (_anchors this))),
                priceToCoordinate (param_series param)
                  (TrendLine.price (TrendLine._p2 (_anchors this))) with
          | true, Some x1, Some y1, Some x2, Some y2 =>
              let extended :=
                TrendLine._calculateExtendedLine x1 y1 x2 y2
                  (width (timeScale (param_chart param)))
                  (paneHeight (param_series param)) in
              (Some (TrendLine.x1 extended), Some (TrendLine.y1 extended),
               Some (TrendLine.x2 extended), Some (TrendLine.y2 extended))
          | _, x1, y1, x2, y2 => (x1, y1, x2, y2)
          end) /\
   (forall (this : Rectangle.State) param,
      match rectangle_pixels (param_chart param) (param_series param)
              (_anchors this) with
      | Some (x1, y1, x2, y2) =>
          exists data,
            Rectangle.updateAllViews (attached param (detached this))
            = Ok (paneView_update data (attached param this)) /\
            Rectangle.p1 data = {| pt_x := Some x1; pt_y := Some y1 |} /\
            Rectangle.p2 data = {| pt_x := Some x2; pt_y := Some y2 |} /\
            Rectangle.drawTop data = Math.min y1 y2 /\
            Rectangle.drawBottom data = Math.max y1 y2 /\
            (Rectangle.drawLeft data, Rectangle.drawRight data) =
              match Rectangle.extendMode (_options this) with
              | Rectangle.left => (0, Math.max x1 x2)
              | Rectangle.right =>
                  (Math.min x1 x2, width (timeScale (param_chart param)))
              | Rectangle.both =>
                  (0, width (timeScale (param_chart param)))
              | Rectangle.none => (Math.min x1 x2, Math.max x1 x2)
              end
      | None =>
          Rectangle.updateAllViews (attached param (detached this))
          = Ok (attached param this)
      end) /\
   (forall (this : LongPosition.State) param,
      match position_pixels (param_chart param) (param_series param)
              (_anchors this) with
      | Some (ex, ey, ty, sy, rx) =>
          exists data,
            LongPosition.updateAllViews (attached param (detached this))
            = Ok (paneView_update data (attached param this)) /\
            drawable data ex ey ty sy rx /\
            LongPosition.chartWidth data
            = width (timeScale (param_chart param)) /\
            LongPosition.chartHeight data = paneHeight (param_series param)
      | None =>
          LongPosition.updateAllViews (attached param (detached this))
          = Ok (attached param this)
      end) /\
   (forall (this : HorizontalLine.State) param,
      exists data,
        HorizontalLine.updateAllViews (attached param (detached this))
        = Ok (paneView_update data (attached param this)) /\
        HorizontalLine.y data
        = priceToCoordinate (param_series param) (_anchors this) /\
        HorizontalLine.chartWidth data
        = width (timeScale (param_chart param))) /\
   (forall (this : HorizontalRay.State) param,
      let x := timeToCoordinate (timeScale (param_chart param))
                 (HorizontalRay.time (_anchors this)) in
      let y := priceToCoordinate (param_series param)
                 (HorizontalRay.price (_anchors this)) in
      exists data,
        HorizontalRay.updateAllViews (attached param (detached this))
        = Ok (paneView_update data (attached param this)) /\
        HorizontalRay.anchor data = {| pt_x := x; pt_y := y |} /\
        HorizontalRay.endPoint data =
          match x, y with
          | Some _, Some y =>
              {| pt_x := Some (width (timeScale (param_chart param)));
                 pt_y := Some y |}
          | _, _ => {| pt_x := None; pt_y := None |}
          end /\
        HorizontalRay.chartWidth data
        = width (timeScale (param_chart param))) /\
   (forall f (this : VerticalLine.State) param,
      exists data,
        VerticalLine.updateAllViews f (attached param (detached this))
        = Ok (paneView_update data (attached param this)) /\
        VerticalLine.e_x data
        = timeToCoordinate (timeScale (param_chart param)) (_anchors this) /\
        VerticalLine.e_chartWidth data
        = width (timeScale (param_chart param)) /\
        VerticalLine.e_chartHeight data = paneHeight (param_series param))) /\
  ((forall this : BackgroundRegions.State,
      exists data,
        BackgroundRegions.updateAllViews this
        = Ok (paneView_update data this)) /\
   (forall this : BackgroundRegions.State,
      BackgroundRegions.updateAllViews (detached this)
      = Ok (paneView_update
              {| BackgroundRegions.regions := [];
                 BackgroundRegions.chartHeight := 0 |} (detached this))) /\
   (forall (this : BackgroundRegions.State) param,
      BackgroundRegions.updateAllViews (attached param (detached this))
      = Ok (paneView_update
              {| BackgroundRegions.regions :=
                   omap (regionOf (timeScale (param_chart param)))
                     (_anchors this);
                 BackgroundRegions.chartHeight :=
                   match _anchors this with
                   | [] => 0
                   | _ :: _ => paneHeight (param_series param)
                   end |} (attached param this)))) /\
  ((forall (this : TrendLine.State) s e,
      TrendLine.autoscaleInfo (detached this) s e = Ok None) /\
   (forall (this : Rectangle.State) s e,
      Rectangle.autoscaleInfo (detached this) s e = Ok None) /\
   (forall (this : LongPosition.State) s e,
      LongPosition.autoscaleInfo (detached this) s e = Ok None) /\
   (forall (this : HorizontalRay.State) s e,
      HorizontalRay.autoscaleInfo (detached this) s e = Ok None) /\
   (forall (this : VerticalLine.State) s e,
      VerticalLine.autoscaleInfo (detached this) s e = Ok None) /\
   (forall (this : HorizontalLine.State) s e,
      HorizontalLine.autoscaleInfo (detached this) s e
      = Ok (Some {| priceRange :=
                      {| minValue := _anchors this;
                         maxValue := _anchors this |} |}))) /\
  ((forall (this : TrendLine.State) x y,
      TrendLine.hitTest (detached this) x y = TrendLine.hitTest this x y) /\
   (forall (this : Rectangle.State) x y,
      Rectangle.hitTest (detached this) x y = Rectangle.hitTest this x y) /\
   (forall (this : LongPosition.State) x y,
      LongPosition.hitTest (detached this) x y
      = LongPosition.hitTest this x y) /\
   (forall (this : HorizontalLine.State) x y,
      HorizontalLine.hitTest (detached this) x y
      = HorizontalLine.hitTest this x y) /\
   (forall (this : HorizontalRay.State) x y,
      HorizontalRay.hitTest (detached this) x y
      = HorizontalRay.hitTest this x y) /\
   (forall (this : VerticalLine.State) x y,
      VerticalLine.hitTest (detached this) x y
      = VerticalLine.hitTest this x y) /\
   (forall this : BackgroundRegions.State,
      BackgroundRegions.hitTest (detached this) = None)).
Proof.
  split; [|split; [|split; [|split; [|split]]]].
  - split; [exact trendLine_lifecycle|].
    split; [exact rectangle_lifecycle|].
    split; [exact longPosition_lifecycle|].
    split; [exact horizontalLine_lifecycle|].
    split; [exact horizontalRay_lifecycle|].
    exact verticalLine_lifecycle.
  - split; [exact trendLine_always_projects|].
    split; [exact horizontalLine_always_projects|].
    split; [exact horizontalRay_always_projects|].
    exact verticalLine_always_projects.
  - split; [exact trendLine_live_geometry|].
    split; [exact rectangle_live_geometry|].
    split; [exact longPosition_live_geometry|].
    split; [exact horizontalLine_live_geometry|].
    split; [exact horizontalRay_live_geometry|].
    exact verticalLine_live_geometry.
  - split; [exact backgroundRegions_update_total|].
    split; [exact backgroundRegions_detached_update|].
    exact backgroundRegions_live_geometry.
  - exact autoscale_detached.
  - repeat split.
Qed.

(** A rectangle that is detached and attached again to the example chart
    shows its corners at the pixels (80, 50) and (20, 200) of that
    chart. *)
Lemma detach_reattach_witness :
  exists data,
    Rectangle.updateAllViews
      (attached example_param
         (detached (rectangle_example Rectangle.none)))
    = Ok (paneView_update data
            (attached example_param (rectangle_example Rectangle.none))) /\
    Rectangle.p1 data
    = {| pt_x := Some (IZR 80); pt_y := Some (300 - 250) |} /\
    Rectangle.p2 data
    = {| pt_x := Some (IZR 20); pt_y := Some (300 - 100) |}.
Proof.
  destruct detach_reattach as (_ & _ & (_ & Hrect & _) & _).
  destruct (Hrect (rectangle_example Rectangle.none) example_param)
    as (data & Hup & Hp1 & Hp2 & _).
  exists data. split; [exact Hup|]. split; assumption.
Defined.

(** ** Trend line: the extended line *)

Lemma solve_y (dx dy x1 y1 qx qy : R) :
  dx <> 0 -> (qy - y1) * dx = (qx - x1) * dy ->
  qy = dy / dx * qx + (y1 - dy / dx * x1).
Proof.
  intros Hdx H. apply (Rmult_eq_reg_r dx); [|assumption].
  transitivity (y1 * dx + (qx - x1) * dy); [lra|]. field. assumption.
Qed.

Lemma solve_x (dx dy x1 y1 qx qy : R) :
  dx <> 0 -> dy <> 0 -> (qy - y1) * dx = (qx - x1) * dy ->
  qx = (qy - (y1 - dy / dx * x1)) / (dy / dx).
Proof.
  intros Hdx Hdy H. apply (Rmult_eq_reg_r dy); [|assumption].
  transitivity (x1 * dy + (qy - y1) * dx); [lra|]. field. split; assumption.
Qed.

Lemma edgeIntersections_spec (x1 y1 x2 y2 W H : R) (q : TrendLine.Point) :
  x2 - x1 <> 0 -> y2 - y1 <> 0 ->
  (In q (TrendLine.edgeIntersections x1 y1 x2 y2 W H)
   <-> onLine x1 y1 x2 y2 q /\ onChartEdge W H q).
Proof.
  intros Hdx Hdy. unfold TrendLine.edgeIntersections. cbv zeta.
  rewrite !in_app_iff. unfold onLine, onChartEdge. split.
  - intros [Hq|[Hq|[Hq|Hq]]]; case_decide; simpl in Hq;
      try contradiction; destruct Hq as [<-|[]]; simpl; split;
      try (field; auto); lra.
  - intros [Hl He]. destruct q as [qx qy]. simpl in *.
    destruct He as [[[Hx|Hx] Hy]|[[Hy|Hy] Hx]]; subst.
    + left. pose proof (solve_y _ _ _ _ _ _ Hdx Hl) as E.
      replace ((y2 - y1) / (x2 - x1) * 0 + (y1 - (y2 - y1) / (x2 - x1) * x1))
        with (y1 - (y2 - y1) / (x2 - x1) * x1) in E by ring.
      rewrite <- E. rewrite decide_True by lra. left. reflexivity.
    + right; left. pose proof (solve_y _ _ _ _ _ _ Hdx Hl) as E.
      rewrite <- E. rewrite decide_True by lra. left. reflexivity.
    + right; right; left. pose proof (solve_x _ _ _ _ _ _ Hdx Hdy Hl) as E.
      replace ((0 - (y1 - (y2 - y1) / (x2 - x1) * x1)) / ((y2 - y1) / (x2 - x1)))
        with (- (y1 - (y2 - y1) / (x2 - x1) * x1) / ((y2 - y1) / (x2 - x1)))
        in E by (unfold Rdiv; ring).
      rewrite <- E. rewrite decide_True by lra. left. reflexivity.
    + right; right; right.
      pose proof (solve_x _ _ _ _ _ _ Hdx Hdy Hl) as E.
      rewrite <- E. rewrite decide_True by lra. left. reflexivity.
Qed.

Lemma directionalIntersections_spec (x1 y1 x2 y2 W H : R)
    (q : TrendLine.Point) :
  x2 - x1 <> 0 -> y2 - y1 <> 0 ->
  (In q (TrendLine.directionalIntersections x1 y1 x2 y2 W H)
   <-> candidate x1 y1 x2 y2 W H q).
Proof.
  intros Hdx Hdy. unfold TrendLine.directionalIntersections. cbv zeta.
  rewrite <- list_elem_of_In, list_elem_of_filter, list_elem_of_In.
  rewrite (edgeIntersections_spec _ _ _ _ _ _ _ Hdx Hdy).
  unfold candidate, dotProduct. tauto.
Qed.

Lemma furthestStep_eq (x1 y1 : R) (fp : TrendLine.Point) (m : R)
    (p : TrendLine.Point) :
  TrendLine.furthestStep x1 y1 (fp, m) p
  = if decide (distanceFrom x1 y1 p > m) then (p, distanceFrom x1 y1 p)
    else (fp, m).
Proof. reflexivity. Qed.

Lemma furthest_fold (x1 y1 : R) (l : list TrendLine.Point)
    (fp : TrendLine.Point) (m : R) :
  let r := fold_left (TrendLine.furthestStep x1 y1) l (fp, m) in
  m <= snd r /\
  (forall q, In q l -> distanceFrom x1 y1 q <= snd r) /\
  (r = (fp, m) \/ (In (fst r) l /\ distanceFrom x1 y1 (fst r) = snd r)).
Proof.
  revert fp m. induction l as [|p l IH]; intros fp m; cbn [fold_left].
  - cbv zeta. split; [simpl; lra|]. split; [contradiction|].
    left; reflexivity.
  - rewrite furthestStep_eq. cbv zeta. case_decide as Hd.
    + destruct (IH p (distanceFrom x1 y1 p)) as (Hm & Hall & Hr).
      split; [lra|]. split.
      * intros q [<-|Hq]; [exact Hm|]. apply Hall; assumption.
      * right. destruct Hr as [-> | [Hin Heq]].
        -- simpl. split; [left; reflexivity|reflexivity].
        -- split; [right; assumption|assumption].
    + destruct (IH fp m) as (Hm & Hall & Hr).
      split; [lra|]. split.
      * intros q [<-|Hq]; [lra|]. apply Hall; assumption.
      * destruct Hr as [-> | [Hin Heq]]; [left; reflexivity|].
        right. split; [right; assumption|assumption].
Qed.

Lemma ahead_distance_pos (x1 y1 x2 y2 : R) (q : TrendLine.Point) :
  dotProduct x1 y1 x2 y2 q > 0 -> 0 < distanceFrom x1 y1 q.
Proof.
  unfold dotProduct, distanceFrom, pointDistance, Math.sqrt. intros Hd.
  apply sqrt_lt_R0.
  destruct (Req_dec (TrendLine.x q - x1) 0) as [Ex|Ex];
    destruct (Req_dec (TrendLine.y q - y1) 0) as [Ey|Ey]; nra.
Qed.

Lemma furthest_of_candidates (x1 y1 x2 y2 : R) (l : list TrendLine.Point) :
  (forall q, In q l -> dotProduct x1 y1 x2 y2 q > 0) ->
  let r := fst (fold_left (TrendLine.furthestStep x1 y1) l
                  ({| TrendLine.x := x2; TrendLine.y := y2 |}, 0)) in
  (l = [] -> r = {| TrendLine.x := x2; TrendLine.y := y2 |}) /\
  (l <> [] ->
   In r l /\ forall q, In q l -> distanceFrom x1 y1 q <= distanceFrom x1 y1 r).
Proof.
  intros Hpos. cbv zeta. split.
  - intros ->. reflexivity.
  - intros Hne.
    destruct (furthest_fold x1 y1 l
                {| TrendLine.x := x2; TrendLine.y := y2 |} 0)
      as (Hm & Hall & Hr).
    destruct Hr as [Hr | [Hin Heq]].
    + exfalso. destruct l as [|q l]; [contradiction|].
      pose proof (Hall q (or_introl eq_refl)) as Hq.
      rewrite Hr in Hq. simpl in Hq.
      pose proof (ahead_distance_pos x1 y1 x2 y2 q
                    (Hpos q (or_introl eq_refl))).
      lra.
    + split; [assumption|]. intros q Hq. rewrite Heq. apply Hall; assumption.
Qed.

Lemma Rabs_not_small (d : R) : ~ Rabs d < 0.0001 -> d <> 0.
Proof. intros H ->. apply H. rewrite Rabs_R0. lra. Qed.

Lemma extended_line_general (x1 y1 x2 y2 W H : R) :
  ~ Rabs (x2 - x1) < 0.0001 -> ~ Rabs (y2 - y1) < 0.0001 ->
  let e := TrendLine._calculateExtendedLine x1 y1 x2 y2 W H in
  ((exists q, candidate x1 y1 x2 y2 W H q) ->
   candidate x1 y1 x2 y2 W H (endOf e) /\
   forall q, candidate x1 y1 x2 y2 W H q ->
             distanceFrom x1 y1 q <= distanceFrom x1 y1 (endOf e)) /\
  ((~ exists q, candidate x1 y1 x2 y2 W H q) ->
   endOf e = {| TrendLine.x := x2; TrendLine.y := y2 |}).
Proof.
  intros Hx Hy.
  pose proof (Rabs_not_small _ Hx) as Hdx.
  pose proof (Rabs_not_small _ Hy) as Hdy.
  unfold TrendLine._calculateExtendedLine. cbv zeta.
  unfold Math.abs. rewrite !decide_False by assumption.
  unfold endOf. cbn [TrendLine.x2 TrendLine.y2].
  set (l := TrendLine.directionalIntersections x1 y1 x2 y2 W H).
  assert (Hspec : forall q, In q l <-> candidate x1 y1 x2 y2 W H q)
    by (intros q; apply directionalIntersections_spec; assumption).
  destruct (furthest_of_candidates x1 y1 x2 y2 l) as [Hnil Hcons].
  { intros q Hq. apply Hspec in Hq. apply Hq. }
  set (r := fst (fold_left (TrendLine.furthestStep x1 y1) l
                   ({| TrendLine.x := x2; TrendLine.y := y2 |}, 0))) in *.
  replace {| TrendLine.x := TrendLine.x r; TrendLine.y := TrendLine.y r |}
    with r by (destruct r; reflexivity).
  split.
  - intros [q Hq]. destruct Hcons as [Hin Hmax].
    { intros Hl. apply Hspec in Hq. rewrite Hl in Hq. contradiction. }
    split; [apply Hspec; assumption|].
    intros q' Hq'. apply Hmax. apply Hspec. assumption.
  - intros Hnone. apply Hnil.
    destruct l as [|q l']; [reflexivity|].
    exfalso. apply Hnone. exists q. apply Hspec. left. reflexivity.
Qed.





Lemma Rabs_big_10 : ~ Rabs (10 - 0) < 0.0001.
Proof. case_abs; lra. Qed.


(** A diagonal ray: from (0, 0) through (10, 10) the line leaves a chart of
    100 by 50 through the bottom edge at (50, 50). *)
Lemma extended_line_diagonal_example :
  endOf (TrendLine._calculateExtendedLine 0 0 10 10 100 50)
  = {| TrendLine.x := 50; TrendLine.y := 50 |}.
Proof.
  destruct (extended_line_general 0 0 10 10 100 50) as [Hsome _];
    [exact Rabs_big_10 | exact Rabs_big_10 |].
  destruct Hsome as [(Hl & He & Hd) _].
  - exists {| TrendLine.x := 50; TrendLine.y := 50 |}.
    unfold candidate, onLine, onChartEdge, dotProduct; simpl.
    split; [lra|]. split; [right|]; lra.
  - destruct (endOf _) as [qx qy].
    unfold onLine, onChartEdge, dotProduct in *; simpl in *.
    assert (qx = 50 /\ qy = 50) as [-> ->] by lra. reflexivity.
Qed.




(** ** Background regions: batching *)

Lemma round_spec (x : R) (z : Z) :
  IZR z - 1 / 2 <= x < IZR z + 1 / 2 -> Math.round x = IZR z.
Proof.
  intros Hx. unfold Math.round. f_equal. symmetry.
  apply Int_part_spec. lra.
Qed.

Lemma round_bounds (x : R) : x - 1 / 2 < Math.round x <= x + 1 / 2.
Proof.
  unfold Math.round. destruct (base_Int_part (x + 1 / 2)). lra.
Qed.

Lemma round_mono (a b : R) : a <= b -> Math.round a <= Math.round b.
Proof.
  intros Hab. unfold Math.round. apply IZR_le.
  destruct (base_Int_part (a + 1 / 2)) as [Ha _].
  destruct (base_Int_part (b + 1 / 2)) as [_ Hb].
  assert (H : IZR (Int_part (a + 1 / 2)) < IZR (Int_part (b + 1 / 2) + 1))
    by (rewrite plus_IZR; lra).
  apply lt_IZR in H. lia.
Qed.

Lemma round_step (a b : R) :
  Math.round a < Math.round b -> Math.round a + 1 <= Math.round b.
Proof.
  unfold Math.round. intros H. apply lt_IZR in H.
  rewrite <- plus_IZR. apply IZR_le. lia.
Qed.

Section Batching.
Variables h chs : R.

Lemma run_calls (l : list BackgroundRegions.BackgroundRegionRendererData)
    (calls : list CanvasCall) (b : BackgroundRegions.Batch) :
  fold_left (BackgroundRegions.batchStep h chs) l (calls, b)
  = (calls ++ fst (fold_left (BackgroundRegions.batchStep h chs) l ([], b)),
     snd (fold_left (BackgroundRegions.batchStep h chs) l ([], b))).
Proof.
  revert calls b. induction l as [|r l IH]; intros calls b; cbn [fold_left].
  - simpl. rewrite app_nil_r. reflexivity.
  - unfold BackgroundRegions.batchStep at 2 4 6.
    destruct (bool_decide _ && _).
    + apply IH.
    + rewrite IH. rewrite (IH ([] ++ _)). simpl.
      rewrite app_assoc. reflexivity.
Qed.

Lemma step_first (r : BackgroundRegions.BackgroundRegionRendererData) :
  BackgroundRegions.batchStep h chs ([], emptyBatch) r
  = ([], batchOf h r r).
Proof. reflexivity. Qed.

Lemma step_continue
    (first r r' : BackgroundRegions.BackgroundRegionRendererData)
    (calls : list CanvasCall) :
  BackgroundRegions.r_color r = BackgroundRegions.r_color first ->
  continues h r r' ->
  BackgroundRegions.batchStep h chs (calls, batchOf h first r) r'
  = (calls, batchOf h first r').
Proof.
  intros Hc [Hcol Hadj]. unfold BackgroundRegions.batchStep.
  cbn [BackgroundRegions.currentColor BackgroundRegions.batchEndX
       BackgroundRegions.batchStartX batchOf].
  unfold BackgroundRegions.isAdjacent.
  rewrite bool_decide_eq_true_2 by congruence.
  rewrite bool_decide_eq_true_2 by exact Hadj.
  reflexivity.
Qed.

Lemma step_break
    (first r r' : BackgroundRegions.BackgroundRegionRendererData)
    (calls : list CanvasCall) :
  BackgroundRegions.r_color r = BackgroundRegions.r_color first ->
  ~ continues h r r' ->
  BackgroundRegions.batchStep h chs (calls, batchOf h first r) r'
  = (calls ++ BackgroundRegions.drawBatch chs (batchOf h first r),
     batchOf h r' r').
Proof.
  intros Hc Hn. unfold BackgroundRegions.batchStep.
  cbn [BackgroundRegions.currentColor BackgroundRegions.batchEndX
       BackgroundRegions.batchStartX batchOf].
  unfold BackgroundRegions.isAdjacent.
  destruct (bool_decide _ && bool_decide _) eqn:E; [|reflexivity].
  exfalso. apply andb_prop in E as [E1 E2].
  apply bool_decide_eq_true in E1. apply bool_decide_eq_true in E2.
  apply Hn. split; [congruence|exact E2].
Qed.

(** After any non-empty prefix the batch being built starts at some region
    of the prefix's colour run and ends at the last region. *)
Lemma run_last (pre : list BackgroundRegions.BackgroundRegionRendererData)
    (r : BackgroundRegions.BackgroundRegionRendererData) :
  exists first calls,
    fold_left (BackgroundRegions.batchStep h chs) (pre ++ [r])
      ([], emptyBatch)
    = (calls, batchOf h first r)
    /\ BackgroundRegions.r_color r = BackgroundRegions.r_color first.
Proof.
  revert r. induction pre as [|p pre IH] using rev_ind; intros r.
  - exists r, []. split; reflexivity.
  - rewrite fold_left_app. destruct (IH p) as (first & calls & -> & Hc).
    cbn [fold_left].
    destruct (decide (continues h p r)) as [Hk|Hk].
    + rewrite (step_continue first p r calls Hc Hk).
      exists first, calls. split; [reflexivity|].
      destruct Hk as [Hk _]. congruence.
    + rewrite (step_break first p r calls Hc Hk).
      eexists r, _. split; reflexivity.
Qed.
End Batching.

Lemma draw_nonempty
    (l : list BackgroundRegions.BackgroundRegionRendererData)
    (chartHeight : R) (scope : BitmapCoordinatesRenderingScope) :
  l <> [] ->
  BackgroundRegions.draw (Some (regionsData l chartHeight)) scope
  = let r :=
      fold_left
        (BackgroundRegions.batchStep (horizontalPixelRatio scope)
           (Math.round (chartHeight * verticalPixelRatio scope)))
        l ([], emptyBatch) in
    fst r ++ BackgroundRegions.drawBatch
               (Math.round (chartHeight * verticalPixelRatio scope)) (snd r).
Proof.
  intros Hl. unfold BackgroundRegions.draw, BackgroundRegions._drawImpl.
  cbn [BackgroundRegions.regions BackgroundRegions.chartHeight regionsData].
  destruct l as [|r l]; [contradiction|].
  cbn [length bool_decide]. cbv zeta.
  fold emptyBatch.
  destruct (fold_left _ (r :: l) _). reflexivity.
Qed.

Lemma last_cons {A : Type} (a d : A) (l : list A) :
  List.last (a :: l) d = List.last l a.
Proof.
  revert a d. induction l as [|b l IH]; intros a d; [reflexivity|].
  change (List.last (a :: b :: l) d) with (List.last (b :: l) d).
  rewrite !IH. reflexivity.
Qed.

Lemma run_chain (h chs : R)
    (rest : list BackgroundRegions.BackgroundRegionRendererData)
    (first r : BackgroundRegions.BackgroundRegionRendererData)
    (calls : list CanvasCall) :
  BackgroundRegions.r_color r = BackgroundRegions.r_color first ->
  chained h r rest ->
  fold_left (BackgroundRegions.batchStep h chs) rest
    (calls, batchOf h first r)
  = (calls, batchOf h first (List.last rest r)).
Proof.
  revert r. induction rest as [|r' rest IH]; intros r Hc Hch.
  - reflexivity.
  - destruct Hch as [Hk Hch]. cbn [fold_left].
    rewrite (step_continue h chs first r r' calls Hc Hk).
    rewrite last_cons. apply IH; [|assumption].
    destruct Hk as [Hk _]. congruence.
Qed.

Lemma batch_merges (scope : BitmapCoordinatesRenderingScope)
    (chartHeight : R) (r : BackgroundRegions.BackgroundRegionRendererData)
    (rest : list BackgroundRegions.BackgroundRegionRendererData) :
  chained (horizontalPixelRatio scope) r rest ->
  BackgroundRegions.draw (Some (regionsData (r :: rest) chartHeight)) scope
  = fillOf scope chartHeight r (List.last rest r).
Proof.
  intros Hch. rewrite draw_nonempty by discriminate. cbv zeta.
  cbn [fold_left]. rewrite step_first.
  rewrite (run_chain _ _ rest r r [] eq_refl Hch). reflexivity.
Qed.

Lemma batch_breaks (scope : BitmapCoordinatesRenderingScope)
    (chartHeight : R)
    (pre post : list BackgroundRegions.BackgroundRegionRendererData)
    (r r' : BackgroundRegions.BackgroundRegionRendererData) :
  ~ continues (horizontalPixelRatio scope) r r' ->
  BackgroundRegions.draw
    (Some (regionsData (pre ++ r :: r' :: post) chartHeight)) scope
  = BackgroundRegions.draw
      (Some (regionsData (pre ++ [r]) chartHeight)) scope
    ++ BackgroundRegions.draw
         (Some (regionsData (r' :: post) chartHeight)) scope.
Proof.
  intros Hn.
  replace (pre ++ r :: r' :: post) with ((pre ++ [r]) ++ r' :: post)
    by (rewrite <- app_assoc; reflexivity).
  rewrite !draw_nonempty;
    try discriminate; try (intros E; apply app_eq_nil in E as [_ E];
                           discriminate).
  cbv zeta. rewrite fold_left_app.
  set (h := horizontalPixelRatio scope) in *.
  set (chs := Math.round (chartHeight * verticalPixelRatio scope)).
  destruct (run_last h chs pre r) as (first & calls & -> & Hc).
  cbn [fold_left]. rewrite step_first.
  rewrite (step_break h chs first r r' calls Hc Hn).
  rewrite run_calls. cbn [fst snd]. rewrite <- !app_assoc. reflexivity.
Qed.

Lemma different_colour_breaks (h : R)
    (r r' : BackgroundRegions.BackgroundRegionRendererData) :
  BackgroundRegions.r_color r' <> BackgroundRegions.r_color r ->
  ~ continues h r r'.
Proof. intros Hc [Hk _]. contradiction. Qed.

Lemma leftX_value (x w : R) (c : string) (z : Z) :
  IZR z - 1 / 2 <= x - w / 2 < IZR z + 1 / 2 ->
  BackgroundRegions.leftX 1 (region x c w) = IZR z.
Proof.
  intros H. unfold BackgroundRegions.leftX, region. cbv zeta.
  cbn [BackgroundRegions.x BackgroundRegions.barWidth].
  apply round_spec. lra.
Qed.

Lemma rightX_value (x w : R) (c : string) (z : Z) :
  IZR z - 1 / 2 <= x + w / 2 < IZR z + 1 / 2 ->
  BackgroundRegions.rightX 1 (region x c w) = IZR z.
Proof.
  intros H. unfold BackgroundRegions.rightX, region. cbv zeta.
  cbn [BackgroundRegions.x BackgroundRegions.barWidth].
  apply round_spec. lra.
Qed.

Lemma single_region (scope : BitmapCoordinatesRenderingScope)
    (chartHeight : R) (r : BackgroundRegions.BackgroundRegionRendererData) :
  BackgroundRegions.draw (Some (regionsData [r] chartHeight)) scope
  = fillOf scope chartHeight r r.
Proof. apply (batch_merges scope chartHeight r []). exact I. Qed.

(** Regions at x = 10, 20, 30, bar width 10, one colour: one fill over
    [5, 35]. *)
Lemma three_regions_merge (c : string) (chartHeight v : R) :
  BackgroundRegions.draw
    (Some (regionsData [region 10 c 10; region 20 c 10; region 30 c 10]
             chartHeight)) (scope_of 1 v)
  = [ set_fillStyle c;
      fillRect 5 0 (35 - 5) (Math.round (chartHeight * v)) ].
Proof.
  rewrite batch_merges.
  - unfold fillOf. cbn [List.last horizontalPixelRatio verticalPixelRatio
                         scope_of].
    rewrite (leftX_value 10 10 c 5) by lra.
    rewrite (rightX_value 30 10 c 35) by lra. reflexivity.
  - cbn [chained horizontalPixelRatio scope_of]. unfold continues.
    rewrite (leftX_value 20 10 c 15), (rightX_value 10 10 c 15),
      (leftX_value 30 10 c 25), (rightX_value 20 10 c 25) by lra.
    cbn [BackgroundRegions.r_color BackgroundRegions.barWidth region].
    repeat split; lra.
Qed.

(** The region at x = 20 in another colour: the run is drawn as two fills,
    [5, 15] and [25, 35], with the fill of the other colour between them. *)
Lemma three_regions_split (c d : string) (chartHeight v : R) :
  c <> d ->
  BackgroundRegions.draw
    (Some (regionsData [region 10 c 10; region 20 d 10; region 30 c 10]
             chartHeight)) (scope_of 1 v)
  = [ set_fillStyle c;
      fillRect 5 0 (15 - 5) (Math.round (chartHeight * v));
      set_fillStyle d;
      fillRect 15 0 (25 - 15) (Math.round (chartHeight * v));
      set_fillStyle c;
      fillRect 25 0 (35 - 25) (Math.round (chartHeight * v)) ].
Proof.
  intros Hcd.
  pose proof (batch_breaks (scope_of 1 v) chartHeight []
                [region 30 c 10] (region 10 c 10) (region 20 d 10)) as E1.
  pose proof (batch_breaks (scope_of 1 v) chartHeight []
                [] (region 20 d 10) (region 30 c 10)) as E2.
  cbn [app] in E1, E2.
  rewrite E1 by (apply different_colour_breaks; simpl; congruence).
  rewrite E2 by (apply different_colour_breaks; simpl; congruence).
  cbn [app]. rewrite !single_region. unfold fillOf.
  cbn [horizontalPixelRatio verticalPixelRatio scope_of].
  rewrite (leftX_value 10 10 c 5), (rightX_value 10 10 c 15),
    (leftX_value 20 10 d 15), (rightX_value 20 10 d 25),
    (leftX_value 30 10 c 25), (rightX_value 30 10 c 35) by lra.
  reflexivity.
Qed.

(** Regions at x = 10 and x = 30, bar width 10, one colour: the bar at
    x = 20 is missing, the left edge 25 is more than half a bar width
    beyond the right edge 15, and the regions are drawn as two fills. *)
Lemma missing_bar_example (c : string) (chartHeight v : R) :
  BackgroundRegions.draw
    (Some (regionsData [region 10 c 10; region 30 c 10] chartHeight))
    (scope_of 1 v)
  = [ set_fillStyle c;
      fillRect 5 0 (15 - 5) (Math.round (chartHeight * v));
      set_fillStyle c;
      fillRect 25 0 (35 - 25) (Math.round (chartHeight * v)) ].
Proof.
  pose proof (batch_breaks (scope_of 1 v) chartHeight []
                [] (region 10 c 10) (region 30 c 10)) as E.
  cbn [app] in E. rewrite E.
  - rewrite !single_region. unfold fillOf.
    cbn [horizontalPixelRatio verticalPixelRatio scope_of].
    rewrite (leftX_value 10 10 c 5), (rightX_value 10 10 c 15),
      (leftX_value 30 10 c 25), (rightX_value 30 10 c 35) by lra.
    reflexivity.
  - cbn [horizontalPixelRatio scope_of]. unfold continues.
    rewrite (leftX_value 30 10 c 25), (rightX_value 10 10 c 15) by lra.
    cbn [BackgroundRegions.barWidth region]. intros [_ H]. lra.
Qed.

(** The claim of C5 fails for bars narrower than a pixel.  With bar width
    0.6 the regions at x = 0.3 and x = 1.5 are two bars apart, the bar at
    x = 0.9 is missing between them, and they are drawn as one fill over
    [0, 2]: the missing bar rounds to an empty extent of pixels. *)
Lemma background_gap_counterexample :
  missing_between 1 (region 0.3 "red" 0.6) (region 0.9 "red" 0.6)
    (region 1.5 "red" 0.6) /\
  BackgroundRegions.draw
    (Some (regionsData [region 0.3 "red" 0.6; region 1.5 "red" 0.6] 100))
    (scope_of 1 1)
  = [ set_fillStyle "red"; fillRect 0 0 (2 - 0) (Math.round (100 * 1)) ].
Proof.
  split.
  - unfold missing_between, region; simpl. lra.
  - rewrite batch_merges.
    + unfold fillOf. cbn [List.last horizontalPixelRatio verticalPixelRatio
                           scope_of].
      rewrite (leftX_value 0.3 0.6 "red" 0) by lra.
      rewrite (rightX_value 1.5 0.6 "red" 2) by lra. reflexivity.
    + cbn [chained horizontalPixelRatio scope_of]. unfold continues.
      rewrite (leftX_value 1.5 0.6 "red" 1),
        (rightX_value 0.3 0.6 "red" 1) by lra.
      cbn [BackgroundRegions.r_color BackgroundRegions.barWidth region].
      repeat split; lra.
Qed.

(** C5 (amended).  A region continues the run before it when it has the
    run's colour and its left edge is at most 0.5 bar widths beyond the
    right edge of the run, both edges in rounded device pixels.  A run of
    regions each of which continues the one before it is drawn as a
    single fill from the first left edge to the last right edge.  Where a
    region does not continue the one before it the output splits there:
    the fills are those of the regions up to the break followed by those
    of the regions after it.  A region of a different colour never
    continues.  Regions at x = 10, 20, 30 with bar width 10 and one colour
    give one fill over [5, 35]; with the region at x = 20 in another
    colour the run gives the two fills [5, 15] and [25, 35], and the other
    colour's fill [15, 25] lies between them; with the bar at x = 20
    missing it gives the two fills [5, 15] and [25, 35]. *)
Theorem background_batching :
  (forall scope chartHeight r rest,
      chained (horizontalPixelRatio scope) r rest ->
      BackgroundRegions.draw
        (Some (regionsData (r :: rest) chartHeight)) scope
      = fillOf scope chartHeight r (List.last rest r)) /\
  (forall scope chartHeight pre post r r',
      ~ continues (horizontalPixelRatio scope) r r' ->
      BackgroundRegions.draw
        (Some (regionsData (pre ++ r :: r' :: post) chartHeight)) scope
      = BackgroundRegions.draw
          (Some (regionsData (pre ++ [r]) chartHeight)) scope
        ++ BackgroundRegions.draw
             (Some (regionsData (r' :: post) chartHeight)) scope) /\
  (forall h r r',
      BackgroundRegions.r_color r' <> BackgroundRegions.r_color r ->
      ~ continues h r r') /\
  (forall c chartHeight v,
      BackgroundRegions.draw
        (Some (regionsData [region 10 c 10; region 20 c 10; region 30 c 10]
                 chartHeight)) (scope_of 1 v)
      = [ set_fillStyle c;
          fillRect 5 0 (35 - 5) (Math.round (chartHeight * v)) ]) /\
  (forall c d chartHeight v,
      c <> d ->
      BackgroundRegions.draw
        (Some (regionsData [region 10 c 10; region 20 d 10; region 30 c 10]
                 chartHeight)) (scope_of 1 v)
      = [ set_fillStyle c;
          fillRect 5 0 (15 - 5) (Math.round (chartHeight * v));
          set_fillStyle d;
          fillRect 15 0 (25 - 15) (Math.round (chartHeight * v));
          set_fillStyle c;
          fillRect 25 0 (35 - 25) (Math.round (chartHeight * v)) ]) /\
  (forall c chartHeight v,
      BackgroundRegions.draw
        (Some (regionsData [region 10 c 10; region 30 c 10] chartHeight))
        (scope_of 1 v)
      = [ set_fillStyle c;
          fillRect 5 0 (15 - 5) (Math.round (chartHeight * v));
          set_fillStyle c;
          fillRect 25 0 (35 - 25) (Math.round (chartHeight * v)) ]).
Proof.
  split; [exact batch_merges|].
  split; [exact batch_breaks|].
  split; [exact different_colour_breaks|].
  split; [exact three_regions_merge|].
  split; [exact three_regions_split|].
  exact missing_bar_example.
Qed.

Lemma background_batching_witness :
  BackgroundRegions.draw
    (Some (regionsData
             [region 10 "green" 10; region 20 "red" 10; region 30 "green" 10]
             300)) (scope_of 1 1)
  = [ set_fillStyle "green";
      fillRect 5 0 (15 - 5) (Math.round (300 * 1));
      set_fillStyle "red";
      fillRect 15 0 (25 - 15) (Math.round (300 * 1));
      set_fillStyle "green";
      fillRect 25 0 (35 - 25) (Math.round (300 * 1)) ].
Proof.
  destruct background_batching as (_ & _ & _ & _ & H & _).
  apply (H "green" "red" 300 1). discriminate.
Defined.

(** * Further properties of the code *)

(** ** Distance to a segment *)

(** The squared distance from (px, py) to the point of parameter [s] on the
    line through (x1, y1) and (x2, y2). *)
Lemma sqdist_param (px py x1 y1 x2 y2 s : R) :
  (px - (x1 + s * (x2 - x1))) * (px - (x1 + s * (x2 - x1)))
  + (py - (y1 + s * (y2 - y1))) * (py - (y1 + s * (y2 - y1)))
  = (px - x1) * (px - x1) + (py - y1) * (py - y1)
    - 2 * s * ((px - x1) * (x2 - x1) + (py - y1) * (y2 - y1))
    + s * s * ((x2 - x1) * (x2 - x1) + (y2 - y1) * (y2 - y1)).
Proof. ring. Qed.

Lemma sum_squares_0 (a b : R) : a * a + b * b = 0 -> a = 0 /\ b = 0.
Proof. intros H. split; nra. Qed.

(** The parameter the code clamps to [0, 1]. *)
Lemma clamp_cases (t : R) :
  (t < 0 /\ Math.max 0 (Math.min 1 t) = 0)
  \/ (0 <= t <= 1 /\ Math.max 0 (Math.min 1 t) = t)
  \/ (1 < t /\ Math.max 0 (Math.min 1 t) = 1).
Proof.
  destruct (Rlt_dec t 0); [left|right; destruct (Rle_dec t 1); [left|right]];
    (split; [lra|case_minmax; lra]).
Qed.

Lemma distanceToLineSegment_attained (px py x1 y1 x2 y2 : R) :
  exists t, 0 <= t <= 1 /\
    distanceToLineSegment px py x1 y1 x2 y2
    = pointDistance px py (x1 + t * (x2 - x1)) (y1 + t * (y2 - y1)).
Proof.
  unfold distanceToLineSegment, pointDistance. cbv zeta. case_decide as HL.
  - exists 0. split; [lra|]. f_equal. ring.
  - eexists. split; [|reflexivity].
    destruct (clamp_cases
                (((px - x1) * (x2 - x1) + (py - y1) * (y2 - y1))
                 / ((x2 - x1) * (x2 - x1) + (y2 - y1) * (y2 - y1))))
      as [[? ->]|[[? ->]|[? ->]]]; lra.
Qed.

Lemma distanceToLineSegment_least (px py x1 y1 x2 y2 s : R) :
  0 <= s <= 1 ->
  distanceToLineSegment px py x1 y1 x2 y2
  <= pointDistance px py (x1 + s * (x2 - x1)) (y1 + s * (y2 - y1)).
Proof.
  intros Hs. unfold distanceToLineSegment, pointDistance. cbv zeta.
  unfold Math.sqrt. case_decide as HL.
  - apply sum_squares_0 in HL as [-> ->].
    apply Req_le. f_equal. ring.
  - apply sqrt_le_1_alt. rewrite !sqdist_param.
    set (a := (px - x1) * (x2 - x1) + (py - y1) * (y2 - y1)) in *.
    set (L := (x2 - x1) * (x2 - x1) + (y2 - y1) * (y2 - y1)) in *.
    assert (HLpos : 0 < L).
    { assert (H0 : 0 <= L)
        by (unfold L; apply Rplus_le_le_0_compat; apply Rle_0_sqr).
      destruct H0 as [H0|H0]; [assumption|]. exfalso. apply HL. symmetry. exact H0. }
    assert (Ha : a = a / L * L) by (field; lra).
    set (t0 := a / L) in *. clearbody t0 a L.
    destruct (clamp_cases t0) as [[H0 ->]|[[H0 ->]|[H0 ->]]]; subst a.
    + assert (0 <= L * s * (s - 2 * t0)) by
        (apply Rmult_le_pos; [apply Rmult_le_pos|]; lra).
      nra.
    + assert (0 <= L * ((s - t0) * (s - t0))) by
        (apply Rmult_le_pos; [lra|apply Rle_0_sqr]).
      nra.
    + assert (0 <= L * ((1 - s) * (2 * t0 - s - 1))) by
        (apply Rmult_le_pos; [lra|apply Rmult_le_pos; lra]).
      nra.
Qed.




(** X1. [distanceToLineSegment] is the distance from (px, py) to the
    nearest point of the segment from (x1, y1) to (x2, y2): some point of
    the segment is at exactly that distance and no point of the segment
    is nearer.  This holds for a segment of length zero as well. *)
Theorem distanceToLineSegment_nearest (px py x1 y1 x2 y2 : R) :
  (exists t, 0 <= t <= 1 /\
     distanceToLineSegment px py x1 y1 x2 y2
     = pointDistance px py (x1 + t * (x2 - x1)) (y1 + t * (y2 - y1))) /\
  (forall s, 0 <= s <= 1 ->
     distanceToLineSegment px py x1 y1 x2 y2
     <= pointDistance px py (x1 + s * (x2 - x1)) (y1 + s * (y2 - y1))).
Proof.
  split.
  - apply distanceToLineSegment_attained.
  - intros s Hs. apply distanceToLineSegment_least. assumption.
Qed.

Lemma requestUpdate_fields {Anchors Options Data : Type}
    (this : Primitive Anchors Options Data) :
  _chart (requestUpdate this) = _chart this
  /\ _series (requestUpdate this) = _series this
  /\ _anchors (requestUpdate this) = _anchors this
  /\ _options (requestUpdate this) = _options this
  /\ _data (requestUpdate this) = _data this
  /\ _requestUpdate (requestUpdate this) = _requestUpdate this.
Proof.
  unfold requestUpdate. destruct (_requestUpdate this) eqn:E;
    repeat split; simpl; auto.
Qed.

(** ** Horizontal ray: the hit region *)

Lemma horizontalRay_hitTest_single
    (data : HorizontalRay.HorizontalRayRendererData) (x y : R) :
  HorizontalRay.renderer_hitTest (Some data) x y =
    match pt_x (HorizontalRay.anchor data), pt_y (HorizontalRay.anchor data),
          pt_x (HorizontalRay.endPoint data),
          pt_y (HorizontalRay.endPoint data) with
    | Some anchorX, Some anchorY, Some endX, Some endY =>
        if decide (distanceToLineSegment x y anchorX anchorY endX endY <= 6)
        then Some (HoveredItem "pointer" (HorizontalRay.d_externalId data)
                     "normal")
        else None
    | _, _, _, _ => None
    end.
Proof.
  unfold HorizontalRay.renderer_hitTest.
  destruct (pt_x (HorizontalRay.anchor data)) as [ax|]; [|reflexivity].
  destruct (pt_y (HorizontalRay.anchor data)) as [ay|]; [|reflexivity].
  destruct (pt_x (HorizontalRay.endPoint data)) as [ex|]; [|reflexivity].
  destruct (pt_y (HorizontalRay.endPoint data)) as [ey|]; [|reflexivity].
  cbv zeta. unfold HorizontalRay.HIT_TEST_TOLERANCE.
  case_decide as Hd; [reflexivity|].
  rewrite decide_False; [reflexivity|]. intros Ha. apply Hd.
  pose proof (distanceToLineSegment_least x y ax ay ex ey 0) as Hl.
  unfold pointDistance in Hl.
  replace (ax + 0 * (ex - ax)) with ax in Hl by ring.
  replace (ay + 0 * (ey - ay)) with ay in Hl by ring.
  lra.
Qed.

(** X3. In the horizontal ray's [hitTest] the second test, against the
    anchor point, never decides anything: the result is that of the
    distance test against the segment alone, because the segment is never
    farther from the query point than its own start. *)
Theorem horizontalRay_anchor_test_redundant
    (data : HorizontalRay.HorizontalRayRendererData) (x y : R) :
  HorizontalRay.renderer_hitTest (Some data) x y =
    match pt_x (HorizontalRay.anchor data), pt_y (HorizontalRay.anchor data),
          pt_x (HorizontalRay.endPoint data),
          pt_y (HorizontalRay.endPoint data) with
    | Some anchorX, Some anchorY, Some endX, Some endY =>
        if decide (distanceToLineSegment x y anchorX anchorY endX endY
                   <= HorizontalRay.HIT_TEST_TOLERANCE)
        then Some (HoveredItem "pointer" (HorizontalRay.d_externalId data)
                     "normal")
        else None
    | _, _, _, _ => None
    end.
Proof. apply horizontalRay_hitTest_single. Qed.

Lemma Rabs_le_sqr (d r : R) : 0 <= r -> (Rabs d <= r <-> d * d <= r * r).
Proof.
  intros Hr. split; intros H.
  - assert (- r <= d <= r) as [H1 H2] by (case_abs; lra).
    assert (0 <= (r - d) * (r + d)) by (apply Rmult_le_pos; lra). lra.
  - destruct (Rle_dec (Rabs d) r) as [|Hn]; [assumption|]. exfalso.
    apply Rnot_le_lt in Hn.
    assert (r * r < Rabs d * Rabs d)
      by (apply Rmult_le_0_lt_compat; lra).
    assert (Rabs d * Rabs d = d * d) by (case_abs; ring). lra.
Qed.

(** The distance to a horizontal segment from (ax, ay) to (bx, ay). *)
Lemma horizontal_segment_near (x y ax bx ay : R) :
  Rmin ax bx <= x <= Rmax ax bx -> Rabs (y - ay) <= 6 ->
  distanceToLineSegment x y ax ay bx ay <= 6.
Proof.
  intros Hx Hy.
  assert (Hs : exists s, 0 <= s <= 1 /\ ax + s * (bx - ax) = x).
  { destruct (Req_dec bx ax) as [E|E].
    - exists 0. subst bx. split; [lra|]. case_minmax; lra.
    - exists ((x - ax) / (bx - ax)). split; [|field; lra].
      destruct (Rlt_dec ax bx).
      + assert (0 <= (x - ax) / (bx - ax))
          by (apply Rmult_le_pos;
              [|left; apply Rinv_0_lt_compat]; case_minmax; lra).
        assert ((x - ax) / (bx - ax) <= 1).
        { apply (Rmult_le_reg_r (bx - ax)); [lra|].
          replace ((x - ax) / (bx - ax) * (bx - ax)) with (x - ax)
            by (field; lra).
          case_minmax; lra. }
        lra.
      + replace ((x - ax) / (bx - ax)) with ((ax - x) / (ax - bx))
          by (field; lra).
        assert (0 <= (ax - x) / (ax - bx))
          by (apply Rmult_le_pos;
              [|left; apply Rinv_0_lt_compat]; case_minmax; lra).
        assert ((ax - x) / (ax - bx) <= 1).
        { apply (Rmult_le_reg_r (ax - bx)); [lra|].
          replace ((ax - x) / (ax - bx) * (ax - bx)) with (ax - x)
            by (field; lra).
          case_minmax; lra. }
        lra. }
  destruct Hs as (s & Hs & E).
  eapply Rle_trans; [apply (distanceToLineSegment_least x y ax ay bx ay s Hs)|].
  rewrite E. apply pointDistance_le; [lra|].
  replace (ay + s * (ay - ay)) with ay by ring.
  apply Rabs_le_sqr in Hy; lra.
Qed.

Lemma horizontal_segment_far (x y ax bx ay : R) :
  x < Rmin ax bx - 6 \/ Rmax ax bx + 6 < x \/ 6 < Rabs (y - ay) ->
  ~ distanceToLineSegment x y ax ay bx ay <= 6.
Proof.
  intros Hout Hd.
  destruct (distanceToLineSegment_attained x y ax ay bx ay) as (t & Ht & E).
  rewrite E in Hd. apply pointDistance_le in Hd; [|lra].
  replace (ay + t * (ay - ay)) with ay in Hd by ring.
  set (q := ax + t * (bx - ax)) in *.
  assert (Hq : Rmin ax bx <= q <= Rmax ax bx).
  { unfold q. destruct (Rle_dec ax bx).
    - assert (0 <= t * (bx - ax)) by (apply Rmult_le_pos; lra).
      assert (t * (bx - ax) <= 1 * (bx - ax))
        by (apply Rmult_le_compat_r; lra).
      case_minmax; lra.
    - assert (0 <= t * (ax - bx)) by (apply Rmult_le_pos; lra).
      assert (t * (ax - bx) <= 1 * (ax - bx))
        by (apply Rmult_le_compat_r; lra).
      case_minmax; lra. }
  pose proof (Rle_0_sqr (x - q)) as Sx.
  pose proof (Rle_0_sqr (y - ay)) as Sy. unfold Rsqr in *.
  assert (Hx6 : Rabs (x - q) <= 6) by (apply Rabs_le_sqr; lra).
  assert (Hy6 : Rabs (y - ay) <= 6) by (apply Rabs_le_sqr; lra).
  destruct Hout as [Ho|[Ho|Ho]]; [| |lra].
  - revert Hx6. case_abs; lra.
  - revert Hx6. case_abs; lra.
Qed.

Lemma horizontalRay_snapshot (this : HorizontalRay.State) chart series :
  _chart this = Some chart -> _series this = Some series ->
  exists data,
    HorizontalRay.updateAllViews this = Ok (paneView_update data this) /\
    HorizontalRay.anchor data =
      {| pt_x := timeToCoordinate (timeScale chart)
                   (HorizontalRay.time (_anchors this));
         pt_y := priceToCoordinate series
                   (HorizontalRay.price (_anchors this)) |} /\
    HorizontalRay.endPoint data =
      match timeToCoordinate (timeScale chart)
              (HorizontalRay.time (_anchors this)),
            priceToCoordinate series
              (HorizontalRay.price (_anchors this)) with
      | Some _, Some anchorY =>
          {| pt_x := Some (width (timeScale chart)); pt_y := Some anchorY |}
      | _, _ => {| pt_x := None; pt_y := None |}
      end /\
    HorizontalRay.d_externalId data
    = HorizontalRay.externalId (_options this).
Proof.
  intros Hc Hs.
  unfold HorizontalRay.updateAllViews, updateAllViews_guarded,
    HorizontalRay._calculateRendererData.
  rewrite (isAttached_true this chart series Hc Hs), Hc, Hs. simpl.
  eexists. split; [reflexivity|]. repeat split.
Qed.

(** X4. The hit region of a horizontal ray, as the primitive builds it
    and the renderer tests it.  With the anchor mapped to the pixel
    (ax, ay) in a chart of width W, after [updateAllViews] every point
    whose x lies between ax and W (in either order) and whose y is within
    6 pixels of ay is a hit carrying the ray's external id, and no point
    more than 6 pixels beyond that span, or more than 6 pixels above or
    below the ray, is a hit. *)
Theorem horizontalRay_hit_region (this : HorizontalRay.State)
    (ax ay W x y : R) :
  ray_host ax ay W this ->
  (Rmin ax W <= x <= Rmax ax W -> Rabs (y - ay) <= 6 ->
   (this' ← HorizontalRay.updateAllViews this;
    mret (HorizontalRay.hitTest this' x y))
   = Ok (Some (HoveredItem "pointer"
                 (HorizontalRay.externalId (_options this)) "normal"))) /\
  (x < Rmin ax W - 6 \/ Rmax ax W + 6 < x \/ 6 < Rabs (y - ay) ->
   (this' ← HorizontalRay.updateAllViews this;
    mret (HorizontalRay.hitTest this' x y))
   = Ok None).
Proof.
  intros (chart & series & Hc & Hs & Hx & Hy & Hw).
  destruct (horizontalRay_snapshot this chart series Hc Hs)
    as (data & -> & Ha & He & Hi).
  rewrite Hx, Hy, Hw in *.
  unfold HorizontalRay.hitTest, mbind, mret, Exc_bind, Exc_ret.
  cbn [_data paneView_update].
  rewrite horizontalRay_hitTest_single, Ha, He, Hi.
  cbn [pt_x pt_y]. split.
  - intros H1 H2. rewrite decide_True; [reflexivity|].
    apply horizontal_segment_near; assumption.
  - intros H1. rewrite decide_False; [reflexivity|].
    apply horizontal_segment_far; assumption.
Qed.

Lemma horizontalRay_hit_region_witness :
  (this' ← HorizontalRay.updateAllViews ray_example;
   mret (HorizontalRay.hitTest this' 120 103))
  = Ok (Some (HoveredItem "pointer" "" "normal")).
Proof.
  destruct (horizontalRay_hit_region ray_example 50 (300 - 200) 200 120 103)
    as [H _].
  - do 2 eexists. repeat split; reflexivity.
  - apply H.
    + unfold Rmin, Rmax. destruct (Rle_dec 50 200); lra.
    + unfold Rabs. destruct (Rcase_abs (103 - (300 - 200))); lra.
Defined.

(** ** Trend line: extension from inside the chart *)




(** ** Rectangle and position: hit regions *)

Lemma isNearHorizontalLine_spec (px py x1 x2 y tolerance : R) :
  isNearHorizontalLine px py x1 x2 y tolerance = true
  <-> Rmin x1 x2 <= px <= Rmax x1 x2 /\ Rabs (py - y) <= tolerance.
Proof.
  unfold isNearHorizontalLine, Math.min, Math.max, Math.abs. cbv zeta.
  rewrite !andb_true_iff, !bool_decide_eq_true. split.
  - intros [[H1 H2] H3]. split; [split|]; lra.
  - intros [[H1 H2] H3]. split; [split|]; lra.
Qed.

Lemma isNearVerticalLine_spec (px py x y1 y2 tolerance : R) :
  isNearVerticalLine px py x y1 y2 tolerance = true
  <-> Rmin y1 y2 <= py <= Rmax y1 y2 /\ Rabs (px - x) <= tolerance.
Proof.
  unfold isNearVerticalLine, Math.min, Math.max, Math.abs. cbv zeta.
  rewrite !andb_true_iff, !bool_decide_eq_true. split.
  - intros [[H1 H2] H3]. split; [split|]; lra.
  - intros [[H1 H2] H3]. split; [split|]; lra.
Qed.


Lemma not_true_false (b : bool) : ~ b = true -> b = false.
Proof. destruct b; [intros H; exfalso; apply H; reflexivity|reflexivity]. Qed.

Lemma Rabs_le_inv (d r : R) : Rabs d <= r -> - r <= d <= r.
Proof. intros H. case_abs; lra. Qed.

Lemma rectangle_body_interior (data : Rectangle.RectangleRendererData)
    (x y : R) :
  Rectangle.d_showMiddleLine data = false ->
  Rectangle.drawLeft data + 6 < x < Rectangle.drawRight data - 6 ->
  Rectangle.drawTop data + 6 < y < Rectangle.drawBottom data - 6 ->
  Rectangle.hitTestBody data x y = None.
Proof.
  intros Hm Hx Hy. unfold Rectangle.hitTestBody. cbv zeta. rewrite Hm.
  unfold Rectangle.HIT_TEST_TOLERANCE.
  rewrite (not_true_false (isNearHorizontalLine x y _ _ (Rectangle.drawTop data) 6)).
  2:{ rewrite isNearHorizontalLine_spec. intros [_ H].
      apply Rabs_le_inv in H. lra. }
  rewrite (not_true_false (isNearHorizontalLine x y _ _ (Rectangle.drawBottom data) 6)).
  2:{ rewrite isNearHorizontalLine_spec. intros [_ H].
      apply Rabs_le_inv in H. lra. }
  rewrite (not_true_false (isNearVerticalLine x y (Rectangle.drawLeft data) _ _ 6)).
  2:{ rewrite isNearVerticalLine_spec. intros [_ H].
      apply Rabs_le_inv in H. lra. }
  rewrite (not_true_false (isNearVerticalLine x y (Rectangle.drawRight data) _ _ 6)).
  2:{ rewrite isNearVerticalLine_spec. intros [_ H].
      apply Rabs_le_inv in H. lra. }
  rewrite !andb_false_r. reflexivity.
Qed.

(** X6. The rectangle is hollow to the pointer: with no middle line, a
    point inside the drawn rectangle and more than 6 pixels away from each
    of its four sides is not a hit of a rectangle that is not selected,
    in any extend mode; the renderer variant without handles reports no
    hit there whether selected or not. *)
Theorem rectangle_interior_not_hit (data : Rectangle.RectangleRendererData)
    (x y : R) :
  Rectangle.d_showMiddleLine data = false ->
  Rectangle.drawLeft data + 6 < x < Rectangle.drawRight data - 6 ->
  Rectangle.drawTop data + 6 < y < Rectangle.drawBottom data - 6 ->
  (Rectangle.d_selected data = false ->
   Rectangle.renderer_hitTest (Some data) x y = None) /\
  Rectangle.variant_hitTest (Some data) x y = None.
Proof.
  intros Hm Hx Hy.
  pose proof (rectangle_body_interior data x y Hm Hx Hy) as Hb.
  split.
  - intros Hs. unfold Rectangle.renderer_hitTest. rewrite Hs. exact Hb.
  - exact Hb.
Qed.

Lemma rectangle_interior_not_hit_witness :
  Rectangle.variant_hitTest (Some selected_rectangle) 50 35 = None.
Proof.
  apply (rectangle_interior_not_hit selected_rectangle 50 35).
  - reflexivity.
  - simpl; lra.
  - simpl; lra.
Defined.




(** ** Drawing: the canvas state stack *)

Lemma stackDepth_app (d : nat) (a b : list CanvasCall) :
  stackDepth d (a ++ b) = stackDepth d a ≫= fun d' => stackDepth d' b.
Proof.
  revert d. induction a as [|c a IH]; intros d; [reflexivity|].
  destruct c; cbn [app stackDepth]; try apply IH.
  destruct d; [reflexivity|apply IH].
Qed.

Lemma neutral_app (a b : list CanvasCall) :
  neutral a -> neutral b -> neutral (a ++ b).
Proof.
  intros Ha Hb d. rewrite stackDepth_app, Ha. apply Hb.
Qed.

Lemma neutral_nil : neutral [].
Proof. intros d. reflexivity. Qed.

Lemma neutral_if (b : bool) (x y : list CanvasCall) :
  neutral x -> neutral y -> neutral (if b then x else y).
Proof. destruct b; auto. Qed.

Lemma neutral_balanced (calls : list CanvasCall) :
  neutral calls -> balanced calls.
Proof. intros H. apply H. Qed.

Lemma neutral_drawAnchorPoint (x y : R) (color : string) (pixelRatio : R) :
  neutral (_drawAnchorPoint x y color pixelRatio).
Proof. intros d. reflexivity. Qed.

Create HintDb canvas.
#[local] Hint Resolve neutral_app neutral_nil neutral_if
  neutral_drawAnchorPoint : canvas.

Ltac neutral_block := intros ?d; reflexivity.

Lemma trendLine_draw_neutral (data : option TrendLine.TrendLineRendererData)
    (scope : BitmapCoordinatesRenderingScope) :
  neutral (TrendLine.draw data scope).
Proof.
  unfold TrendLine.draw, TrendLine._drawImpl.
  destruct data as [data|]; [|apply neutral_nil].
  destruct (TrendLine.linePoints data) as [[[[a|] [b|]] [c|]] [d|]];
    try apply neutral_nil.
  cbv zeta. apply neutral_app; [|apply neutral_app].
  - neutral_block.
  - destruct (TrendLine.d_showLabels data), (pt_x (TrendLine.p1 data)),
      (pt_y (TrendLine.p1 data)), (pt_x (TrendLine.p2 data)),
      (pt_y (TrendLine.p2 data)); neutral_block.
  - destruct (TrendLine.d_selected data), (pt_x (TrendLine.p1 data)),
      (pt_y (TrendLine.p1 data)), (pt_x (TrendLine.p2 data)),
      (pt_y (TrendLine.p2 data)); auto with canvas.
Qed.

Lemma rectangle_drawBody_neutral (data : Rectangle.RectangleRendererData)
    (scope : BitmapCoordinatesRenderingScope) :
  neutral (Rectangle.drawBody data scope).
Proof.
  unfold Rectangle.drawBody. cbv zeta.
  intros d. rewrite !stackDepth_app. cbn [stackDepth mbind option_bind].
  destruct (bool_decide (Rectangle.d_extendMode data <> Rectangle.left)
            && bool_decide (Rectangle.d_extendMode data <> Rectangle.both));
  destruct (bool_decide (Rectangle.d_extendMode data <> Rectangle.right)
            && bool_decide (Rectangle.d_extendMode data <> Rectangle.both));
  destruct (Rectangle.d_showMiddleLine data);
  destruct (Rectangle.d_showLabel data
            && (0 <? String.length (Rectangle.d_labelText data))%nat);
  reflexivity.
Qed.

Lemma rectangle_draw_neutral (data : option Rectangle.RectangleRendererData)
    (scope : BitmapCoordinatesRenderingScope) :
  neutral (Rectangle.draw data scope)
  /\ neutral (Rectangle.variant_drawImpl data scope).
Proof.
  unfold Rectangle.draw, Rectangle._drawImpl, Rectangle.variant_drawImpl.
  destruct data as [data|]; [|split; apply neutral_nil].
  cbv zeta.
  split; (apply neutral_app; [apply rectangle_drawBody_neutral|]);
    destruct (Rectangle.d_selected data), (pt_x (Rectangle.p1 data)),
      (pt_y (Rectangle.p1 data)), (pt_x (Rectangle.p2 data)),
      (pt_y (Rectangle.p2 data)); auto 20 with canvas.
Qed.

Lemma longPosition_draw_neutral
    (data : option LongPosition.LongPositionRendererData)
    (scope : BitmapCoordinatesRenderingScope) :
  neutral (LongPosition.draw data scope).
Proof.
  unfold LongPosition.draw, LongPosition._drawImpl.
  destruct data as [data|]; [|apply neutral_nil].
  destruct (pt_x (LongPosition.entry data)), (pt_y (LongPosition.entry data)),
    (LongPosition.targetY data), (LongPosition.stopY data),
    (LongPosition.rightX data); try apply neutral_nil.
  cbv zeta.
  apply neutral_app; [|apply neutral_app; [|apply neutral_app]].
  - neutral_block.
  - destruct (LongPosition.direction data) as [[|]|];
      apply neutral_app; neutral_block.
  - neutral_block.
  - auto 20 with canvas.
Qed.

Lemma horizontalLine_draw_neutral
    (data : option HorizontalLine.HorizontalLineRendererData)
    (scope : BitmapCoordinatesRenderingScope) :
  neutral (HorizontalLine.draw data scope).
Proof.
  unfold HorizontalLine.draw, HorizontalLine._drawImpl.
  destruct data as [data|]; [|apply neutral_nil].
  destruct (HorizontalLine.y data); [|apply neutral_nil].
  cbv zeta. apply neutral_app; [neutral_block|auto with canvas].
Qed.

Lemma horizontalRay_draw_neutral
    (data : option HorizontalRay.HorizontalRayRendererData)
    (scope : BitmapCoordinatesRenderingScope) :
  neutral (HorizontalRay.draw data scope).
Proof.
  unfold HorizontalRay.draw, HorizontalRay._drawImpl.
  destruct data as [data|]; [|apply neutral_nil].
  destruct (pt_x (HorizontalRay.anchor data)),
    (pt_y (HorizontalRay.anchor data)),
    (pt_x (HorizontalRay.endPoint data)),
    (pt_y (HorizontalRay.endPoint data)); try apply neutral_nil.
  cbv zeta. apply neutral_app; [neutral_block|auto with canvas].
Qed.

Lemma drawLineAndLabel_neutral (scope : BitmapCoordinatesRenderingScope)
    (x chartHeight : R) (lineColor : string) (lineWidth : R)
    (lineStyle : LineStyle) (showTimeLabel : bool)
    (timeLabel labelBackgroundColor labelTextColor : string) :
  neutral (VerticalLine.drawLineAndLabel scope x chartHeight lineColor
             lineWidth lineStyle showTimeLabel timeLabel
             labelBackgroundColor labelTextColor).
Proof.
  unfold VerticalLine.drawLineAndLabel. cbv zeta.
  apply neutral_app; [neutral_block|].
  apply neutral_if; [neutral_block|apply neutral_nil].
Qed.

Lemma verticalLine_draw_neutral
    (current : option VerticalLine.VerticalLineRendererData)
    (earlier : option VerticalLine.EarlierRendererData)
    (scope : BitmapCoordinatesRenderingScope) :
  neutral (VerticalLine.draw current scope)
  /\ neutral (VerticalLine.earlier_drawImpl earlier scope).
Proof.
  split.
  - unfold VerticalLine.draw, VerticalLine._drawImpl.
    destruct current as [data|]; [|apply neutral_nil].
    destruct (VerticalLine.x data); [|apply neutral_nil].
    cbv zeta. apply neutral_app;
      [apply drawLineAndLabel_neutral|auto with canvas].
  - unfold VerticalLine.earlier_drawImpl.
    destruct earlier as [data|]; [|apply neutral_nil].
    destruct (VerticalLine.e_x data); [|apply neutral_nil].
    apply drawLineAndLabel_neutral.
Qed.

Lemma drawBatch_neutral (chs : R) (b : BackgroundRegions.Batch) :
  neutral (BackgroundRegions.drawBatch chs b).
Proof.
  unfold BackgroundRegions.drawBatch.
  destruct (BackgroundRegions.currentColor b),
    (BackgroundRegions.batchStartX b), (BackgroundRegions.batchEndX b);
    neutral_block.
Qed.

Lemma batch_fold_neutral (h chs : R)
    (l : list BackgroundRegions.BackgroundRegionRendererData)
    (calls : list CanvasCall) (b : BackgroundRegions.Batch) :
  neutral calls ->
  neutral (fst (fold_left (BackgroundRegions.batchStep h chs) l (calls, b))).
Proof.
  revert calls b. induction l as [|r l IH]; intros calls b Hn; [exact Hn|].
  cbn [fold_left]. unfold BackgroundRegions.batchStep at 2.
  destruct (bool_decide _ && _); apply IH; [exact Hn|].
  apply neutral_app; [exact Hn|apply drawBatch_neutral].
Qed.

Lemma backgroundRegions_draw_neutral
    (data : option BackgroundRegions.BackgroundRegionsRendererData)
    (scope : BitmapCoordinatesRenderingScope) :
  neutral (BackgroundRegions.draw data scope).
Proof.
  unfold BackgroundRegions.draw, BackgroundRegions._drawImpl.
  destruct data as [data|]; [|apply neutral_nil].
  destruct (bool_decide _); [apply neutral_nil|]. cbv zeta.
  pose proof (batch_fold_neutral (horizontalPixelRatio scope)
                (Math.round (BackgroundRegions.chartHeight data
                             * verticalPixelRatio scope))
                (BackgroundRegions.regions data) []
                {| BackgroundRegions.currentColor := None;
                   BackgroundRegions.batchStartX := None;
                   BackgroundRegions.batchEndX := None |} neutral_nil) as H.
  destruct (fold_left _ _ _) as [calls b]. cbn [fst] in H.
  apply neutral_app; [exact H|apply drawBatch_neutral].
Qed.

(** X8. Every renderer leaves the canvas state stack as it found it:
    in the calls that [draw] issues, for any snapshot (or none) and any
    pixel ratios, each [save] is closed by a later [restore] and no
    [restore] comes before its [save].  This holds for the seven
    renderers and for the two earlier renderer variants. *)
Theorem draw_balanced (scope : BitmapCoordinatesRenderingScope) :
  (forall data, balanced (TrendLine.draw data scope)) /\
  (forall data, balanced (Rectangle.draw data scope)) /\
  (forall data, balanced (Rectangle.variant_drawImpl data scope)) /\
  (forall data, balanced (LongPosition.draw data scope)) /\
  (forall data, balanced (HorizontalLine.draw data scope)) /\
  (forall data, balanced (HorizontalRay.draw data scope)) /\
  (forall data, balanced (VerticalLine.draw data scope)) /\
  (forall data, balanced (VerticalLine.earlier_drawImpl data scope)) /\
  (forall data, balanced (BackgroundRegions.draw data scope)).
Proof.
  repeat split; intros data; apply neutral_balanced.
  - apply trendLine_draw_neutral.
  - apply rectangle_draw_neutral.
  - apply rectangle_draw_neutral.
  - apply longPosition_draw_neutral.
  - apply horizontalLine_draw_neutral.
  - apply horizontalRay_draw_neutral.
  - apply (verticalLine_draw_neutral data None).
  - apply (verticalLine_draw_neutral None data).
  - apply backgroundRegions_draw_neutral.
Qed.

(** ** Background regions: the snapshot and what is painted *)

(** X9. The snapshot of the background regions: for an attached
    primitive [_calculateRendererData] returns normally, and the regions
    of the snapshot are the data points whose time the time scale maps,
    in the order of the data, each with the chart's bar spacing as its
    width; points whose time is not on the time scale are skipped.  The
    snapshot's height is the pane's, or 0 when there is no data. *)
Theorem backgroundRegions_snapshot (this : BackgroundRegions.State)
    (chart : Chart) (series : Series) :
  _chart this = Some chart -> _series this = Some series ->
  exists data,
    BackgroundRegions._calculateRendererData this = Ok data /\
    BackgroundRegions.regions data
    = omap (regionOf (timeScale chart)) (_anchors this) /\
    BackgroundRegions.chartHeight data
    = match _anchors this with
      | [] => 0
      | _ :: _ => paneHeight series
      end /\
    (length (BackgroundRegions.regions data) <= length (_anchors this))%nat /\
    Forall (fun r => BackgroundRegions.barWidth r
                     = barSpacing (timeScale chart))
      (BackgroundRegions.regions data).
Proof.
  intros Hc Hs. unfold BackgroundRegions._calculateRendererData.
  rewrite (isAttached_true this chart series Hc Hs), Hc, Hs.
  assert (Hlen : forall l : list BackgroundRegions.BackgroundRegionData,
             (length (omap (regionOf (timeScale chart)) l) <= length l)%nat).
  { induction l as [|p l IH]; [reflexivity|]. cbn [omap list_omap].
    destruct (regionOf (timeScale chart) p); simpl; lia. }
  assert (Hw : forall l : list BackgroundRegions.BackgroundRegionData,
             Forall (fun r => BackgroundRegions.barWidth r
                              = barSpacing (timeScale chart))
               (omap (regionOf (timeScale chart)) l)).
  { induction l as [|p l IH]; [constructor|]. cbn [omap list_omap].
    destruct (regionOf (timeScale chart) p) as [r|] eqn:E; [|exact IH].
    constructor; [|exact IH]. unfold regionOf in E.
    destruct (timeToCoordinate _ _); [|discriminate].
    injection E as <-. reflexivity. }
  destruct (_anchors this) as [|p l] eqn:Ea.
  - simpl. eexists. split; [reflexivity|].
    split; [reflexivity|]. split; [reflexivity|].
    split; [apply (Hlen [])|apply (Hw [])].
  - cbn [length bool_decide negb orb]. simpl.
    eexists. split; [reflexivity|].
    cbn [BackgroundRegions.regions BackgroundRegions.chartHeight].
    pose proof (regions_loop (timeScale chart) (p :: l) []) as E.
    cbn [fold_left app] in E. rewrite E.
    split; [reflexivity|]. split; [reflexivity|].
    split; [apply (Hlen (p :: l))|apply (Hw (p :: l))].
Qed.

Lemma backgroundRegions_snapshot_witness :
  exists data,
    BackgroundRegions._calculateRendererData
      (attached example_param regions_example) = Ok data /\
    BackgroundRegions.regions data
    = omap (regionOf (timeScale (param_chart example_param)))
        (_anchors (attached example_param regions_example)) /\
    BackgroundRegions.chartHeight data
    = match _anchors (attached example_param regions_example) with
      | [] => 0
      | _ :: _ => paneHeight (param_series example_param)
      end /\
    (length (BackgroundRegions.regions data)
     <= length (_anchors (attached example_param regions_example)))%nat /\
    Forall (fun r => BackgroundRegions.barWidth r
                     = barSpacing (timeScale (param_chart example_param)))
      (BackgroundRegions.regions data).
Proof.
  apply (backgroundRegions_snapshot
           (attached example_param regions_example)
           (param_chart example_param) (param_series example_param));
    reflexivity.
Defined.

Section Fills.
Variables h chs : R.

(** The loop over the regions that follow a batch issues the calls of
    [fillsFrom], the last of them after the loop. *)
Lemma run_fills (rest : list BackgroundRegions.BackgroundRegionRendererData)
    (first last : BackgroundRegions.BackgroundRegionRendererData)
    (calls : list CanvasCall) :
  BackgroundRegions.r_color last = BackgroundRegions.r_color first ->
  let r := fold_left (BackgroundRegions.batchStep h chs) rest
             (calls, batchOf h first last) in
  fst r ++ BackgroundRegions.drawBatch chs (snd r)
  = calls ++ flat_map (paint chs) (fillsFrom h first last rest).
Proof.
  revert first last calls.
  induction rest as [|r' rest IH]; intros first last calls Hc; cbv zeta.
  - reflexivity.
  - cbn [fold_left fillsFrom].
    destruct (decide (continues h last r')) as [Hk|Hk].
    + rewrite (step_continue h chs first last r' calls Hc Hk).
      apply IH. destruct Hk as [Hk _]. congruence.
    + rewrite (step_break h chs first last r' calls Hc Hk).
      pose proof (IH r' r'
                    (calls ++ BackgroundRegions.drawBatch chs
                                (batchOf h first last)) eq_refl) as E.
      cbv zeta in E. rewrite E. cbn [flat_map].
      rewrite <- app_assoc. reflexivity.
Qed.

Lemma fillsFrom_length
    (rest : list BackgroundRegions.BackgroundRegionRendererData)
    (first last : BackgroundRegions.BackgroundRegionRendererData) :
  (0 < length (fillsFrom h first last rest) <= S (length rest))%nat.
Proof.
  revert first last. induction rest as [|r' rest IH]; intros first last.
  - simpl. lia.
  - cbn [fillsFrom]. destruct (decide (continues h last r')).
    + specialize (IH first r'). simpl. lia.
    + specialize (IH r' r'). simpl. lia.
Qed.

(** Every span runs from the left edge of a region of its colour to the
    right edge of a region of its colour. *)
Lemma fillsFrom_edges
    (all rest : list BackgroundRegions.BackgroundRegionRendererData)
    (first last : BackgroundRegions.BackgroundRegionRendererData) :
  In first all -> In last all -> incl rest all ->
  BackgroundRegions.r_color last = BackgroundRegions.r_color first ->
  Forall (fun f => exists a b,
            In a all /\ In b all /\
            BackgroundRegions.r_color a = f_color f /\
            BackgroundRegions.r_color b = f_color f /\
            f_left f = BackgroundRegions.leftX h a /\
            f_right f = BackgroundRegions.rightX h b)
    (fillsFrom h first last rest).
Proof.
  revert first last.
  induction rest as [|r' rest IH]; intros first last Hf Hl Hincl Hc.
  - constructor; [|constructor]. exists first, last. repeat split; auto.
  - assert (Hr' : In r' all) by (apply Hincl; left; reflexivity).
    assert (Hrest : incl rest all)
      by (intros q Hq; apply Hincl; right; exact Hq).
    cbn [fillsFrom]. destruct (decide (continues h last r')) as [Hk|Hk].
    + apply IH; try assumption. destruct Hk as [Hk _]. congruence.
    + constructor; [|apply IH; auto].
      exists first, last. repeat split; auto.
Qed.

Hypothesis h_nonneg : 0 <= h.

Lemma edges_ordered (r : BackgroundRegions.BackgroundRegionRendererData) :
  0 <= BackgroundRegions.barWidth r ->
  BackgroundRegions.leftX h r <= BackgroundRegions.rightX h r.
Proof.
  intros Hw. unfold BackgroundRegions.leftX, BackgroundRegions.rightX.
  cbv zeta. apply round_mono.
  assert (0 <= BackgroundRegions.barWidth r * h)
    by (apply Rmult_le_pos; assumption).
  lra.
Qed.

Lemma edges_mono (r r' : BackgroundRegions.BackgroundRegionRendererData) :
  BackgroundRegions.x r <= BackgroundRegions.x r' ->
  BackgroundRegions.barWidth r' = BackgroundRegions.barWidth r ->
  BackgroundRegions.leftX h r <= BackgroundRegions.leftX h r'
  /\ BackgroundRegions.rightX h r <= BackgroundRegions.rightX h r'.
Proof.
  intros Hx Hw. unfold BackgroundRegions.leftX, BackgroundRegions.rightX.
  cbv zeta. rewrite Hw.
  assert (BackgroundRegions.x r * h <= BackgroundRegions.x r' * h)
    by (apply Rmult_le_compat_r; assumption).
  split; apply round_mono; lra.
Qed.

Lemma fillsFrom_cover
    (rest : list BackgroundRegions.BackgroundRegionRendererData)
    (first last : BackgroundRegions.BackgroundRegionRendererData) :
  0 <= BackgroundRegions.barWidth last ->
  ascending last rest ->
  BackgroundRegions.r_color last = BackgroundRegions.r_color first ->
  BackgroundRegions.leftX h first <= BackgroundRegions.leftX h last ->
  let fills := fillsFrom h first last rest in
  (exists f fills', fills = f :: fills' /\
     f_color f = BackgroundRegions.r_color first /\
     f_left f = BackgroundRegions.leftX h first /\
     BackgroundRegions.rightX h last <= f_right f) /\
  Forall (fun r => Exists (fun f => covers h f r) fills) rest /\
  Forall (fun f => f_left f <= f_right f) fills.
Proof.
  revert first last.
  induction rest as [|r' rest IH]; intros first last Hw Hasc Hc Hl;
    cbv zeta.
  - cbn [fillsFrom]. split; [|split].
    + eexists _, []. split; [reflexivity|].
      cbn [f_color f_left f_right]. repeat split; lra.
    + constructor.
    + constructor; [|constructor]. cbn [f_left f_right].
      pose proof (edges_ordered last Hw). lra.
  - destruct Hasc as (Hx & Hw' & Hasc). cbn [fillsFrom].
    destruct (edges_mono last r' Hx Hw') as [Hml Hmr].
    assert (Hw2 : 0 <= BackgroundRegions.barWidth r') by (rewrite Hw'; exact Hw).
    destruct (decide (continues h last r')) as [Hk|Hk].
    + destruct (IH first r' Hw2 Hasc) as ((f & fills' & E & Hfc & Hfl & Hfr)
                                           & Hcov & Hord).
      { destruct Hk as [Hk _]. congruence. }
      { lra. }
      split; [|split].
      * exists f, fills'. repeat split; try assumption. lra.
      * constructor; [|exact Hcov]. rewrite E. apply Exists_cons_hd.
        unfold covers. destruct Hk as [Hk _].
        split; [congruence|]. split; lra.
      * exact Hord.
    + destruct (IH r' r' Hw2 Hasc eq_refl) as ((f & fills' & E & Hfc & Hfl & Hfr)
                                                & Hcov & Hord).
      { lra. }
      split; [|split].
      * eexists _, _. split; [reflexivity|].
        cbn [f_color f_left f_right]. repeat split; lra.
      * constructor.
        -- apply Exists_cons_tl. rewrite E. apply Exists_cons_hd.
           unfold covers. split; [assumption|]. split; lra.
        -- eapply Forall_impl; [exact Hcov|].
           intros r Hr. apply Exists_cons_tl. exact Hr.
      * constructor; [|exact Hord]. cbn [f_left f_right].
        pose proof (edges_ordered last Hw). lra.
Qed.
End Fills.

(** X10. What the background renderer paints.  For regions in ascending
    order of x with one non-negative bar width, and a non-negative
    horizontal pixel ratio, the calls of [draw] are one
    [fillStyle]/[fillRect] pair per painted span, of full chart height;
    there is at least one span and at most one per region; every region
    lies inside a span of its own colour; no span has a negative width;
    and every span runs from the left edge of a region of its colour to
    the right edge of a region of its colour. *)
Theorem background_fills_cover (scope : BitmapCoordinatesRenderingScope)
    (chartHeight : R) (r : BackgroundRegions.BackgroundRegionRendererData)
    (rest : list BackgroundRegions.BackgroundRegionRendererData) :
  0 <= horizontalPixelRatio scope ->
  0 <= BackgroundRegions.barWidth r ->
  ascending r rest ->
  exists fills,
    BackgroundRegions.draw (Some (regionsData (r :: rest) chartHeight)) scope
    = flat_map (paint (Math.round (chartHeight * verticalPixelRatio scope)))
        fills /\
    (0 < length fills <= length (r :: rest))%nat /\
    Forall (fun q => Exists (fun f => covers (horizontalPixelRatio scope) f q)
                       fills) (r :: rest) /\
    Forall (fun f => f_left f <= f_right f) fills /\
    Forall (fun f => exists a b,
              In a (r :: rest) /\ In b (r :: rest) /\
              BackgroundRegions.r_color a = f_color f /\
              BackgroundRegions.r_color b = f_color f /\
              f_left f = BackgroundRegions.leftX (horizontalPixelRatio scope) a /\
              f_right f
              = BackgroundRegions.rightX (horizontalPixelRatio scope) b)
      fills.
Proof.
  intros Hh Hw Hasc.
  exists (fillsFrom (horizontalPixelRatio scope) r r rest).
  split; [|split; [|split; [|split]]].
  - rewrite draw_nonempty by discriminate. cbv zeta.
    cbn [fold_left]. rewrite step_first.
    apply (run_fills (horizontalPixelRatio scope) _ rest r r [] eq_refl).
  - apply fillsFrom_length.
  - destruct (fillsFrom_cover (horizontalPixelRatio scope) Hh rest r r
                Hw Hasc eq_refl (Rle_refl _))
      as ((f & fills' & E & Hfc & Hfl & Hfr) & Hcov & _).
    constructor; [|exact Hcov].
    rewrite E. apply Exists_cons_hd. unfold covers.
    split; [assumption|]. split; lra.
  - apply (fillsFrom_cover (horizontalPixelRatio scope) Hh rest r r
             Hw Hasc eq_refl (Rle_refl _)).
  - apply fillsFrom_edges; [left; reflexivity|left; reflexivity| |reflexivity].
    intros q Hq. right. exact Hq.
Qed.

Lemma background_fills_cover_witness :
  exists fills,
    BackgroundRegions.draw
      (Some (regionsData [region 10 "red" 10; region 20 "red" 10;
                          region 40 "red" 10] 300)) (scope_of 1 1)
    = flat_map (paint (Math.round (300 * 1))) fills /\
    (0 < length fills <= 3)%nat /\
    Forall (fun q => Exists (fun f => covers 1 f q) fills)
      [region 10 "red" 10; region 20 "red" 10; region 40 "red" 10] /\
    Forall (fun f => f_left f <= f_right f) fills /\
    Forall (fun f => exists a b,
              In a [region 10 "red" 10; region 20 "red" 10;
                    region 40 "red" 10] /\
              In b [region 10 "red" 10; region 20 "red" 10;
                    region 40 "red" 10] /\
              BackgroundRegions.r_color a = f_color f /\
              BackgroundRegions.r_color b = f_color f /\
              f_left f = BackgroundRegions.leftX 1 a /\
              f_right f = BackgroundRegions.rightX 1 b)
      fills.
Proof.
  apply (background_fills_cover (scope_of 1 1) 300 (region 10 "red" 10)
           [region 20 "red" 10; region 40 "red" 10]).
  - simpl; lra.
  - simpl; lra.
  - simpl. repeat split; lra.
Defined.

(** ** Background regions: from the data to the canvas *)

Lemma omap_In {A B : Type} (f : A -> option B) (l : list A) (a : A) (b : B) :
  In a l -> f a = Some b -> In b (omap f l).
Proof.
  induction l as [|c l IH]; intros Hin Hf; [contradiction|].
  cbn [omap list_omap]. destruct Hin as [->|Hin].
  - rewrite Hf. left. reflexivity.
  - destruct (f c); [right|]; apply IH; assumption.
Qed.

Lemma regions_uniform_width (timeScale : TimeScale)
    (data : list BackgroundRegions.BackgroundRegionData) :
  Forall (fun r => BackgroundRegions.barWidth r = barSpacing timeScale)
    (omap (regionOf timeScale) data).
Proof.
  induction data as [|p l IH]; [constructor|]. cbn [omap list_omap].
  destruct (regionOf timeScale p) as [r|] eqn:E; [|exact IH].
  constructor; [|exact IH]. unfold regionOf in E.
  destruct (timeToCoordinate timeScale (BackgroundRegions.time p));
    [|discriminate].
  injection E as <-. reflexivity.
Qed.

Lemma regions_ascending_from (timeScale : TimeScale)
    (rest : list BackgroundRegions.BackgroundRegionData)
    (point : BackgroundRegions.BackgroundRegionData)
    (r : BackgroundRegions.BackgroundRegionRendererData) :
  increasing timeScale ->
  Forall (fun later =>
            (BackgroundRegions.time point
             <= BackgroundRegions.time later)%Z) rest ->
  chronological rest ->
  regionOf timeScale point = Some r ->
  ascending r (omap (regionOf timeScale) rest).
Proof.
  intros Hinc. revert point r.
  induction rest as [|q rest IH]; intros point r Hall Hchr Hr;
    [exact I|].
  cbn [omap list_omap]. destruct Hchr as [Hq Hchr].
  inversion Hall as [|? ? Hpq Hall']; subst.
  destruct (regionOf timeScale q) as [r'|] eqn:Hr'.
  - cbn [ascending]. unfold regionOf in Hr, Hr'.
    destruct (timeToCoordinate timeScale (BackgroundRegions.time point))
      as [x|] eqn:Ex; [|discriminate].
    destruct (timeToCoordinate timeScale (BackgroundRegions.time q))
      as [x'|] eqn:Ex'; [|discriminate].
    cbn in Hr, Hr'. injection Hr as <-. injection Hr' as <-.
    cbn [BackgroundRegions.x BackgroundRegions.barWidth].
    split; [exact (Hinc _ _ _ _ Hpq Ex Ex')|]. split; [reflexivity|].
    apply (IH q); [assumption|assumption|].
    unfold regionOf. rewrite Ex'. reflexivity.
  - apply (IH point); assumption.
Qed.

Lemma regions_ascending (timeScale : TimeScale)
    (data : list BackgroundRegions.BackgroundRegionData) :
  increasing timeScale -> chronological data ->
  match omap (regionOf timeScale) data with
  | [] => True
  | r :: rest => ascending r rest
  end.
Proof.
  intros Hinc. induction data as [|p data IH]; intros Hchr; [exact I|].
  cbn [omap list_omap]. destruct Hchr as [Hp Hchr].
  destruct (regionOf timeScale p) as [r|] eqn:Hr.
  - apply (regions_ascending_from timeScale data p r); assumption.
  - apply IH. assumption.
Qed.

(** X21. From the data to the canvas.  For an attached background
    primitive whose data is in ascending order of time, on a time scale
    that places later times no further left, with a non-negative bar
    spacing and pixel ratio: [updateAllViews] returns normally, and the
    calls [draw] then issues are one [fillStyle]/[fillRect] pair per
    painted span in which every data point whose time is on the time
    scale lies inside a span of its own colour, one bar spacing wide
    around its x. *)
Theorem backgroundRegions_paints_every_bar (this : BackgroundRegions.State)
    (chart : Chart) (series : Series)
    (scope : BitmapCoordinatesRenderingScope) :
  _chart this = Some chart -> _series this = Some series ->
  chronological (_anchors this) -> increasing (timeScale chart) ->
  0 <= barSpacing (timeScale chart) ->
  0 <= horizontalPixelRatio scope ->
  exists this' fills,
    BackgroundRegions.updateAllViews this = Ok this' /\
    BackgroundRegions.draw (_data this') scope
    = flat_map
        (paint (Math.round (paneHeight series * verticalPixelRatio scope)))
        fills /\
    forall point region,
      In point (_anchors this) ->
      regionOf (timeScale chart) point = Some region ->
      Exists (fun f => covers (horizontalPixelRatio scope) f region) fills.
Proof.
  intros Hc Hs Hchr Hinc Hb Hh.
  rewrite (backgroundRegions_update this chart series Hc Hs).
  pose proof (regions_ascending (timeScale chart) (_anchors this) Hinc Hchr)
    as Hasc.
  pose proof (regions_uniform_width (timeScale chart) (_anchors this))
    as Hw.
  assert (Hin : forall point region,
             In point (_anchors this) ->
             regionOf (timeScale chart) point = Some region ->
             In region (omap (regionOf (timeScale chart)) (_anchors this)))
    by (intros point region; apply omap_In).
  destruct (omap (regionOf (timeScale chart)) (_anchors this))
    as [|r rest] eqn:Er.
  - eexists _, []. split; [reflexivity|]. split.
    + cbn [_data paneView_update]. reflexivity.
    + intros point region Hp Hr. destruct (Hin point region Hp Hr).
  - assert (Hne : exists p l, _anchors this = p :: l).
    { destruct (_anchors this) as [|p l]; [discriminate|eauto]. }
    destruct Hne as (p & l & Ea). rewrite Ea in Hin |- *.
    eexists _, (fillsFrom (horizontalPixelRatio scope) r r rest).
    split; [reflexivity|]. split.
    + cbn [_data paneView_update].
      change {| BackgroundRegions.regions := r :: rest;
                BackgroundRegions.chartHeight := paneHeight series |}
        with (regionsData (r :: rest) (paneHeight series)).
      rewrite draw_nonempty by discriminate. cbv zeta.
      cbn [fold_left]. rewrite step_first.
      apply (run_fills (horizontalPixelRatio scope) _ rest r r [] eq_refl).
    + inversion Hw as [|? ? Hwr _]; subst.
      assert (Hw0 : 0 <= BackgroundRegions.barWidth r)
        by (rewrite Hwr; exact Hb).
      destruct (fillsFrom_cover (horizontalPixelRatio scope) Hh rest r r
                  Hw0 Hasc eq_refl (Rle_refl _))
        as ((f & fills' & E & Hfc & Hfl & Hfr) & Hcov & _).
      intros point region Hp Hr.
      destruct (Hin point region Hp Hr) as [<-|Hrest].
      * rewrite E. apply Exists_cons_hd. unfold covers.
        split; [assumption|]. split; lra.
      * apply (proj1 (List.Forall_forall _ _) Hcov). exact Hrest.
Qed.

Lemma example_increasing : increasing (timeScale (param_chart example_param)).
Proof.
  intros t t' x x' Ht Hx Hx'. cbn in Hx, Hx'.
  injection Hx as <-. injection Hx' as <-. apply IZR_le. exact Ht.
Qed.

Lemma backgroundRegions_paints_every_bar_witness :
  exists this' fills,
    BackgroundRegions.updateAllViews regions_attached = Ok this' /\
    BackgroundRegions.draw (_data this') (scope_of 1 1)
    = flat_map
        (paint (Math.round (paneHeight (param_series example_param)
                            * verticalPixelRatio (scope_of 1 1))))
        fills /\
    forall point region,
      In point (_anchors regions_attached) ->
      regionOf (timeScale (param_chart example_param)) point = Some region ->
      Exists (fun f => covers (horizontalPixelRatio (scope_of 1 1)) f region)
        fills.
Proof.
  apply (backgroundRegions_paints_every_bar regions_attached
           (param_chart example_param) (param_series example_param)
           (scope_of 1 1)).
  - reflexivity.
  - reflexivity.
  - cbn [chronological regions_attached attached construct requestUpdate
         _anchors _requestUpdate].
    repeat split;
      repeat (apply List.Forall_nil || apply List.Forall_cons);
      simpl; lia.
  - exact example_increasing.
  - simpl; lra.
  - simpl; lra.
Defined.

(** ** Mutators and the host's update callback *)

Lemma setAnchors_notifies {Anchors Options Data : Type} (anchors : Anchors) :
  notifies_once (setAnchors (Options := Options) (Data := Data) anchors).
Proof.
  intros this. unfold setAnchors, requestUpdate. cbn [_requestUpdate].
  destruct (_requestUpdate this) eqn:E; cbn; rewrite ?E; repeat split.
Qed.

Lemma setOptions_notifies {Anchors Options Data : Type} (options : Options) :
  notifies_once (setOptions (Anchors := Anchors) (Data := Data) options).
Proof.
  intros this. unfold setOptions, requestUpdate. cbn [_requestUpdate].
  destruct (_requestUpdate this) eqn:E; cbn; rewrite ?E; repeat split.
Qed.

(** X12. The host's update callback.  [attached] installs the callback
    and calls it once; [detached] removes it.  Every mutator
    ([setPoints], [setPoint], [setPrice], [setData], [applyOptions])
    calls the callback exactly once while it is installed and never when
    it is not, so nothing reaches the host after [detached]; and no
    mutator touches the snapshot cached by the renderer, which changes
    only in [updateAllViews]. *)
Theorem mutators_notify_once :
  (forall (this : TrendLine.State) param,
     _requestUpdate (attached param this) = true /\
     requested (attached param this) = S (requested this) /\
     _requestUpdate (detached this) = false /\
     requested (detached this) = requested this) /\
  (forall p1 p2, notifies_once (TrendLine.setPoints p1 p2)) /\
  (forall options, notifies_once (TrendLine.applyOptions options)) /\
  (forall p1 p2, notifies_once (Rectangle.setPoints p1 p2)) /\
  (forall data, notifies_once (LongPosition.setData data)) /\
  (forall price, notifies_once (HorizontalLine.setPrice price)) /\
  (forall anchor, notifies_once (HorizontalRay.setPoint anchor)) /\
  (forall point, notifies_once (VerticalLine.setPoint point)) /\
  (forall data, notifies_once (BackgroundRegions.setData data)).
Proof.
  split; [intros this param; repeat split|].
  split; [intros p1 p2; apply setAnchors_notifies|].
  split; [intros options this; apply setOptions_notifies|].
  split; [intros p1 p2; apply setAnchors_notifies|].
  split; [intros data this; apply setAnchors_notifies|].
  split; [intros price; apply setAnchors_notifies|].
  split; [intros anchor; apply setAnchors_notifies|].
  split; [intros point; apply setAnchors_notifies|].
  intros data; apply setAnchors_notifies.
Qed.

(** ** Rectangle: the order of the corners *)

Lemma setAnchors_fields {Anchors Options Data : Type} (anchors : Anchors)
    (this : Primitive Anchors Options Data) :
  _chart (setAnchors anchors this) = _chart this
  /\ _series (setAnchors anchors this) = _series this
  /\ _anchors (setAnchors anchors this) = anchors
  /\ _options (setAnchors anchors this) = _options this
  /\ _data (setAnchors anchors this) = _data this.
Proof.
  unfold setAnchors.
  match goal with
  | |- context [requestUpdate ?s] =>
      destruct (requestUpdate_fields s) as (-> & -> & -> & -> & -> & _)
  end.
  repeat split.
Qed.

Lemma rectangle_snapshot (this : Rectangle.State) chart series :
  _chart this = Some chart -> _series this = Some series ->
  Rectangle._calculateRendererData this =
    match timeToCoordinate (timeScale chart)
            (Rectangle.time (Rectangle._p1 (_anchors this))),
          priceToCoordinate series
            (Rectangle.price (Rectangle._p1 (_anchors this))),
          timeToCoordinate (timeScale chart)
            (Rectangle.time (Rectangle._p2 (_anchors this))),
          priceToCoordinate series
            (Rectangle.price (Rectangle._p2 (_anchors this))) with
    | Some x1, Some y1, Some x2, Some y2 =>
        let '(drawLeft, drawRight) :=
          match Rectangle.extendMode (_options this) with
          | Rectangle.left => (0, Math.max x1 x2)
          | Rectangle.right => (Math.min x1 x2, width (timeScale chart))
          | Rectangle.both => (0, width (timeScale chart))
          | Rectangle.none => (Math.min x1 x2, Math.max x1 x2)
          end in
        Ok (Some
          {| Rectangle.p1 := {| pt_x := Some x1; pt_y := Some y1 |};
             Rectangle.p2 := {| pt_x := Some x2; pt_y := Some y2 |};
             Rectangle.drawLeft := drawLeft;
             Rectangle.drawRight := drawRight;
             Rectangle.drawTop := Math.min y1 y2;
             Rectangle.drawBottom := Math.max y1 y2;
             Rectangle.d_lineColor := Rectangle.lineColor (_options this);
             Rectangle.d_lineWidth := Rectangle.lineWidth (_options this);
             Rectangle.d_lineStyle := Rectangle.lineStyle (_options this);
             Rectangle.d_backgroundColor :=
               Rectangle.backgroundColor (_options this);
             Rectangle.d_labelText := Rectangle.labelText (_options this);
             Rectangle.d_showLabel := Rectangle.showLabel (_options this);
             Rectangle.d_labelBackgroundColor :=
               Rectangle.labelBackgroundColor (_options this);
             Rectangle.d_labelTextColor :=
               Rectangle.labelTextColor (_options this);
             Rectangle.d_extendMode := Rectangle.extendMode (_options this);
             Rectangle.d_externalId := Rectangle.externalId (_options this);
             Rectangle.chartWidth := width (timeScale chart);
             Rectangle.chartHeight := paneHeight series;
             Rectangle.d_selected := Rectangle.selected (_options this);
             Rectangle.d_anchorPointColor :=
               Rectangle.anchorPointColor (_options this);
             Rectangle.d_showMiddleLine :=
               Rectangle.showMiddleLine (_options this);
             Rectangle.d_middleLineColor :=
               Rectangle.middleLineColor (_options this);
             Rectangle.d_middleLineStyle :=
               Rectangle.middleLineStyle (_options this);
             Rectangle.d_middleLineWidth :=
               Rectangle.middleLineWidth (_options this) |})
    | _, _, _, _ => Ok None
    end.
Proof.
  intros Hc Hs. unfold Rectangle._calculateRendererData.
  rewrite (isAttached_true this chart series Hc Hs), Hc, Hs. simpl.
  destruct (timeToCoordinate (timeScale chart)
              (Rectangle.time (Rectangle._p1 (_anchors this)))),
    (priceToCoordinate series
       (Rectangle.price (Rectangle._p1 (_anchors this)))),
    (timeToCoordinate (timeScale chart)
       (Rectangle.time (Rectangle._p2 (_anchors this)))),
    (priceToCoordinate series
       (Rectangle.price (Rectangle._p2 (_anchors this)))); reflexivity.
Qed.

Lemma rectangle_detached_snapshot (this : Rectangle.State) :
  isAttached this = false ->
  Rectangle._calculateRendererData this = Ok None.
Proof.
  intros H. unfold Rectangle._calculateRendererData. rewrite H. reflexivity.
Qed.

Lemma hitTestBody_ext (d d' : Rectangle.RectangleRendererData) (x y : R) :
  bounds d = bounds d' ->
  Rectangle.d_extendMode d = Rectangle.d_extendMode d' ->
  Rectangle.d_showMiddleLine d = Rectangle.d_showMiddleLine d' ->
  Rectangle.d_externalId d = Rectangle.d_externalId d' ->
  Rectangle.hitTestBody d x y = Rectangle.hitTestBody d' x y.
Proof.
  unfold bounds. intros Hb He Hm Hi. injection Hb as H1 H2 H3 H4.
  unfold Rectangle.hitTestBody. rewrite H1, H2, H3, H4, He, Hm, Hi.
  reflexivity.
Qed.

Lemma rectangle_index_swap (this : Rectangle.State)
    (a b : Rectangle.RectanglePoint) (p : Rectangle.RectanglePoint) :
  Rectangle._getPointLogicalIndex (Rectangle.setPoints a b this) p
  = Rectangle._getPointLogicalIndex (Rectangle.setPoints b a this) p.
Proof.
  unfold Rectangle._getPointLogicalIndex, Rectangle.setPoints.
  destruct (setAnchors_fields {| Rectangle._p1 := a; Rectangle._p2 := b |}
              this) as (-> & _).
  destruct (setAnchors_fields {| Rectangle._p1 := b; Rectangle._p2 := a |}
              this) as (-> & _).
  reflexivity.
Qed.

Lemma rectangle_index_total (this : Rectangle.State)
    (p : Rectangle.RectanglePoint) :
  exists index, Rectangle._getPointLogicalIndex this p = Ok index.
Proof.
  unfold Rectangle._getPointLogicalIndex.
  destruct (_chart this) as [chart|]; simpl; [|eauto].
  destruct (timeToCoordinate (timeScale chart) (Rectangle.time p)); eauto.
Qed.

(** X13. The rectangle does not depend on the order of its two corners.
    [setPoints(a, b)] and [setPoints(b, a)] give the same drawing bounds
    (or both give no snapshot), the same autoscale answer, and, for a
    rectangle that is not selected, the same [hitTest] at every point
    after [updateAllViews]. *)
Theorem rectangle_corner_order (this : Rectangle.State)
    (a b : Rectangle.RectanglePoint) (x y s e : R) :
  snapshotBounds (Rectangle.setPoints a b this)
  = snapshotBounds (Rectangle.setPoints b a this) /\
  Rectangle.autoscaleInfo (Rectangle.setPoints a b this) s e
  = Rectangle.autoscaleInfo (Rectangle.setPoints b a this) s e /\
  (Rectangle.selected (_options this) = false ->
   (this' ← Rectangle.updateAllViews (Rectangle.setPoints a b this);
    mret (Rectangle.hitTest this' x y))
   = (this' ← Rectangle.updateAllViews (Rectangle.setPoints b a this);
      mret (Rectangle.hitTest this' x y))).
Proof.
  pose proof (setAnchors_fields {| Rectangle._p1 := a; Rectangle._p2 := b |}
                this) as (C1 & S1 & A1 & O1 & D1).
  pose proof (setAnchors_fields {| Rectangle._p1 := b; Rectangle._p2 := a |}
                this) as (C2 & S2 & A2 & O2 & D2).
  fold (Rectangle.setPoints a b this) in C1, S1, A1, O1, D1.
  fold (Rectangle.setPoints b a this) in C2, S2, A2, O2, D2.
  set (s1 := Rectangle.setPoints a b this) in *.
  set (s2 := Rectangle.setPoints b a this) in *.
  split; [|split].
  - unfold snapshotBounds.
    destruct (isAttached_cases this)
      as [Hd|(chart & series & _ & Hc & Hs)].
    + rewrite !rectangle_detached_snapshot
        by (unfold isAttached in *; rewrite ?C1, ?S1, ?C2, ?S2; exact Hd).
      reflexivity.
    + rewrite (rectangle_snapshot s1 chart series) by congruence.
      rewrite (rectangle_snapshot s2 chart series) by congruence.
      rewrite A1, A2, O1, O2. cbn [Rectangle._p1 Rectangle._p2].
      destruct (timeToCoordinate (timeScale chart) (Rectangle.time a))
        as [xa|],
        (priceToCoordinate series (Rectangle.price a)) as [ya|],
        (timeToCoordinate (timeScale chart) (Rectangle.time b)) as [xb|],
        (priceToCoordinate series (Rectangle.price b)) as [yb|];
        try reflexivity.
      unfold Math.min, Math.max.
      rewrite (Rmin_comm xb xa), (Rmax_comm xb xa),
        (Rmin_comm yb ya), (Rmax_comm yb ya).
      destruct (Rectangle.extendMode (_options this)); reflexivity.
  - unfold Rectangle.autoscaleInfo.
    rewrite A1, A2. cbn [Rectangle._p1 Rectangle._p2].
    pose proof (rectangle_index_swap this a b a) as Ia.
    pose proof (rectangle_index_swap this a b b) as Ib.
    fold s1 s2 in Ia, Ib. rewrite Ia, Ib.
    destruct (rectangle_index_total s2 a) as ([ia|] & ->);
      destruct (rectangle_index_total s2 b) as ([ib|] & ->);
      try reflexivity.
    cbn. unfold Math.min, Math.max.
    rewrite (Rmin_comm ib ia), (Rmax_comm ib ia),
      (Rmin_comm (Rectangle.price b)), (Rmax_comm (Rectangle.price b)).
    reflexivity.
  - intros Hsel.
    unfold Rectangle.updateAllViews, updateAllViews_guarded.
    destruct (isAttached_cases this)
      as [Hd|(chart & series & _ & Hc & Hs)].
    + rewrite !rectangle_detached_snapshot
        by (unfold isAttached in *; rewrite ?C1, ?S1, ?C2, ?S2; exact Hd).
      unfold Rectangle.hitTest, mbind, mret, Exc_bind, Exc_ret.
      rewrite D1, D2. reflexivity.
    + rewrite (rectangle_snapshot s1 chart series) by congruence.
      rewrite (rectangle_snapshot s2 chart series) by congruence.
      rewrite A1, A2, O1, O2. cbn [Rectangle._p1 Rectangle._p2].
      destruct (timeToCoordinate (timeScale chart) (Rectangle.time a))
        as [xa|],
        (priceToCoordinate series (Rectangle.price a)) as [ya|],
        (timeToCoordinate (timeScale chart) (Rectangle.time b)) as [xb|],
        (priceToCoordinate series (Rectangle.price b)) as [yb|];
        try (unfold Rectangle.hitTest, mbind, mret, Exc_bind, Exc_ret;
             rewrite D1, D2; reflexivity).
      unfold Math.min, Math.max.
      rewrite (Rmin_comm xb xa), (Rmax_comm xb xa),
        (Rmin_comm yb ya), (Rmax_comm yb ya).
      destruct (Rectangle.extendMode (_options this)) eqn:Em;
        unfold Rectangle.hitTest, mbind, mret, Exc_bind, Exc_ret;
        cbn [_data paneView_update]; unfold Rectangle.renderer_hitTest;
        cbn [Rectangle.d_selected]; rewrite Hsel; f_equal;
        apply hitTestBody_ext; reflexivity.
Qed.

(** ** Autoscale: the price range of a drawing *)







Lemma horizontalRay_index_total (this : HorizontalRay.State) :
  exists index, HorizontalRay._getAnchorLogicalIndex this = Ok index.
Proof.
  unfold HorizontalRay._getAnchorLogicalIndex.
  destruct (_chart this) as [chart|]; simpl; [|eauto].
  destruct (timeToCoordinate (timeScale chart)
              (HorizontalRay.time (_anchors this))); eauto.
Qed.




(** ** Long / short position: the labels of a well-formed position *)

(** X15. The labels of a well-formed position.  For a snapshot that has
    all its coordinates and a positive entry price, [draw] prints three
    texts: the target label, the stop label and the risk/reward label.
    With the direction [long], a position whose stop is below and whose
    target is above the entry shows positive deltas, percentages and
    ratio; so does, with any other direction, a position whose target is
    below and whose stop is above the entry.  With a direction other than
    [long], the missing one included, a position whose stop is below and
    whose target is above the entry shows negative deltas and
    percentages and a positive ratio: this is the case of every snapshot
    that the primitive builds.  The ratio is the target percentage over
    the stop percentage when the stop differs from the entry, and 0 when
    it does not. *)
Theorem position_labels_well_formed
    (data : LongPosition.LongPositionRendererData)
    (scope : BitmapCoordinatesRenderingScope) (ex ey ty sy rx : R) :
  drawable data ex ey ty sy rx ->
  0 < LongPosition.entryPrice data ->
  let e := LongPosition.entryPrice data in
  let t := LongPosition.targetPrice data in
  let s := LongPosition.stopPrice data in
  exists td tp sd sp rr,
    texts (LongPosition.draw (Some data) scope)
    = [ deltaLabel "Target: " td tp; deltaLabel "Stop: " sd sp;
        ratioLabel rr ] /\
    (LongPosition.direction data = Some LongPosition.long -> s < e < t ->
     0 < td /\ 0 < tp /\ 0 < sd /\ 0 < sp /\ 0 < rr) /\
    (LongPosition.direction data <> Some LongPosition.long -> t < e < s ->
     0 < td /\ 0 < tp /\ 0 < sd /\ 0 < sp /\ 0 < rr) /\
    (LongPosition.direction data <> Some LongPosition.long -> s < e < t ->
     td < 0 /\ tp < 0 /\ sd < 0 /\ sp < 0 /\ 0 < rr) /\
    (forall this : LongPosition.State,
       LongPosition._calculateRendererData this = Ok (Some data) ->
       s < e < t ->
       td < 0 /\ tp < 0 /\ sd < 0 /\ sp < 0 /\ 0 < rr) /\
    (s <> e -> rr = tp / sp) /\
    (s = e -> rr = 0).
Proof.
  intros Hd He e t s. change (0 < e) in He.
  pose proof (position_texts data scope ex ey ty sy rx Hd) as Htexts.
  cbv zeta in Htexts. fold e t s in Htexts.
  assert (Hpos : forall d, 0 < d -> 0 < d / e * 100).
  { intros d Hd0. apply Rmult_lt_0_compat; [|lra].
    apply Rdiv_lt_0_compat; assumption. }
  assert (Hneg : forall d, d < 0 -> d / e * 100 < 0).
  { intros d Hd0.
    replace (d / e * 100) with (- ((- d) / e * 100)) by (field; lra).
    pose proof (Hpos (- d)). lra. }
  assert (Hratio : forall a b, 0 < a -> 0 < b -> 0 < (- a) / (- b)).
  { intros a b Ha Hb. replace (- a / - b) with (a / b) by (field; lra).
    apply Rdiv_lt_0_compat; assumption. }
  assert (Hshort :
    LongPosition.direction data <> Some LongPosition.long ->
    texts (LongPosition.draw (Some data) scope)
    = [ deltaLabel "Target: " (e - t) ((e - t) / e * 100);
        deltaLabel "Stop: " (s - e) ((s - e) / e * 100);
        ratioLabel (if decide (s - e <> 0) then (e - t) / (s - e) else 0) ]).
  { intros Hdir. rewrite Htexts.
    destruct (LongPosition.direction data) as [[|]|];
      [contradiction|reflexivity..]. }
  assert (Hcase : LongPosition.direction data = Some LongPosition.long
                  \/ LongPosition.direction data <> Some LongPosition.long)
    by (destruct (LongPosition.direction data) as [[|]|];
        [left; reflexivity|right; discriminate..]).
  destruct Hcase as [Hlong|Hother].
  - rewrite Hlong in Htexts. do 5 eexists. split; [exact Htexts|].
    split; [|split; [|split; [|split; [|split]]]].
    + intros _ [Hs Ht]. rewrite decide_True by lra.
      repeat split; try lra; try (apply Hpos; lra).
      apply Rdiv_lt_0_compat; lra.
    + intros Hn. contradiction.
    + intros Hn. contradiction.
    + intros this Hcalc.
      pose proof (longPosition_snapshot_direction this data Hcalc).
      congruence.
    + intros Hse. rewrite decide_True by lra. field. lra.
    + intros Hse. rewrite decide_False by lra. reflexivity.
  - do 5 eexists. split; [exact (Hshort Hother)|].
    assert (Hlabelled : s < e < t ->
      e - t < 0 /\ (e - t) / e * 100 < 0 /\ s - e < 0 /\
      (s - e) / e * 100 < 0 /\
      0 < (if decide (s - e <> 0) then (e - t) / (s - e) else 0)).
    { intros [Hs Ht]. rewrite decide_True by lra.
      repeat split; try lra; try (apply Hneg; lra).
      replace (e - t) with (- (t - e)) by ring.
      replace (s - e) with (- (e - s)) by ring.
      apply Hratio; lra. }
    split; [|split; [|split; [|split; [|split]]]].
    + intros Hl. contradiction.
    + intros _ [Ht Hs]. rewrite decide_True by lra.
      repeat split; try lra; try (apply Hpos; lra).
      apply Rdiv_lt_0_compat; lra.
    + intros _. exact Hlabelled.
    + intros this _. exact Hlabelled.
    + intros Hse. rewrite decide_True by lra. field. lra.
    + intros Hse. rewrite decide_False by lra. reflexivity.
Qed.

Lemma position_labels_well_formed_witness :
  drawable position_example 20 50 10 70 80 /\
  exists td tp sd sp rr,
    texts (LongPosition.draw (Some position_example) (scope_of 1 1))
    = [ deltaLabel "Target: " td tp; deltaLabel "Stop: " sd sp;
        ratioLabel rr ] /\
    0 < td /\ 0 < tp /\ 0 < sd /\ 0 < sp /\ 0 < rr.
Proof.
  assert (Hd : drawable position_example 20 50 10 70 80)
    by (repeat split; reflexivity).
  split; [exact Hd|].
  destruct (position_labels_well_formed position_example (scope_of 1 1)
              20 50 10 70 80 Hd)
    as (td & tp & sd & sp & rr & Ht & Hlong & _); [simpl; lra|].
  exists td, tp, sd, sp, rr. split; [exact Ht|].
  apply Hlong; [reflexivity|simpl; lra].
Defined.

(** ** Long / short position: the two zones *)

Lemma fillRects_app (a b : list CanvasCall) :
  fillRects (a ++ b) = fillRects a ++ fillRects b.
Proof. apply flat_map_app. Qed.

Lemma drawAnchorPoint_no_fillRect (x y : R) (color : string) (ratio : R) :
  fillRects (_drawAnchorPoint x y color ratio) = [].
Proof. reflexivity. Qed.

Lemma position_label_no_fillRect (scope : BitmapCoordinatesRenderingScope)
    (text : Text) (x y : R) (bg fg : string)
    (align : LongPosition.VerticalAlign) :
  fillRects (LongPosition._drawLabel scope text x y bg fg align) = [].
Proof. reflexivity. Qed.

(** X16. The two zones of a position.  With the entry at (ex, ey), the
    target line at ty, the stop line at sy and the right edge at rx, all
    scaled to device pixels and rounded, [draw] fills exactly two
    rectangles: the profit zone, in the profit colour, between the target
    line and the entry line, and then the risk zone, in the risk colour,
    between the entry line and the stop line, both from the entry x to
    the right edge; and it strokes the dashed entry line, in the entry
    line colour, from the entry x to the right edge at the entry y, along
    the edge the two zones share.  Neither zone has a negative height,
    whatever the order of the three levels.  When the entry level lies
    between the target and the stop levels, the zones lie on opposite
    sides of the entry line; and the right edge is not left of the entry
    x when it is not so in the snapshot. *)
Theorem position_zones (data : LongPosition.LongPositionRendererData)
    (scope : BitmapCoordinatesRenderingScope) (ex ey ty sy rx : R) :
  drawable data ex ey ty sy rx ->
  let h := horizontalPixelRatio scope in
  let v := verticalPixelRatio scope in
  let left := Math.round (ex * h) in
  let right := Math.round (rx * h) in
  let entryLine := Math.round (ey * v) in
  let targetLine := Math.round (ty * v) in
  let stopLine := Math.round (sy * v) in
  let calls := LongPosition.draw (Some data) scope in
  fillRects calls
  = [ zone left right targetLine entryLine;
      zone left right entryLine stopLine ] /\
  painted (LongPosition.d_profitBackgroundColor data)
    (zone left right targetLine entryLine) calls /\
  painted (LongPosition.d_riskBackgroundColor data)
    (zone left right entryLine stopLine) calls /\
  stroked (LongPosition.d_entryLineColor data) Dashed
    left entryLine right entryLine calls /\
  0 <= Math.max targetLine entryLine - Math.min targetLine entryLine /\
  0 <= Math.max entryLine stopLine - Math.min entryLine stopLine /\
  (0 <= v -> ty <= ey <= sy ->
   targetLine <= entryLine <= stopLine /\
   zone left right targetLine entryLine
   = (left, targetLine, right - left, entryLine - targetLine) /\
   zone left right entryLine stopLine
   = (left, entryLine, right - left, stopLine - entryLine)) /\
  (0 <= v -> sy <= ey <= ty ->
   stopLine <= entryLine <= targetLine /\
   zone left right targetLine entryLine
   = (left, entryLine, right - left, targetLine - entryLine) /\
   zone left right entryLine stopLine
   = (left, stopLine, right - left, entryLine - stopLine)) /\
  (0 <= h -> ex <= rx -> left <= right).
Proof.
  intros (He & Ht & Hs & Hr) h v left right entryLine targetLine stopLine
    calls.
  assert (Hzone_up : forall a b, a <= b -> zone left right a b
                                 = (left, a, right - left, b - a)).
  { intros a b Hab. unfold zone.
    case_minmax; try reflexivity; repeat f_equal; lra. }
  assert (Hzone_down : forall a b, b <= a -> zone left right a b
                                   = (left, b, right - left, a - b)).
  { intros a b Hab. unfold zone.
    case_minmax; try reflexivity; repeat f_equal; lra. }
  assert (Hcalls :
    exists rest,
      fillRects rest = [] /\
      calls
      = [ save;
          set_fillStyle (LongPosition.d_profitBackgroundColor data);
          fillRect left (Math.min targetLine entryLine) (right - left)
            (Math.max targetLine entryLine - Math.min targetLine entryLine);
          restore;
          save;
          set_fillStyle (LongPosition.d_riskBackgroundColor data);
          fillRect left (Math.min entryLine stopLine) (right - left)
            (Math.max entryLine stopLine - Math.min entryLine stopLine);
          restore;
          save;
          set_lineWidth (LongPosition.d_lineWidth data * h);
          set_strokeStyle (LongPosition.d_entryLineColor data);
          setLineStyle Dashed;
          beginPath;
          moveTo left entryLine;
          lineTo right entryLine;
          stroke;
          restore ] ++ rest).
  { unfold calls, LongPosition.draw, LongPosition._drawImpl.
    rewrite He, Ht, Hs, Hr. cbn [pt_x pt_y]. cbv zeta.
    fold h v. fold left right entryLine targetLine stopLine.
    eexists. split; [|reflexivity].
    rewrite !fillRects_app.
    destruct (LongPosition.direction data) as [[|]|],
      (LongPosition.d_selected data); reflexivity. }
  destruct Hcalls as (rest & Hrest & Hcalls).
  split; [|split; [|split; [|split; [|split; [|split; [|split; [|split]]]]]]].
  - rewrite Hcalls, fillRects_app, Hrest. reflexivity.
  - unfold painted, zone. exists [save]. eexists. rewrite Hcalls.
    reflexivity.
  - unfold painted, zone.
    eexists [save; _; _; restore; save]. eexists. rewrite Hcalls.
    reflexivity.
  - unfold stroked.
    eexists _, [save; _; _; restore; save; _; _; restore; save]. eexists.
    rewrite Hcalls. reflexivity.
  - case_minmax; lra.
  - case_minmax; lra.
  - intros Hv [H1 H2].
    assert (targetLine <= entryLine)
      by (apply round_mono; apply Rmult_le_compat_r; assumption).
    assert (entryLine <= stopLine)
      by (apply round_mono; apply Rmult_le_compat_r; assumption).
    split; [split; assumption|]. split; apply Hzone_up; assumption.
  - intros Hv [H1 H2].
    assert (stopLine <= entryLine)
      by (apply round_mono; apply Rmult_le_compat_r; assumption).
    assert (entryLine <= targetLine)
      by (apply round_mono; apply Rmult_le_compat_r; assumption).
    split; [split; assumption|]. split; apply Hzone_down; assumption.
  - intros Hh Hx. apply round_mono. apply Rmult_le_compat_r; assumption.
Qed.

Lemma position_zones_witness :
  drawable position_example 20 50 10 70 80 /\
  fillRects (LongPosition.draw (Some position_example) (scope_of 1 1))
  = [ zone (Math.round (20 * 1)) (Math.round (80 * 1))
        (Math.round (10 * 1)) (Math.round (50 * 1));
      zone (Math.round (20 * 1)) (Math.round (80 * 1))
        (Math.round (50 * 1)) (Math.round (70 * 1)) ].
Proof.
  assert (Hd : drawable position_example 20 50 10 70 80)
    by (repeat split; reflexivity).
  split; [exact Hd|].
  exact (proj1 (position_zones position_example (scope_of 1 1)
                  20 50 10 70 80 Hd)).
Defined.

(** ** Long / short position: partial updates of the data *)

Lemma setData_data (data : LongPosition.PartialData)
    (this : LongPosition.Runtime) :
  LongPosition.data (LongPosition.setData data this)
  = {| LongPosition.o_entryTime :=
         read (over (present (LongPosition.o_entryTime (_anchors this)))
                 (LongPosition.p_entryTime data));
       LongPosition.o_entryPrice :=
         read (over (present (LongPosition.o_entryPrice (_anchors this)))
                 (LongPosition.p_entryPrice data));
       LongPosition.o_targetPrice :=
         read (over (present (LongPosition.o_targetPrice (_anchors this)))
                 (LongPosition.p_targetPrice data));
       LongPosition.o_stopPrice :=
         read (over (present (LongPosition.o_stopPrice (_anchors this)))
                 (LongPosition.p_stopPrice data));
       LongPosition.o_widthBars :=
         read (over (present (LongPosition.o_widthBars (_anchors this)))
                 (LongPosition.p_widthBars data)) |}.
Proof.
  unfold LongPosition.data, LongPosition.setData. cbv zeta.
  match goal with
  | |- _anchors (setAnchors ?a ?s) = _ =>
      destruct (setAnchors_fields a s) as (_ & _ & -> & _)
  end.
  reflexivity.
Qed.

Lemma read_over_twice {T : Type} (old : option T) (a b : Property T) :
  read (over (present (read (over (present old) a))) b)
  = read (over (present old) (over a b)).
Proof. destruct b; simpl; [apply read_present|reflexivity..]. Qed.

Lemma read_over_defined {T : Type} (v : T) (given : Property T) :
  is_Some (read (over (present (Some v)) given)) <-> given <> undefined.
Proof.
  destruct given; simpl; split; intros H; eauto; try discriminate.
  - destruct H as [? H]. discriminate.
  - contradiction.
Qed.

(** X17. [setData] of the position merges key by key.  Each of the five
    properties keeps what it held when the partial object lacks it and
    takes what the partial object holds for it, a value or [undefined],
    when it has it; so an object with no property changes nothing, and
    two calls in a row leave the data that one call with the second
    object spread over the first leaves.  From data of the declared type
    the result is of the declared type exactly when no property of the
    partial object holds [undefined].  The options are never touched. *)
Theorem longPosition_setData_merge (this : LongPosition.Runtime)
    (a b : LongPosition.PartialData) :
  let d := LongPosition.data this in
  let d' := LongPosition.data (LongPosition.setData a this) in
  (merged (LongPosition.o_entryTime d) (LongPosition.p_entryTime a)
     (LongPosition.o_entryTime d') /\
   merged (LongPosition.o_entryPrice d) (LongPosition.p_entryPrice a)
     (LongPosition.o_entryPrice d') /\
   merged (LongPosition.o_targetPrice d) (LongPosition.p_targetPrice a)
     (LongPosition.o_targetPrice d') /\
   merged (LongPosition.o_stopPrice d) (LongPosition.p_stopPrice a)
     (LongPosition.o_stopPrice d') /\
   merged (LongPosition.o_widthBars d) (LongPosition.p_widthBars a)
     (LongPosition.o_widthBars d')) /\
  LongPosition.data (LongPosition.setData emptyData this) = d /\
  LongPosition.data (LongPosition.setData b (LongPosition.setData a this))
  = LongPosition.data (LongPosition.setData (spreadData a b) this) /\
  (forall typed, d = LongPosition.stored typed ->
     (is_Some (LongPosition.declared d') <-> defined a)) /\
  _options (LongPosition.setData a this) = _options this.
Proof.
  cbv zeta. split; [|split; [|split; [|split]]].
  - rewrite setData_data. cbn. repeat split; apply read_over_merged.
  - rewrite setData_data. unfold LongPosition.data. cbn.
    rewrite !read_present. destruct (_anchors this). reflexivity.
  - rewrite (setData_data b). fold (LongPosition.data (LongPosition.setData a this)).
    rewrite (setData_data a), (setData_data (spreadData a b)). cbn.
    rewrite !read_over_twice. reflexivity.
  - intros typed Hd. rewrite setData_data.
    unfold LongPosition.data in Hd. rewrite Hd.
    unfold LongPosition.declared, LongPosition.stored, defined. cbn.
    pose proof (read_over_defined (LongPosition.entryTime typed)
                  (LongPosition.p_entryTime a)) as H1.
    pose proof (read_over_defined (LongPosition._entryPrice typed)
                  (LongPosition.p_entryPrice a)) as H2.
    pose proof (read_over_defined (LongPosition._targetPrice typed)
                  (LongPosition.p_targetPrice a)) as H3.
    pose proof (read_over_defined (LongPosition._stopPrice typed)
                  (LongPosition.p_stopPrice a)) as H4.
    pose proof (read_over_defined (LongPosition.widthBars typed)
                  (LongPosition.p_widthBars a)) as H5.
    cbn in H1, H2, H3, H4, H5.
    destruct (read (over _ (LongPosition.p_entryTime a))),
      (read (over _ (LongPosition.p_entryPrice a))),
      (read (over _ (LongPosition.p_targetPrice a))),
      (read (over _ (LongPosition.p_stopPrice a))),
      (read (over _ (LongPosition.p_widthBars a)));
      cbn; split; intros H;
      try (destruct H as [? H]; discriminate);
      try (repeat split; (apply H1 || apply H2 || apply H3 || apply H4
                          || apply H5); eauto);
      try (eexists; reflexivity);
      destruct H as (G1 & G2 & G3 & G4 & G5);
      try (apply H1 in G1; destruct G1 as [? G1]; discriminate);
      try (apply H2 in G2; destruct G2 as [? G2]; discriminate);
      try (apply H3 in G3; destruct G3 as [? G3]; discriminate);
      try (apply H4 in G4; destruct G4 as [? G4]; discriminate);
      try (apply H5 in G5; destruct G5 as [? G5]; discriminate).
  - unfold LongPosition.setData. cbv zeta.
    match goal with
    | |- _options (setAnchors ?x ?s) = _ =>
        destruct (setAnchors_fields x s) as (_ & _ & _ & -> & _)
    end.
    reflexivity.
Qed.

(** ** Vertical line: the time label *)

Lemma append_nonempty (a b : string) : b <> "" -> a +:+ b <> "".
Proof.
  intros Hb. destruct a as [|c a]; [exact Hb|discriminate].
Qed.

Lemma padStart_two_digits (n : Z) :
  (0 <= n < 100)%Z ->
  String.length (VerticalLine.padStart 2 "0"%char (VerticalLine.toString n))
  = 2%nat.
Proof.
  intros Hn. rewrite <- (Z2Nat.id n) by lia.
  assert (Hlt : (Z.to_nat n < 100)%nat) by lia.
  generalize dependent (Z.to_nat n). clear Hn. intros k Hk.
  do 100 (destruct k as [|k]; [vm_compute; reflexivity|]). lia.
Qed.

(** X18. The label of a vertical line.  [formatTimeLabel] is never the
    empty string.  For every time frame other than "1m" and "1h" (so for
    "5m", "15m" or "4h" as well) the label is the date alone, the same
    as for "1d"; for "1m" and "1h" it is that date followed by a space,
    the hours, a colon and the minutes, each padded to exactly two
    characters. *)
Theorem formatTimeLabel_shape (newDate : Z -> VerticalLine.Date)
    (timestamp : HorzScaleItem) (timeframe : string) :
  let date := newDate (timestamp * 1000)%Z in
  (0 <= VerticalLine.getHours date < 24)%Z ->
  (0 <= VerticalLine.getMinutes date < 60)%Z ->
  VerticalLine.formatTimeLabel newDate timestamp timeframe <> "" /\
  (timeframe <> "1m" -> timeframe <> "1h" ->
   VerticalLine.formatTimeLabel newDate timestamp timeframe
   = VerticalLine.formatTimeLabel newDate timestamp "1d") /\
  (timeframe = "1m" \/ timeframe = "1h" ->
   exists hours minutes,
     String.length hours = 2%nat /\ String.length minutes = 2%nat /\
     VerticalLine.formatTimeLabel newDate timestamp timeframe
     = VerticalLine.formatTimeLabel newDate timestamp "1d"
       +:+ " " +:+ hours +:+ ":" +:+ minutes).
Proof.
  intros date Hh Hm.
  unfold VerticalLine.formatTimeLabel. cbv zeta. fold date.
  change (String.eqb "1d" "1m" || String.eqb "1d" "1h") with false.
  cbv iota.
  split; [|split].
  - destruct (String.eqb timeframe "1m" || String.eqb timeframe "1h");
      apply append_nonempty; discriminate.
  - intros H1 H2.
    apply String.eqb_neq in H1. apply String.eqb_neq in H2.
    rewrite H1, H2. reflexivity.
  - intros Htf.
    assert (E : String.eqb timeframe "1m" || String.eqb timeframe "1h" = true).
    { destruct Htf as [->| ->]; reflexivity. }
    rewrite E.
    exists (VerticalLine.padStart 2 "0"%char
              (VerticalLine.toString (VerticalLine.getHours date))),
      (VerticalLine.padStart 2 "0"%char
         (VerticalLine.toString (VerticalLine.getMinutes date))).
    split; [apply padStart_two_digits; lia|].
    split; [apply padStart_two_digits; lia|].
    reflexivity.
Qed.

Lemma formatTimeLabel_shape_witness :
  VerticalLine.formatTimeLabel monday_morning 1753088700%Z "1d"
  = "Mon 21 Jul '25" /\
  VerticalLine.formatTimeLabel monday_morning 1753088700%Z "1h"
  = "Mon 21 Jul '25 09:05" /\
  VerticalLine.formatTimeLabel monday_morning 1753088700%Z "4h" <> "" /\
  ("4h" <> "1m" -> "4h" <> "1h" ->
   VerticalLine.formatTimeLabel monday_morning 1753088700%Z "4h"
   = VerticalLine.formatTimeLabel monday_morning 1753088700%Z "1d").
Proof.
  split; [vm_compute; reflexivity|]. split; [vm_compute; reflexivity|].
  destruct (formatTimeLabel_shape monday_morning 1753088700%Z "4h")
    as (H1 & H2 & _).
  - simpl. lia.
  - simpl. lia.
  - split; [exact H1|exact H2].
Defined.

Lemma formatTimeLabel_nonempty (newDate : Z -> VerticalLine.Date)
    (timestamp : HorzScaleItem) (timeframe : string) :
  VerticalLine.formatTimeLabel newDate timestamp timeframe <> "".
Proof.
  unfold VerticalLine.formatTimeLabel. cbv zeta.
  destruct (String.eqb timeframe "1m" || String.eqb timeframe "1h");
    apply append_nonempty; discriminate.
Qed.

Lemma drawLineAndLabel_texts (scope : BitmapCoordinatesRenderingScope)
    (x chartHeight : R) (lineColor : string) (lineWidth : R)
    (lineStyle : LineStyle) (showTimeLabel : bool)
    (timeLabel labelBackgroundColor labelTextColor : string) :
  texts (VerticalLine.drawLineAndLabel scope x chartHeight lineColor
           lineWidth lineStyle showTimeLabel timeLabel
           labelBackgroundColor labelTextColor)
  = if showTimeLabel && negb (String.eqb timeLabel "")
    then [ TStr timeLabel ] else [].
Proof.
  unfold VerticalLine.drawLineAndLabel. cbv zeta. rewrite texts_app.
  destruct (showTimeLabel && negb (String.eqb timeLabel ""));
    reflexivity.
Qed.

(** X19. The time label of a vertical line is painted exactly when
    [showTimeLabel] is set.  For an attached vertical line whose time is
    on the time scale, after [updateAllViews] the renderer prints one
    text, the label [formatTimeLabel] gives for the line's time and time
    frame, when [showTimeLabel] is set, and no text otherwise: the
    renderer's guard against an empty label never fires, because the
    label is never empty. *)
Theorem verticalLine_label_painted (newDate : Z -> VerticalLine.Date)
    (this : VerticalLine.State) (chart : Chart) (series : Series) (x : R)
    (scope : BitmapCoordinatesRenderingScope) :
  _chart this = Some chart -> _series this = Some series ->
  timeToCoordinate (timeScale chart) (_anchors this) = Some x ->
  (this' ← VerticalLine.updateAllViews
             (VerticalLine.formatTimeLabel newDate) this;
   mret (texts (VerticalLine.earlier_drawImpl (_data this') scope)))
  = Ok (if VerticalLine.showTimeLabel (_options this)
        then [ TStr (VerticalLine.formatTimeLabel newDate (_anchors this)
                       (VerticalLine.timeframe (_options this))) ]
        else []).
Proof.
  intros Hc Hs Hx.
  unfold VerticalLine.updateAllViews, updateAllViews_guarded,
    VerticalLine._calculateRendererData.
  rewrite (isAttached_true this chart series Hc Hs), Hc, Hs. simpl.
  rewrite Hx. cbn [VerticalLine.e_x]. f_equal.
  rewrite drawLineAndLabel_texts.
  pose proof (formatTimeLabel_nonempty newDate (_anchors this)
                (VerticalLine.timeframe (_options this))) as Hne.
  apply String.eqb_neq in Hne. rewrite Hne.
  destruct (VerticalLine.showTimeLabel (_options this)); reflexivity.
Qed.

Lemma verticalLine_label_painted_witness :
  (this' ← VerticalLine.updateAllViews
             (VerticalLine.formatTimeLabel monday_morning) vertical_example;
   mret (texts (VerticalLine.earlier_drawImpl (_data this')
                  (scope_of 1 1))))
  = Ok (if VerticalLine.showTimeLabel (_options vertical_example)
        then [ TStr (VerticalLine.formatTimeLabel monday_morning
                       (_anchors vertical_example)
                       (VerticalLine.timeframe (_options vertical_example))) ]
        else []).
Proof.
  apply (verticalLine_label_painted monday_morning vertical_example
           (param_chart example_param) (param_series example_param) 40);
    reflexivity.
Defined.

(** ** What the renderers print *)

Lemma batch_fold_texts (h chs : R)
    (l : list BackgroundRegions.BackgroundRegionRendererData)
    (calls : list CanvasCall) (b : BackgroundRegions.Batch) :
  texts calls = [] ->
  texts (fst (fold_left (BackgroundRegions.batchStep h chs) l (calls, b)))
  = [].
Proof.
  revert calls b. induction l as [|r l IH]; intros calls b Hn; [exact Hn|].
  cbn [fold_left]. unfold BackgroundRegions.batchStep at 2.
  destruct (bool_decide _ && _); apply IH; [exact Hn|].
  rewrite texts_app, Hn. unfold BackgroundRegions.drawBatch.
  destruct (BackgroundRegions.currentColor b),
    (BackgroundRegions.batchStartX b), (BackgroundRegions.batchEndX b);
    reflexivity.
Qed.

Lemma rectangle_drawBody_texts (data : Rectangle.RectangleRendererData)
    (scope : BitmapCoordinatesRenderingScope) :
  texts (Rectangle.drawBody data scope)
  = if Rectangle.d_showLabel data
       && (0 <? String.length (Rectangle.d_labelText data))%nat
    then [ TStr (Rectangle.d_labelText data) ] else [].
Proof.
  unfold Rectangle.drawBody. cbv zeta. rewrite !texts_app.
  destruct (bool_decide (Rectangle.d_extendMode data <> Rectangle.left)
            && bool_decide (Rectangle.d_extendMode data <> Rectangle.both));
  destruct (bool_decide (Rectangle.d_extendMode data <> Rectangle.right)
            && bool_decide (Rectangle.d_extendMode data <> Rectangle.both));
  destruct (Rectangle.d_showMiddleLine data);
  destruct (Rectangle.d_showLabel data
            && (0 <? String.length (Rectangle.d_labelText data))%nat);
  reflexivity.
Qed.

(** X20. What the renderers print.  The horizontal line, the horizontal
    ray and the background regions never print a text, whatever their
    snapshot says (the ray's [showPriceLabel] and [priceLabel] are not
    read by its renderer).  The rectangle, in both renderer variants,
    prints its label text, once, exactly when [showLabel] is set and the
    text is not empty, and nothing else.  A position with all its
    coordinates always prints exactly three texts. *)
Theorem printed_texts (scope : BitmapCoordinatesRenderingScope) :
  (forall data, texts (HorizontalLine.draw data scope) = []) /\
  (forall data, texts (HorizontalRay.draw data scope) = []) /\
  (forall data, texts (BackgroundRegions.draw data scope) = []) /\
  (forall data,
     texts (Rectangle.draw (Some data) scope)
     = (if Rectangle.d_showLabel data
           && negb (String.eqb (Rectangle.d_labelText data) "")
        then [ TStr (Rectangle.d_labelText data) ] else []) /\
     texts (Rectangle.variant_drawImpl (Some data) scope)
     = texts (Rectangle.draw (Some data) scope)) /\
  (forall data,
     ~ In None (required longPositionRenderer data) ->
     length (texts (LongPosition.draw (Some data) scope)) = 3%nat).
Proof.
  split; [|split; [|split; [|split]]].
  - intros [data|]; [|reflexivity].
    unfold HorizontalLine.draw, HorizontalLine._drawImpl.
    destruct (HorizontalLine.y data); [|reflexivity].
    cbv zeta. rewrite texts_app.
    destruct (HorizontalLine.d_selected data); reflexivity.
  - intros [data|]; [|reflexivity].
    unfold HorizontalRay.draw, HorizontalRay._drawImpl.
    destruct (pt_x (HorizontalRay.anchor data)),
      (pt_y (HorizontalRay.anchor data)),
      (pt_x (HorizontalRay.endPoint data)),
      (pt_y (HorizontalRay.endPoint data)); try reflexivity.
    cbv zeta. rewrite texts_app.
    destruct (HorizontalRay.d_selected data); reflexivity.
  - intros [data|]; [|reflexivity].
    unfold BackgroundRegions.draw, BackgroundRegions._drawImpl.
    destruct (bool_decide _); [reflexivity|]. cbv zeta.
    pose proof (batch_fold_texts (horizontalPixelRatio scope)
                  (Math.round (BackgroundRegions.chartHeight data
                               * verticalPixelRatio scope))
                  (BackgroundRegions.regions data) []
                  {| BackgroundRegions.currentColor := None;
                     BackgroundRegions.batchStartX := None;
                     BackgroundRegions.batchEndX := None |} eq_refl) as H.
    destruct (fold_left _ _ _) as [calls b]. cbn [fst] in H.
    rewrite texts_app, H. unfold BackgroundRegions.drawBatch.
    destruct (BackgroundRegions.currentColor b),
      (BackgroundRegions.batchStartX b), (BackgroundRegions.batchEndX b);
      reflexivity.
  - intros data.
    assert (Hlen : (0 <? String.length (Rectangle.d_labelText data))%nat
                   = negb (String.eqb (Rectangle.d_labelText data) "")).
    { destruct (Rectangle.d_labelText data); reflexivity. }
    unfold Rectangle.draw, Rectangle._drawImpl, Rectangle.variant_drawImpl.
    cbv zeta. rewrite !texts_app, rectangle_drawBody_texts, Hlen.
    assert (Hh : (forall x y c r, texts (_drawAnchorPoint x y c r) = []))
      by reflexivity.
    split.
    + destruct (Rectangle.d_selected data), (pt_x (Rectangle.p1 data)),
        (pt_y (Rectangle.p1 data)), (pt_x (Rectangle.p2 data)),
        (pt_y (Rectangle.p2 data));
        rewrite ?texts_app, ?Hh, ?app_nil_r; reflexivity.
    + destruct (Rectangle.d_selected data), (pt_x (Rectangle.p1 data)),
        (pt_y (Rectangle.p1 data)), (pt_x (Rectangle.p2 data)),
        (pt_y (Rectangle.p2 data));
        rewrite ?texts_app, ?Hh, ?app_nil_r; reflexivity.
  - intros data Hreq. cbn [required longPositionRenderer In] in Hreq.
    unfold LongPosition.draw, LongPosition._drawImpl.
    destruct (pt_x (LongPosition.entry data)),
      (pt_y (LongPosition.entry data)), (LongPosition.targetY data),
      (LongPosition.stopY data), (LongPosition.rightX data);
      try (exfalso; apply Hreq; tauto).
    cbv zeta. rewrite !texts_app, !length_app.
    destruct (LongPosition.direction data) as [[|]|],
      (LongPosition.d_selected data); reflexivity.
Qed.
